(** * x402-demo: the payment authorization and negotiation engine

    A shallow embedding of [src/character.ts]: the WEATHER_REPORT action
    (its [validate] gate and its [handler]), the two transport functions
    [fetchWeatherWithoutPayment] and [processPaymentAndFetchWeather], the
    encoding of the X-PAYMENT header, the WALLET_INFO action with
    [getWalletInfo], the plugin list of the character and the [init] of the
    plugin.

    Conventions of the embedding.
    - A JavaScript string is a [string] holding its UTF-8 bytes, so
      [Buffer.from(s)] is the identity on the bytes.  [toLowerCase] maps
      the ASCII letters and the two characters outside ASCII whose lowercase
      form holds an ASCII letter (U+212A and U+0130); the keywords the code
      looks for are ASCII, so no other character bears on a keyword test.
    - A value of type [any] (a parsed response body, a property of it) is a
      [jsval].  Numbers are the integer-valued ones.  The property list of a
      [VObject] is the object's own properties in enumeration order, with
      distinct keys; objects are plain data, as [JSON.parse] builds them.
    - [ToString] is the conversion a template literal, [String(x)] and
      [new Error(x)] apply.  It throws a TypeError on an object with an own
      [toString] property (a parsed body can hold one, and it is never a
      function), and the throw is modelled wherever the source converts a
      value of a response body.  A number is printed as its decimal numeral,
      which is what JavaScript prints for a safe integer (magnitude at most
      2^53 - 1); the properties about a text that prints a number of a body
      assume [safe_numbers] of that body.
    - Code that can throw returns [thrown + A]; effectful code runs in the
      monad [M] over a [World] that records every [fetch] and every
      [callback] issued, and counts the clock readings and the random bytes
      consumed.
    - What lives outside the repository (viem's key handling and typed-data
      signing, the HTTP server, the agent runtime's store and settings, the
      clock and the random source) is a field of [Platform] or of
      [IAgentRuntime].
    - [logger] calls have no effect on any result and are left out; the
      [callback] the handler is given records the reply and does not
      throw. *)

From Stdlib Require Import ZArith NArith List Bool Ascii String Lia.
From Stdlib Require Import DecimalString DecimalZ DecimalPos.
Import ListNotations.

Set Warnings "-register-all".

Local Open Scope string_scope.
Local Open Scope Z_scope.

(* ================================================================= *)
(** ** Strings *)

(** The lowercase form of an ASCII character. *)
Definition lower_ascii (c : ascii) : ascii :=
  let n := nat_of_ascii c in
  if (Nat.leb 65 n && Nat.leb n 90)%bool then ascii_of_nat (n + 32) else c.

(** [String.prototype.toLowerCase] on the UTF-8 text.  U+212A KELVIN SIGN
    (bytes E2 84 AA) becomes [k], and U+0130 (bytes C4 B0) becomes [i]
    followed by U+0307 (bytes CC 87); they are the only characters outside
    ASCII whose lowercase form holds an ASCII letter.  The other characters
    outside ASCII keep their bytes: their lowercase forms are outside ASCII
    too, so they cannot make or break an occurrence of an ASCII keyword. *)
Fixpoint toLowerCase (s : string) : string :=
  match s with
  | EmptyString => EmptyString
  | String "226"%char (String "132"%char (String "170"%char s')) =>
      String "k"%char (toLowerCase s')
  | String "196"%char (String "176"%char s') =>
      String "i"%char (String "204"%char (String "135"%char (toLowerCase s')))
  | String c s' => String (lower_ascii c) (toLowerCase s')
  end.

(** [String.prototype.includes]: [kw] occurs in [s] as a substring. *)
Fixpoint includes (s kw : string) : bool :=
  (String.prefix kw s
   || match s with
      | EmptyString => false
      | String _ s' => includes s' kw
      end)%bool.

(** [Array.prototype.includes] on an array of strings. *)
Definition array_includes (l : list string) (x : string) : bool :=
  existsb (String.eqb x) l.

(** [BigInt.prototype.toString] and the interpolation of an integer in a
    template literal: the decimal numeral. *)
Definition Z_toString (z : Z) : string :=
  NilZero.string_of_int (Z.to_int z).

(** A decimal numeral: digits, after an optional minus sign. *)
Definition is_digit (c : ascii) : bool :=
  (Nat.leb 48 (nat_of_ascii c) && Nat.leb (nat_of_ascii c) 57)%bool.

Fixpoint all_digits (s : string) : bool :=
  match s with
  | EmptyString => true
  | String c s' => (is_digit c && all_digits s')%bool
  end.


(* ================================================================= *)
(** ** Values of type [any] *)

Inductive jsval : Type :=
| VUndefined
| VNull
| VBool (b : bool)
| VNumber (n : Z)
| VString (s : string)
| VArray (elems : list jsval)
| VObject (props : list (string * jsval)).

(** What a [catch] clause can receive: an [Error] with its message, or a
    value that is not an [Error]. *)
Inductive thrown : Type :=
| JsError (message : string)
| NonError (v : jsval).

(** [error instanceof Error ? error.message : "Unknown error occurred"] *)
Definition error_message (e : thrown) : string :=
  match e with
  | JsError m => m
  | NonError _ => "Unknown error occurred"
  end.

(** ToBoolean. *)
Definition truthy (v : jsval) : bool :=
  match v with
  | VUndefined | VNull => false
  | VBool b => b
  | VNumber n => negb (n =? 0)
  | VString s => negb (s =? "")%string
  | VArray _ | VObject _ => true
  end.

(** [a || b] *)
Definition js_or (a b : jsval) : jsval := if truthy a then a else b.

Fixpoint assoc (k : string) (l : list (string * jsval)) : option jsval :=
  match l with
  | [] => None
  | (k', v) :: l' => if (k =? k')%string then Some v else assoc k l'
  end.

(** [v.k] for one of the property names the source reads ([error],
    [invalidReason], [report], [conditions], ...): none of them is a
    built-in property of a primitive or of an array, so only an object can
    have it; reading a property of [null] or [undefined] throws. *)
Definition get_prop (v : jsval) (k : string) : thrown + jsval :=
  match v with
  | VUndefined =>
      inl (JsError ("Cannot read properties of undefined (reading '" ++ k ++ "')"))
  | VNull =>
      inl (JsError ("Cannot read properties of null (reading '" ++ k ++ "')"))
  | VObject props =>
      inr (match assoc k props with Some x => x | None => VUndefined end)
  | _ => inr VUndefined
  end.

(** [v?.k] *)
Definition get_prop_opt (v : jsval) (k : string) : jsval :=
  match get_prop v k with
  | inr x => x
  | inl _ => VUndefined
  end.

(** [typeof v === "object"] *)
Definition typeof_object (v : jsval) : bool :=
  match v with
  | VNull | VArray _ | VObject _ => true
  | _ => false
  end.

(** Sequencing of code that can throw. *)
Definition and_then {A B : Type} (r : thrown + A) (k : A -> thrown + B)
  : thrown + B :=
  match r with
  | inl e => inl e
  | inr a => k a
  end.

(** The TypeError of a conversion to a primitive that finds no method to
    call. *)
Definition CANNOT_CONVERT : thrown :=
  JsError "Cannot convert object to primitive value".

(** ToString, as a template literal, [String(x)] and [new Error(x)] apply
    it.  An object is converted by its [toString] method, then by its
    [valueOf] method.  A plain object without an own [toString] inherits
    [Object.prototype.toString], which gives "[object Object]".  An own
    [toString] property hides the inherited method and, being data, is not
    a function; [valueOf] is then either an own property, not a function
    either, or the inherited method, which returns the object itself: no
    primitive is found and the conversion throws.  An array is converted by
    [join], which converts each element other than [undefined] and [null].
    A number is printed as its decimal numeral (see [safe_numbers]). *)
Fixpoint ToString (v : jsval) : thrown + string :=
  match v with
  | VUndefined => inr "undefined"
  | VNull => inr "null"
  | VBool true => inr "true"
  | VBool false => inr "false"
  | VNumber n => inr (Z_toString n)
  | VString s => inr s
  | VArray elems =>
      let fix items (l : list jsval) : thrown + list string :=
        match l with
        | [] => inr []
        | x :: l' =>
            and_then
              (match x with
               | VUndefined | VNull => inr ""
               | _ => ToString x
               end)
              (fun s => and_then (items l') (fun ss => inr (s :: ss)))
        end in
      and_then (items elems) (fun ss => inr (String.concat "," ss))
  | VObject props =>
      match assoc "toString" props with
      | Some _ => inl CANNOT_CONVERT
      | None => inr "[object Object]"
      end
  end.

(** [Number.isSafeInteger], for every number inside a value: the numbers
    that JavaScript prints as their decimal numeral in full. *)
Fixpoint safe_numbers (v : jsval) : bool :=
  match v with
  | VNumber n => Z.abs n <=? 9007199254740991
  | VArray elems => forallb safe_numbers elems
  | VObject props => forallb (fun p => safe_numbers (snd p)) props
  | _ => true
  end.

(** [v !== undefined ? `${v}unit` : "N/A"] *)
Definition measure (v : jsval) (unit : string) : thrown + string :=
  match v with
  | VUndefined => inr "N/A"
  | x => and_then (ToString x) (fun s => inr (s ++ unit))
  end.

(* ================================================================= *)
(** ** The agent runtime's data *)

Record Content : Type := mkContent {
  c_text : option string;
  c_actions : option (list string);
  c_source : option string
}.

Record Memory : Type := mkMemory {
  m_id : string;
  m_roomId : string;
  m_content : Content
}.

Record IAgentRuntime : Type := mkRuntime {
  (** [getMemories({roomId, count, tableName})]; it can throw. *)
  getMemories : string -> Z -> string -> thrown + list Memory;
  (** [getSetting(key)]; [None] is [undefined]. *)
  getSetting : string -> option string
}.

(** [x?.text?.toLowerCase() || ""] *)
Definition lowered_text (c : Content) : string :=
  match c_text c with
  | Some t => toLowerCase t
  | None => ""
  end.

(* ================================================================= *)
(** ** The approval gate: [weatherReportAction.validate] *)

Definition weatherKeywords : list string :=
  ["weather"; "temperature"; "forecast"; "climate";
   "weather report"; "weather forecast"].

Definition approvalKeywords : list string :=
  ["yes"; "approve"; "ok"; "okay"; "proceed"; "go ahead"; "sure"; "fine"].

Definition rejectionKeywords : list string :=
  ["no"; "deny"; "reject"; "cancel"; "stop"; "abort"; "decline"; "refuse"].

(** [keywords.some((keyword) => messageText.includes(keyword))] *)
Definition some_keyword (keywords : list string) (messageText : string) : bool :=
  existsb (fun keyword => includes messageText keyword) keywords.

Definition isWeatherRequest := some_keyword weatherKeywords.
Definition isApproval := some_keyword approvalKeywords.
Definition isRejection := some_keyword rejectionKeywords.

(** The callback of [recentMemories.some(...)]: the memory carries the
    WEATHER_REPORT action or a textual trace of the payment terms. *)
Definition isPaymentPrompt (mem : Memory) : bool :=
  let memText := lowered_text (m_content mem) in
  let hasWeatherAction :=
    match c_actions (m_content mem) with
    | Some acts => array_includes acts "WEATHER_REPORT"
    | None => false
    end in
  (hasWeatherAction
   || includes memText "0.001"
   || includes memText "usdc"
   || includes memText "payment")%bool.

Definition validate (runtime : IAgentRuntime) (message : Memory) : bool :=
  let messageText := lowered_text (m_content message) in
  if isApproval messageText then
    match getMemories runtime (m_roomId message) 10 "messages" with
    | inr recentMemories =>
        let hasPaymentPrompt := existsb isPaymentPrompt recentMemories in
        hasPaymentPrompt
    | inl _ => false
    end
  else if isRejection messageText then
    match getMemories runtime (m_roomId message) 10 "messages" with
    | inr recentMemories =>
        let hasPaymentPrompt := existsb isPaymentPrompt recentMemories in
        true
    | inl _ => true
    end
  else
    (isWeatherRequest messageText
     || isApproval messageText
     || isRejection messageText)%bool.

(** The lookback of [validate] finds nothing: the store throws, or none of
    the memories it returns (possibly none at all) is a payment prompt. *)
Definition snapshot_unavailable_or_empty
    (runtime : IAgentRuntime) (message : Memory) : Prop :=
  match getMemories runtime (m_roomId message) 10 "messages" with
  | inl _ => True
  | inr recentMemories => existsb isPaymentPrompt recentMemories = false
  end.

(* ================================================================= *)
(** ** [JSON.stringify] *)

Module Json.

Definition dquote : ascii := "034"%char.
Definition backslash : ascii := "092"%char.

Definition hex_digit (n : nat) : ascii :=
  nth n (list_ascii_of_string "0123456789abcdef") "0"%char.

(** Two lowercase hexadecimal digits of a byte. *)
Definition hex_byte (c : ascii) : string :=
  let n := nat_of_ascii c in
  String (hex_digit (n / 16)) (String (hex_digit (n mod 16)) "").

(** One character of a quoted string: the quote and the backslash are
    escaped, the control characters have their short escape or [\u00XX],
    every other byte is copied. *)
Definition quote_char (c : ascii) : string :=
  let esc (x : ascii) := String backslash (String x "") in
  match nat_of_ascii c with
  | 8%nat => esc "b"%char
  | 9%nat => esc "t"%char
  | 10%nat => esc "n"%char
  | 12%nat => esc "f"%char
  | 13%nat => esc "r"%char
  | 34%nat => esc dquote
  | 92%nat => esc backslash
  | n => if Nat.ltb n 32
         then String backslash ("u00" ++ hex_byte c)
         else String c ""
  end.

Fixpoint quote_body (s : string) : string :=
  match s with
  | EmptyString => EmptyString
  | String c s' => quote_char c ++ quote_body s'
  end.

(** QuoteJSONString. *)
Definition quote (s : string) : string :=
  String dquote (quote_body s ++ String dquote "").

(** [JSON.stringify(v)] without indentation; [None] is [undefined].  A
    property whose value is [undefined] is skipped, an array element that
    is [undefined] is written [null]. *)
Fixpoint stringify (v : jsval) : option string :=
  match v with
  | VUndefined => None
  | VNull => Some "null"
  | VBool true => Some "true"
  | VBool false => Some "false"
  | VNumber n => Some (Z_toString n)
  | VString s => Some (quote s)
  | VArray elems =>
      let item (x : jsval) : string :=
        match stringify x with Some t => t | None => "null" end in
      Some ("[" ++ String.concat "," (map item elems) ++ "]")
  | VObject props =>
      let member (p : string * jsval) : list string :=
        match stringify (snd p) with
        | Some t => [quote (fst p) ++ ":" ++ t]
        | None => []
        end in
      Some ("{" ++ String.concat "," (flat_map member props) ++ "}")
  end.

(** *** Reading JSON text *)

(** [strip lit s]: [s] without its prefix [lit]. *)
Fixpoint strip (lit s : string) : option string :=
  match lit with
  | EmptyString => Some s
  | String c lit' =>
      match s with
      | String d s' => if Ascii.eqb c d then strip lit' s' else None
      | EmptyString => None
      end
  end.

Definition hex_value (c : ascii) : option nat :=
  let n := nat_of_ascii c in
  if (Nat.leb 48 n && Nat.leb n 57)%bool then Some (n - 48)%nat
  else if (Nat.leb 97 n && Nat.leb n 102)%bool then Some (n - 87)%nat
  else if (Nat.leb 65 n && Nat.leb n 70)%bool then Some (n - 55)%nat
  else None.

Definition push (c : ascii) (r : option (string * string))
  : option (string * string) :=
  match r with
  | Some (x, rest) => Some (String c x, rest)
  | None => None
  end.

(** The characters of a string literal, after its opening quote and up
    to its closing quote, and the text that follows.  An escape [\uXXXX]
    is read when it denotes one byte (below U+0080). *)
Fixpoint read_chars (s : string) : option (string * string) :=
  match s with
  | EmptyString => None
  | String c s' =>
      if Ascii.eqb c dquote then Some (EmptyString, s')
      else if Ascii.eqb c backslash then
        match s' with
        | EmptyString => None
        | String e s'' =>
            if Ascii.eqb e "b" then push "008" (read_chars s'')
            else if Ascii.eqb e "t" then push "009" (read_chars s'')
            else if Ascii.eqb e "n" then push "010" (read_chars s'')
            else if Ascii.eqb e "f" then push "012" (read_chars s'')
            else if Ascii.eqb e "r" then push "013" (read_chars s'')
            else if Ascii.eqb e dquote then push dquote (read_chars s'')
            else if Ascii.eqb e backslash then push backslash (read_chars s'')
            else if Ascii.eqb e "/" then push "/" (read_chars s'')
            else if Ascii.eqb e "u" then
              match s'' with
              | String h1 (String h2 (String h3 (String h4 t))) =>
                  match hex_value h1, hex_value h2, hex_value h3, hex_value h4 with
                  | Some O, Some O, Some x, Some y =>
                      if Nat.ltb x 8
                      then push (ascii_of_nat (16 * x + y)) (read_chars t)
                      else None
                  | _, _, _, _ => None
                  end
              | _ => None
              end
            else None
        end
      else if Nat.ltb (nat_of_ascii c) 32 then None
      else push c (read_chars s')
  end.

(** The longest prefix of digits, and the rest. *)
Fixpoint span_digits (s : string) : string * string :=
  match s with
  | EmptyString => (EmptyString, EmptyString)
  | String c s' =>
      if is_digit c
      then let (d, rest) := span_digits s' in (String c d, rest)
      else (EmptyString, s)
  end.

(** An integer numeral; a fraction or an exponent is outside the
    numbers of the embedding. *)
Definition read_number (s : string) : option (Z * string) :=
  let (numeral, rest) :=
    match s with
    | String "-" s' => let (d, rest) := span_digits s' in (String "-" d, rest)
    | _ => span_digits s
    end in
  match rest with
  | String "." _ | String "e" _ | String "E" _ => None
  | _ =>
      match NilZero.int_of_string numeral with
      | Some i => Some (Z.of_int i, rest)
      | None => None
      end
  end.

(** A value, the elements of a non-empty array after its bracket, the
    members of a non-empty object after its brace; [fuel] bounds the
    nesting and the number of elements. *)
Fixpoint parse_value (fuel : nat) (s : string) {struct fuel}
  : option (jsval * string) :=
  match fuel with
  | O => None
  | S fuel' =>
      match s with
      | EmptyString => None
      | String c s' =>
          if Ascii.eqb c "n" then
            match strip "ull" s' with Some r => Some (VNull, r) | None => None end
          else if Ascii.eqb c "t" then
            match strip "rue" s' with Some r => Some (VBool true, r) | None => None end
          else if Ascii.eqb c "f" then
            match strip "alse" s' with Some r => Some (VBool false, r) | None => None end
          else if Ascii.eqb c dquote then
            match read_chars s' with
            | Some (x, r) => Some (VString x, r)
            | None => None
            end
          else if Ascii.eqb c "[" then
            match s' with
            | String "]" r => Some (VArray [], r)
            | _ =>
                match parse_elements fuel' s' with
                | Some (l, r) => Some (VArray l, r)
                | None => None
                end
            end
          else if Ascii.eqb c "{" then
            match s' with
            | String "}" r => Some (VObject [], r)
            | _ =>
                match parse_members fuel' s' with
                | Some (l, r) => Some (VObject l, r)
                | None => None
                end
            end
          else
            match read_number s with
            | Some (n, r) => Some (VNumber n, r)
            | None => None
            end
      end
  end

with parse_elements (fuel : nat) (s : string) {struct fuel}
  : option (list jsval * string) :=
  match fuel with
  | O => None
  | S fuel' =>
      match parse_value fuel' s with
      | Some (v, String c r) =>
          if Ascii.eqb c "," then
            match parse_elements fuel' r with
            | Some (l, r') => Some (v :: l, r')
            | None => None
            end
          else if Ascii.eqb c "]" then Some ([v], r)
          else None
      | _ => None
      end
  end

with parse_members (fuel : nat) (s : string) {struct fuel}
  : option (list (string * jsval) * string) :=
  match fuel with
  | O => None
  | S fuel' =>
      match s with
      | String q s1 =>
          if Ascii.eqb q dquote then
            match read_chars s1 with
            | Some (k, String colon s2) =>
                if Ascii.eqb colon ":" then
                  match parse_value fuel' s2 with
                  | Some (v, String c r) =>
                      if Ascii.eqb c "," then
                        match parse_members fuel' r with
                        | Some (l, r') => Some ((k, v) :: l, r')
                        | None => None
                        end
                      else if Ascii.eqb c "}" then Some ([(k, v)], r)
                      else None
                  | _ => None
                  end
                else None
            | _ => None
            end
          else None
      | EmptyString => None
      end
  end.

(** Modelled from the spec: the repository only encodes; the reading side
    of "decoding must exactly invert encoding" is [JSON.parse] on the
    compact text [JSON.stringify] writes (no white space, integer
    numbers).  The whole text must be one value. *)
Definition parse (s : string) : option jsval :=
  match parse_value (S (String.length s)) s with
  | Some (v, EmptyString) => Some v
  | _ => None
  end.

(** *** What the round trip is stated with *)

(** A value [JSON.stringify] writes in full: no [undefined] inside. *)
Fixpoint is_json (v : jsval) : bool :=
  match v with
  | VUndefined => false
  | VArray elems => forallb is_json elems
  | VObject props => forallb (fun p => is_json (snd p)) props
  | _ => true
  end.

(** The text of a value, as an array element has it. *)
Definition text_of (v : jsval) : string :=
  match stringify v with Some t => t | None => "null" end.

Definition member_text (p : string * jsval) : string :=
  quote (fst p) ++ ":" ++ text_of (snd p).

(** The fuel that reading a value back takes. *)
Fixpoint need (v : jsval) : nat :=
  match v with
  | VArray elems =>
      S (fold_right (fun x acc => S (Nat.max (need x) acc)) O elems)
  | VObject props =>
      S (fold_right (fun p acc => S (Nat.max (need (snd p)) acc)) O props)
  | _ => 1
  end.

Definition need_elems (elems : list jsval) : nat :=
  fold_right (fun x acc => S (Nat.max (need x) acc)) O elems.

Definition need_members (props : list (string * jsval)) : nat :=
  fold_right (fun p acc => S (Nat.max (need (snd p)) acc)) O props.

(** A text that cannot continue a number. *)
Definition ends_number (rest : string) : bool :=
  match rest with
  | EmptyString => true
  | String c _ =>
      negb (is_digit c || Ascii.eqb c "." || Ascii.eqb c "e" || Ascii.eqb c "E")
  end.

(** The characters a value's text can start with. *)
Definition starts_value (c : ascii) : bool :=
  (is_digit c || Ascii.eqb c "-" || Ascii.eqb c "n" || Ascii.eqb c "t"
   || Ascii.eqb c "f" || Ascii.eqb c dquote || Ascii.eqb c "["
   || Ascii.eqb c "{")%bool.

(** The text of [v] is read back, by any fuel that covers it, before any
    text that cannot continue a number. *)
Definition reads_back (v : jsval) : Prop :=
  is_json v = true ->
  forall fuel rest,
    (need v <= fuel)%nat -> ends_number rest = true ->
    parse_value fuel (text_of v ++ rest) = Some (v, rest).

End Json.

(* ================================================================= *)
(** ** [Buffer.prototype.toString("base64")] *)

Module Base64.

Definition alphabet : string :=
  "ABCDEFGHIJKLMNOPQRSTUVWXYZabcdefghijklmnopqrstuvwxyz0123456789+/".

Definition pad : ascii := "="%char.

(** The character of a six-bit group. *)
Definition digit (n : N) : ascii :=
  match String.get (N.to_nat n) alphabet with
  | Some c => c
  | None => pad
  end.

Definition byte (c : ascii) : N := N_of_ascii c.

(** Three bytes give four characters. *)
Definition encode3 (a b c : ascii) : string :=
  let n := (byte a * 65536 + byte b * 256 + byte c)%N in
  String (digit (n / 262144))
    (String (digit ((n / 4096) mod 64))
       (String (digit ((n / 64) mod 64))
          (String (digit (n mod 64)) "")))%N.

(** Two trailing bytes give three characters and one pad. *)
Definition encode2 (a b : ascii) : string :=
  let n := ((byte a * 256 + byte b) * 4)%N in
  String (digit (n / 4096))
    (String (digit ((n / 64) mod 64))
       (String (digit (n mod 64)) (String pad "")))%N.

(** One trailing byte gives two characters and two pads. *)
Definition encode1 (a : ascii) : string :=
  let n := (byte a * 16)%N in
  String (digit (n / 64))
    (String (digit (n mod 64)) (String pad (String pad "")))%N.

Fixpoint encode_bytes (l : list ascii) : string :=
  match l with
  | [] => ""
  | [a] => encode1 a
  | [a; b] => encode2 a b
  | a :: b :: c :: l' => encode3 a b c ++ encode_bytes l'
  end.

(** [Buffer.from(s).toString("base64")] *)
Definition encode (s : string) : string :=
  encode_bytes (list_ascii_of_string s).

(** *** Reading base64 text *)

Fixpoint index_of (c : ascii) (s : string) (i : N) : option N :=
  match s with
  | EmptyString => None
  | String x s' => if Ascii.eqb c x then Some i else index_of c s' (i + 1)%N
  end.

(** The six-bit group of a character of the alphabet. *)
Definition sextet (c : ascii) : option N := index_of c alphabet 0%N.

Definition is_empty (s : string) : bool :=
  match s with EmptyString => true | _ => false end.

(** Four characters give three bytes; the last group may end with one
    pad (two bytes) or two pads (one byte). *)
Fixpoint decode_bytes (s : string) : option (list ascii) :=
  match s with
  | EmptyString => Some []
  | String c1 (String c2 (String c3 (String c4 s'))) =>
      match sextet c1, sextet c2 with
      | Some v1, Some v2 =>
          if Ascii.eqb c3 pad then
            if (Ascii.eqb c4 pad && is_empty s')%bool
            then Some [ascii_of_N ((v1 * 64 + v2) / 16)]
            else None
          else
            match sextet c3 with
            | Some v3 =>
                if Ascii.eqb c4 pad then
                  if is_empty s' then
                    let n := (((v1 * 64 + v2) * 64 + v3) / 4)%N in
                    Some [ascii_of_N (n / 256); ascii_of_N (n mod 256)]
                  else None
                else
                  match sextet c4 with
                  | Some v4 =>
                      let n := (((v1 * 64 + v2) * 64 + v3) * 64 + v4)%N in
                      match decode_bytes s' with
                      | Some l =>
                          Some (ascii_of_N (n / 65536)
                                :: ascii_of_N ((n / 256) mod 256)
                                :: ascii_of_N (n mod 256) :: l)
                      | None => None
                      end
                  | None => None
                  end
            | None => None
            end
      | _, _ => None
      end
  | _ => None
  end%N.

(** Modelled from the spec: the repository only encodes; the reading side
    of "decoding must exactly invert encoding" for the transport-safe token
    is [Buffer.from(s, "base64").toString()]. *)
Definition decode (s : string) : option string :=
  option_map string_of_list_ascii (decode_bytes s).

End Base64.

(* ================================================================= *)
(** ** The platform and the monad of effects *)

Record Account : Type := mkAccount {
  address : string;
  (** the key the account signs with; the repository never reads it *)
  privateKey : string
}.

Record Domain : Type := mkDomain {
  d_name : string;
  d_version : string;
  d_chainId : Z;
  d_verifyingContract : string
}.

(** The EIP-3009 message: the Authorization. *)
Record Authorization : Type := mkAuthorization {
  from : string;
  to : string;
  value : Z;
  validAfter : Z;
  validBefore : Z;
  nonce : string
}.

(** The argument of [signTypedData] and of [verifyTypedData]. *)
Record TypedData : Type := mkTypedData {
  domain : Domain;
  types : list (string * list (string * string));
  primaryType : string;
  message : Authorization
}.

Record Request : Type := mkRequest {
  url : string;
  method : string;
  headers : list (string * string)
}.

Record Response : Type := mkResponse {
  status : Z;
  statusText : string;
  (** [response.json()]; it throws when the body is not JSON *)
  json : thrown + jsval
}.

Record Platform : Type := mkPlatform {
  (** the k-th reading of [Date.now()], in milliseconds *)
  clock : nat -> Z;
  (** the stream of bytes behind [crypto.getRandomValues] *)
  entropy : nat -> ascii;
  (** the answer to a request, given the requests issued before it; a
      transport failure throws *)
  network : list Request -> Request -> thrown + Response;
  privateKeyToAccount : string -> thrown + Account;
  signTypedData : Account -> TypedData -> thrown + string;
  (** [verifyTypedData({address, ...typedData, signature})] *)
  verifyTypedData : string -> TypedData -> string -> thrown + bool
}.

Record World : Type := mkWorld {
  ticks : nat;              (** clock readings taken *)
  drawn : nat;              (** random bytes consumed *)
  sent : list Request;      (** requests issued, oldest first *)
  replies : list Content    (** contents passed to [callback], oldest first *)
}.

Definition M (A : Type) : Type := World -> (thrown + A) * World.

Definition ret {A : Type} (a : A) : M A := fun w => (inr a, w).

Definition throw {A : Type} (e : thrown) : M A := fun w => (inl e, w).

Definition bind {A B : Type} (c : M A) (k : A -> M B) : M B :=
  fun w =>
    match c w with
    | (inr a, w') => k a w'
    | (inl e, w') => (inl e, w')
    end.

(** [try { c } catch (error) { h error }]: the effects of [c] stay. *)
Definition try_catch {A : Type} (c : M A) (h : thrown -> M A) : M A :=
  fun w =>
    match c w with
    | (inr a, w') => (inr a, w')
    | (inl e, w') => h e w'
    end.

Definition lift {A : Type} (r : thrown + A) : M A := fun w => (r, w).

Declare Scope monad_scope.
Delimit Scope monad_scope with monad.
Notation "x <- c ;; k" := (bind c (fun x => k))
  (at level 61, c at next level, right associativity) : monad_scope.
Local Open Scope monad_scope.

Definition dateNow (pf : Platform) : M Z :=
  fun w =>
    (inr (clock pf (ticks w)),
     mkWorld (S (ticks w)) (drawn w) (sent w) (replies w)).

(** [crypto.getRandomValues(new Uint8Array(n))] *)
Definition getRandomValues (pf : Platform) (n : nat) : M (list ascii) :=
  fun w =>
    (inr (map (fun i => entropy pf (drawn w + i)%nat) (seq 0 n)),
     mkWorld (ticks w) (drawn w + n)%nat (sent w) (replies w)).

Definition fetch (pf : Platform) (rq : Request) : M Response :=
  fun w =>
    (network pf (sent w) rq,
     mkWorld (ticks w) (drawn w) (sent w ++ [rq]) (replies w)).

Definition callback (c : Content) : M unit :=
  fun w =>
    (inr tt, mkWorld (ticks w) (drawn w) (sent w) (replies w ++ [c])).

(** viem's [toHex] of a byte array. *)
Definition toHex (bytes : list ascii) : string :=
  "0x" ++ String.concat "" (map Json.hex_byte bytes).

(* ================================================================= *)
(** ** Payment configuration and results *)

Definition USDC_ADDRESS : string := "0x036CbD53842c5426634e7929541eC2318f3dCF7e".
Definition PAYEE_ADDRESS : string := "0x903918bB1903714E0518Ea2122aCeBfa27f11b6F".

(** [baseSepolia.id] *)
Definition baseSepolia_id : Z := 84532.

Definition EIP3009_DOMAIN : Domain :=
  mkDomain "USDC" "2" baseSepolia_id USDC_ADDRESS.

Definition TRANSFER_WITH_AUTHORIZATION_TYPEHASH
  : list (string * list (string * string)) :=
  [("TransferWithAuthorization",
    [("from", "address"); ("to", "address"); ("value", "uint256");
     ("validAfter", "uint256"); ("validBefore", "uint256");
     ("nonce", "bytes32")])].

Definition createNonce (pf : Platform) : M string :=
  randomBytes <- getRandomValues pf 32 ;;
  ret (toHex randomBytes).

Record PaymentResult : Type := mkPaymentResult {
  pr_success : bool;
  pr_data : option jsval;
  pr_error : option jsval;
  pr_status : option Z
}.

(* ================================================================= *)
(** ** Transport without payment: [fetchWeatherWithoutPayment] *)

Definition fetchWeatherWithoutPayment (pf : Platform) (apiUrl : string)
  : M PaymentResult :=
  try_catch
    (response <- fetch pf
         (mkRequest (apiUrl ++ "/weather") "GET"
            [("Content-Type", "application/json")]) ;;
     data <- lift (json response) ;;
     ret (mkPaymentResult true (Some data) None (Some (status response))))
    (fun error =>
       ret (mkPaymentResult false None
              (Some (VString (error_message error))) None)).

(* ================================================================= *)
(** ** The payment pipeline: [processPaymentAndFetchWeather] *)

(** [parseUnits("0.001", 6)]: 0.001 USDC in units of 10^-6. *)
Definition amount : Z := 1000.

(** Lines 436-456, the Authorization Builder: a fresh nonce, then the
    validity window from two readings of the clock.  The source builds the
    message in line, with the constant [amount] as its value; [v] stands for
    that value, and the pipeline passes [amount]. *)
Definition buildAuthorization (pf : Platform) (account : Account) (v : Z)
  : M Authorization :=
  nonce <- createNonce pf ;;
  t1 <- dateNow pf ;;
  let validAfter := t1 / 1000 - 600 in
  t2 <- dateNow pf ;;
  let validBefore := t2 / 1000 + 3600 in
  ret (mkAuthorization (address account) PAYEE_ADDRESS v
         validAfter validBefore nonce).

Definition typedData (msg : Authorization) : TypedData :=
  mkTypedData EIP3009_DOMAIN TRANSFER_WITH_AUTHORIZATION_TYPEHASH
    "TransferWithAuthorization" msg.

(** Lines 490-505, the object [paymentPayload]. *)
Definition paymentPayload (signature : string) (account : Account)
    (v validAfter validBefore : Z) (nonce : string) : jsval :=
  VObject
    [("x402Version", VNumber 1);
     ("scheme", VString "exact");
     ("network", VString "base-sepolia");
     ("payload",
      VObject
        [("signature", VString signature);
         ("authorization",
          VObject
            [("from", VString (address account));
             ("to", VString PAYEE_ADDRESS);
             ("value", VString (Z_toString v));
             ("validAfter", VString (Z_toString validAfter));
             ("validBefore", VString (Z_toString validBefore));
             ("nonce", VString nonce)])])].

(** Lines 508-509: [Buffer.from(JSON.stringify(p)).toString("base64")];
    [Buffer.from(undefined)] throws. *)
Definition encodePayment (p : jsval) : thrown + string :=
  match Json.stringify p with
  | Some paymentJson => inr (Base64.encode paymentJson)
  | None =>
      inl (JsError "The first argument must be of type string or an instance of Buffer, ArrayBuffer, or Array or an Array-like Object. Received undefined")
  end.

(** Lines 514-545: the request carrying the header, and the
    classification of the response. *)
Definition requestWithPayment (pf : Platform) (apiUrl paymentHeader : string)
  : M PaymentResult :=
  response <- fetch pf
      (mkRequest (apiUrl ++ "/weather") "GET"
         [("Content-Type", "application/json");
          ("X-PAYMENT", paymentHeader)]) ;;
  data <- lift (json response) ;;
  if status response =? 200 then
    ret (mkPaymentResult true (Some data) None (Some (status response)))
  else
    data_error <- lift (get_prop data "error") ;;
    data_invalidReason <- lift (get_prop data "invalidReason") ;;
    ret (mkPaymentResult false (Some data)
           (Some (js_or data_error
                    (js_or data_invalidReason
                       (VString ("HTTP " ++ Z_toString (status response))))))
           (Some (status response))).

Definition processPaymentAndFetchWeather (pf : Platform)
    (privateKey apiUrl : string) : M PaymentResult :=
  try_catch
    (account <- lift (privateKeyToAccount pf privateKey) ;;
     msg <- buildAuthorization pf account amount ;;
     signature <- lift (signTypedData pf account (typedData msg)) ;;
     isValidSignature <-
       lift (verifyTypedData pf (address account) (typedData msg) signature) ;;
     if negb isValidSignature then
       ret (mkPaymentResult false None
              (Some (VString "Signature verification failed")) None)
     else
       paymentHeader <-
         lift (encodePayment
                 (paymentPayload signature account amount
                    (validAfter msg) (validBefore msg) (nonce msg))) ;;
       requestWithPayment pf apiUrl paymentHeader)
    (fun error =>
       ret (mkPaymentResult false None
              (Some (VString (error_message error))) None)).

(* ================================================================= *)
(** ** The action: [weatherReportAction.handler] *)

Record ActionResult : Type := mkActionResult {
  ar_text : string;
  ar_values : list (string * jsval);
  ar_data : list (string * jsval);
  ar_success : bool;
  (** the message of the [Error] object, when there is one *)
  ar_error : option string
}.

Definition nl : string := String "010"%char "".

Definition opt_val (o : option jsval) : jsval :=
  match o with Some v => v | None => VUndefined end.

Definition opt_num (o : option Z) : jsval :=
  match o with Some n => VNumber n | None => VUndefined end.

(** A [PaymentResult] as the object it is, with the properties it was
    built with. *)
Definition PaymentResult_value (r : PaymentResult) : jsval :=
  VObject
    ([("success", VBool (pr_success r))]
     ++ match pr_data r with Some d => [("data", d)] | None => [] end
     ++ match pr_status r with Some s => [("status", VNumber s)] | None => [] end
     ++ match pr_error r with Some e => [("error", e)] | None => [] end).

(** [{success: r.success, status: r.status, error: r.error}] *)
Definition result_summary (r : PaymentResult) : jsval :=
  VObject
    [("success", VBool (pr_success r));
     ("status", opt_num (pr_status r));
     ("error", opt_val (pr_error r))].

Definition DEFAULT_API_URL : string := "https://api-qvuk23ycha-uc.a.run.app".

(** [(runtime.getSetting("WEATHER_API_URL") as string) || "https://..."] *)
Definition weatherApiUrl (runtime : IAgentRuntime) : string :=
  match getSetting runtime "WEATHER_API_URL" with
  | Some u => if (u =? "")%string then DEFAULT_API_URL else u
  | None => DEFAULT_API_URL
  end.

(** [result.data?.report || result.data] *)
Definition weatherDataOf (r : PaymentResult) : jsval :=
  js_or (get_prop_opt (opt_val (pr_data r)) "report") (opt_val (pr_data r)).

Definition reply (messageText : string) (message : Memory) : Content :=
  mkContent (Some messageText) (Some ["WEATHER_REPORT"])
    (c_source (m_content message)).

Definition NO_HEADER_TEXT : string :=
  "X-PAYMENT header not found in the request, please attach the payment header to the request and try again.".

(** The bytes of the source file at these three places. *)
Definition SUN : string := "üå§Ô∏è".
Definition CHECK : string := "‚úÖ".
Definition DEGREES_F : string := "¬∞F".

(** Lines 764-787: the text of the reply to a rejection.  For a report
    that is an object the three measures are formatted first, as for the
    paid report, and then left unused; formatting one can throw. *)
Definition rejectionText (weatherData : jsval) : thrown + string :=
  if (truthy weatherData && typeof_object weatherData)%bool then
    let prop := get_prop_opt weatherData in
    let conditions :=
      js_or (prop "conditions")
        (js_or (prop "weather") (VString "Current conditions")) in
    and_then (measure (prop "temperature") DEGREES_F) (fun temperature =>
    and_then (measure (prop "humidity") "%") (fun humidity =>
    and_then (measure (prop "windSpeed") " mph") (fun windSpeed =>
    inr NO_HEADER_TEXT)))
  else
    inr NO_HEADER_TEXT.

(** Lines 714-818: the user rejected the payment. *)
Definition handleRejection (pf : Platform) (runtime : IAgentRuntime)
    (message : Memory) : M ActionResult :=
  let apiUrl := weatherApiUrl runtime in
  weatherResult <- fetchWeatherWithoutPayment pf apiUrl ;;
  if negb (pr_success weatherResult) then
    reason <- lift (ToString (js_or (opt_val (pr_error weatherResult))
                                (VString "Unknown error"))) ;;
    let errorMsg := "Failed to fetch weather data: " ++ reason in
    _ <- callback (reply errorMsg message) ;;
    timestamp <- dateNow pf ;;
    errorMessage <- lift (ToString (js_or (opt_val (pr_error weatherResult))
                                      (VString "Weather fetch failed"))) ;;
    ret (mkActionResult
           "Failed to fetch weather after payment rejection"
           [("success", VBool false);
            ("error", js_or (opt_val (pr_error weatherResult))
                        (VString "WEATHER_FETCH_FAILED"))]
           [("actionName", VString "WEATHER_REPORT");
            ("messageId", VString (m_id message));
            ("timestamp", VNumber timestamp);
            ("weatherResult", result_summary weatherResult)]
           false
           (Some errorMessage))
  else
    let weatherData := weatherDataOf weatherResult in
    weatherText <- lift (rejectionText weatherData) ;;
    _ <- callback (reply weatherText message) ;;
    timestamp <- dateNow pf ;;
    ret (mkActionResult
           "Provided weather report after payment rejection"
           [("success", VBool true);
            ("weatherReported", VBool true);
            ("paymentRejected", VBool true)]
           [("actionName", VString "WEATHER_REPORT");
            ("messageId", VString (m_id message));
            ("timestamp", VNumber timestamp);
            ("weatherData", weatherData);
            ("weatherResult", result_summary weatherResult)]
           true None).

(** Lines 901-929: the text of the weather report.  The three measures
    are formatted first, then the conditions inside the text; each of the
    four conversions can throw. *)
Definition weatherReportText (weatherData : jsval) : thrown + string :=
  if (truthy weatherData && typeof_object weatherData)%bool then
    let prop := get_prop_opt weatherData in
    let conditions :=
      js_or (prop "conditions")
        (js_or (prop "weather") (VString "Current conditions")) in
    and_then (measure (prop "temperature") DEGREES_F) (fun temperature =>
    and_then (measure (prop "humidity") "%") (fun humidity =>
    and_then (measure (prop "windSpeed") " mph") (fun windSpeed =>
    and_then (ToString conditions) (fun conditionsText =>
    inr (SUN ++ " Weather Report:" ++ nl
         ++ "Current Conditions: " ++ conditionsText ++ nl
         ++ "Temperature: " ++ temperature ++ nl
         ++ (if negb (humidity =? "N/A")%string
             then "Humidity: " ++ humidity ++ nl else "")
         ++ (if negb (windSpeed =? "N/A")%string
             then "Wind Speed: " ++ windSpeed ++ nl else "")
         ++ CHECK ++ " Payment processed successfully!")))))
  else
    inr (SUN ++ " Weather Report:" ++ nl
         ++ match Json.stringify weatherData with
            | Some t => t
            | None => "undefined"
            end ++ nl
         ++ CHECK ++ " Payment processed successfully!").

(** Lines 821-954: the user approved the payment. *)
Definition handleApproval (pf : Platform) (runtime : IAgentRuntime)
    (message : Memory) : M ActionResult :=
  let apiUrl := weatherApiUrl runtime in
  match getSetting runtime "PRIVATE_KEY" with
  | None | Some EmptyString =>
      let errorMsg :=
        "Payment processing failed: PRIVATE_KEY not configured. Please set PRIVATE_KEY in your environment variables." in
      _ <- callback (reply errorMsg message) ;;
      timestamp <- dateNow pf ;;
      ret (mkActionResult
             "Payment processing failed - missing configuration"
             [("success", VBool false);
              ("error", VString "MISSING_PRIVATE_KEY")]
             [("actionName", VString "WEATHER_REPORT");
              ("messageId", VString (m_id message));
              ("timestamp", VNumber timestamp)]
             false (Some "PRIVATE_KEY not configured"))
  | Some privateKey =>
      paymentResult <- processPaymentAndFetchWeather pf privateKey apiUrl ;;
      if negb (pr_success paymentResult) then
        reason <- lift (ToString (js_or (opt_val (pr_error paymentResult))
                                    (VString "Unknown error"))) ;;
        let errorMsg := "Payment processing failed: " ++ reason in
        _ <- callback (reply errorMsg message) ;;
        timestamp <- dateNow pf ;;
        errorMessage <- lift (ToString (js_or (opt_val (pr_error paymentResult))
                                          (VString "Payment failed"))) ;;
        ret (mkActionResult
               "Payment processing failed"
               [("success", VBool false);
                ("error", js_or (opt_val (pr_error paymentResult))
                            (VString "PAYMENT_FAILED"))]
               [("actionName", VString "WEATHER_REPORT");
                ("messageId", VString (m_id message));
                ("timestamp", VNumber timestamp);
                ("paymentResult", PaymentResult_value paymentResult)]
               false
               (Some errorMessage))
      else
        let weatherData := weatherDataOf paymentResult in
        weatherText <- lift (weatherReportText weatherData) ;;
        _ <- callback (reply weatherText message) ;;
        timestamp <- dateNow pf ;;
        ret (mkActionResult
               "Provided weather report after payment approval"
               [("success", VBool true);
                ("weatherReported", VBool true);
                ("paymentApproved", VBool true)]
               [("actionName", VString "WEATHER_REPORT");
                ("messageId", VString (m_id message));
                ("timestamp", VNumber timestamp);
                ("weatherData", weatherData);
                ("paymentResult", PaymentResult_value paymentResult)]
               true None)
  end.

Definition PAYMENT_PROMPT : string :=
  "To access weather reports, you need to add a payment of 0.001 USDC. Do you approve this?".

(** Lines 955-983: a weather request, answered by the payment prompt. *)
Definition promptForPayment (pf : Platform) (message : Memory)
  : M ActionResult :=
  let paymentPrompt := PAYMENT_PROMPT in
  _ <- callback (reply paymentPrompt message) ;;
  timestamp <- dateNow pf ;;
  ret (mkActionResult
         "Prompted user for payment approval"
         [("success", VBool true); ("paymentPrompted", VBool true)]
         [("actionName", VString "WEATHER_REPORT");
          ("messageId", VString (m_id message));
          ("timestamp", VNumber timestamp);
          ("awaitingApproval", VBool true)]
         true None).

(** [error instanceof Error ? error.message : String(error)] *)
Definition error_text (e : thrown) : thrown + string :=
  match e with
  | JsError m => inr m
  | NonError v => ToString v
  end.

Definition HANDLER_FAILED_TEXT : string :=
  "Failed to handle weather report request".

(** Lines 984-1000: what the handler returns when its body threw.  The
    callback is not called here. *)
Definition handlerCatch (error : thrown) : M ActionResult :=
  errorText <- lift (error_text error) ;;
  ret (mkActionResult
         HANDLER_FAILED_TEXT
         [("success", VBool false);
          ("error", VString "WEATHER_REPORT_FAILED")]
         [("actionName", VString "WEATHER_REPORT");
          ("error", VString errorText)]
         false (Some errorText)).

Definition handler (pf : Platform) (runtime : IAgentRuntime)
    (message : Memory) : M ActionResult :=
  try_catch
    (let messageText := lowered_text (m_content message) in
     if isRejection messageText then handleRejection pf runtime message
     else if isApproval messageText then handleApproval pf runtime message
     else promptForPayment pf message)
    handlerCatch.

(* ================================================================= *)
(** ** The wire format, as the protocol describes it *)

(** A string between quotes, nothing escaped. *)
Definition quoted (s : string) : string :=
  String Json.dquote (s ++ String Json.dquote "").

(** The text of the Payment Payload, written out member by member: the
    version is a numeral, the three numeric fields of the authorization are
    decimal numerals between quotes, and the strings that come from outside
    ([signature], [from], [nonce]) are JSON-quoted. *)
Definition wireText (signature : string) (a : Authorization) : string :=
  "{" ++ quoted "x402Version" ++ ":1,"
  ++ quoted "scheme" ++ ":" ++ quoted "exact" ++ ","
  ++ quoted "network" ++ ":" ++ quoted "base-sepolia" ++ ","
  ++ quoted "payload" ++ ":{"
  ++ quoted "signature" ++ ":" ++ Json.quote signature ++ ","
  ++ quoted "authorization" ++ ":{"
  ++ quoted "from" ++ ":" ++ Json.quote (from a) ++ ","
  ++ quoted "to" ++ ":" ++ quoted PAYEE_ADDRESS ++ ","
  ++ quoted "value" ++ ":" ++ quoted (Z_toString (value a)) ++ ","
  ++ quoted "validAfter" ++ ":" ++ quoted (Z_toString (validAfter a)) ++ ","
  ++ quoted "validBefore" ++ ":" ++ quoted (Z_toString (validBefore a)) ++ ","
  ++ quoted "nonce" ++ ":" ++ Json.quote (nonce a)
  ++ "}}}".

(* ================================================================= *)
(** ** The receiving side: decoding the header *)

(** The Signed Authorization: the Authorization and its signature. *)
Record SignedAuthorization : Type := mkSignedAuthorization {
  sa_signature : string;
  sa_authorization : Authorization
}.

(** [v.k], when [v] is an object that has it. *)
Definition field (k : string) (v : jsval) : option jsval :=
  match v with
  | VObject props => assoc k props
  | _ => None
  end.

Definition string_field (k : string) (v : jsval) : option string :=
  match field k v with
  | Some (VString s) => Some s
  | _ => None
  end.

(** [BigInt(v.k)] for a field holding a decimal numeral. *)
Definition decimal_field (k : string) (v : jsval) : option Z :=
  match string_field k v with
  | Some s => option_map Z.of_int (NilZero.int_of_string s)
  | None => None
  end.

Definition option_bind {A B : Type} (o : option A) (k : A -> option B)
  : option B :=
  match o with Some a => k a | None => None end.

(** Modelled from the spec: the repository has no decoder (the server that
    reads the header is not part of it).  "Decoding must exactly invert
    encoding": undo the base64 encoding, parse the JSON text, and read the
    Signed Authorization out of [payload], turning the three decimal
    strings back into integers. *)
Definition decodePayment (paymentHeader : string) : option SignedAuthorization :=
  option_bind (Base64.decode paymentHeader) (fun paymentJson =>
  option_bind (Json.parse paymentJson) (fun p =>
  option_bind (field "payload" p) (fun payload =>
  option_bind (string_field "signature" payload) (fun signature =>
  option_bind (field "authorization" payload) (fun a =>
  option_bind (string_field "from" a) (fun a_from =>
  option_bind (string_field "to" a) (fun a_to =>
  option_bind (decimal_field "value" a) (fun a_value =>
  option_bind (decimal_field "validAfter" a) (fun a_validAfter =>
  option_bind (decimal_field "validBefore" a) (fun a_validBefore =>
  option_bind (string_field "nonce" a) (fun a_nonce =>
  Some (mkSignedAuthorization signature
          (mkAuthorization a_from a_to a_value a_validAfter a_validBefore
             a_nonce))))))))))))).

(* ================================================================= *)
(** ** Names for the steps of a run *)

(** The nonce [createNonce] draws in world [w]: the next 32 bytes of the
    random stream, in hexadecimal. *)
Definition nonceAt (pf : Platform) (w : World) : string :=
  toHex (map (fun i => entropy pf (drawn w + i)%nat) (seq 0 32)).

(** The Authorization the builder returns when it starts in world [w], and
    the world it leaves. *)
Definition builtAuthorization (pf : Platform) (account : Account) (v : Z)
    (w : World) : Authorization :=
  mkAuthorization (address account) PAYEE_ADDRESS v
    (clock pf (ticks w) / 1000 - 600)
    (clock pf (S (ticks w)) / 1000 + 3600)
    (nonceAt pf w).

Definition afterBuild (w : World) : World :=
  mkWorld (S (S (ticks w))) (drawn w + 32)%nat (sent w) (replies w).

(** The world after one more request. *)
Definition afterRequest (rq : Request) (w : World) : World :=
  mkWorld (ticks w) (drawn w) (sent w ++ [rq]) (replies w).

(** The request of the rejection branch, and the one that pays. *)
Definition plainRequest (apiUrl : string) : Request :=
  mkRequest (apiUrl ++ "/weather") "GET"
    [("Content-Type", "application/json")].

Definition paidRequest (apiUrl paymentHeader : string) : Request :=
  mkRequest (apiUrl ++ "/weather") "GET"
    [("Content-Type", "application/json"); ("X-PAYMENT", paymentHeader)].

(** The outcome of the [catch] clause of both transport functions. *)
Definition failed (e : thrown) : PaymentResult :=
  mkPaymentResult false None (Some (VString (error_message e))) None.

(** The SignatureError outcome. *)
Definition signatureError : PaymentResult :=
  mkPaymentResult false None
    (Some (VString "Signature verification failed")) None.

(** The classification of lines 526-545, for a body that is not [null]. *)
Definition classified (resp : Response) (data : jsval) : PaymentResult :=
  if status resp =? 200 then
    mkPaymentResult true (Some data) None (Some (status resp))
  else
    mkPaymentResult false (Some data)
      (Some (js_or (get_prop_opt data "error")
               (js_or (get_prop_opt data "invalidReason")
                  (VString ("HTTP " ++ Z_toString (status resp))))))
      (Some (status resp)).


(* ================================================================= *)
(** ** Fixtures: a runtime, a paywalled server, a platform *)

Definition has_header (name : string) (rq : Request) : bool :=
  existsb (fun h => (fst h =? name)%string) (headers rq).

(** A server that sells the report: 200 with the report when the request
    carries the payment header, 402 otherwise. *)
Definition paywall (rq : Request) : thrown + Response :=
  if has_header "X-PAYMENT" rq then
    inr (mkResponse 200 "OK"
           (inr (VObject
                   [("report",
                     VObject [("conditions", VString "Sunny");
                              ("temperature", VNumber 72)])])))
  else
    inr (mkResponse 402 "Payment Required"
           (inr (VObject [("error", VString "X-PAYMENT header is required")]))).

(** A server that turns the payment down. *)
Definition insufficient_funds (rq : Request) : thrown + Response :=
  inr (mkResponse 402 "Payment Required"
         (inr (VObject [("invalidReason", VString "insufficient_funds")]))).

Definition fixtureAccount (key : string) : Account :=
  mkAccount "0x1111111111111111111111111111111111111111" key.

(** The clock starts at second 1690000000 and advances one millisecond
    per reading; [valid] is the verdict of the local verification. *)
Definition fixturePlatform (server : Request -> thrown + Response)
    (valid : bool) : Platform :=
  mkPlatform
    (fun k => 1690000000000 + Z.of_nat k)
    (fun i => ascii_of_nat i)
    (fun _ rq => server rq)
    (fun key => inr (fixtureAccount key))
    (fun _ _ => inr "0xfeed")
    (fun _ _ _ => inr valid).

(** A runtime with the key configured and the given memories. *)
Definition fixtureRuntime (memories : thrown + list Memory) : IAgentRuntime :=
  mkRuntime
    (fun _ _ _ => memories)
    (fun k => if (k =? "PRIVATE_KEY")%string then Some "0xkey" else None).

Definition userMessage (t : string) : Memory :=
  mkMemory "m1" "room" (mkContent (Some t) None (Some "test")).

Definition w0 : World := mkWorld 0 0 [] [].

(* ================================================================= *)
(** ** More names for the properties *)

(** The reply of the approval branch when no key is configured. *)
Definition MISSING_KEY_TEXT : string :=
  "Payment processing failed: PRIVATE_KEY not configured. Please set PRIVATE_KEY in your environment variables.".

(** The outcome of the transport step of the pipeline for the request
    [rq], after the requests [before]: lines 514-552. *)
Definition transportOutcome (pf : Platform) (before : list Request)
    (rq : Request) : PaymentResult :=
  match network pf before rq with
  | inl e => failed e
  | inr response =>
      match json response with
      | inl e => failed e
      | inr data =>
          if status response =? 200 then classified response data
          else
            match get_prop data "error" with
            | inl e => failed e
            | inr _ => classified response data
            end
      end
  end.

(** A lowercase hexadecimal digit. *)
Definition is_hex_lower (c : ascii) : bool :=
  let n := nat_of_ascii c in
  ((Nat.leb 48 n && Nat.leb n 57) || (Nat.leb 97 n && Nat.leb n 102))%bool.

Fixpoint all_hex_lower (s : string) : bool :=
  match s with
  | EmptyString => true
  | String c s' => (is_hex_lower c && all_hex_lower s')%bool
  end.

(** The bytes a text of hexadecimal digit pairs stands for. *)
Fixpoint unhex (s : string) : option (list ascii) :=
  match s with
  | EmptyString => Some []
  | String h (String l s') =>
      match Json.hex_value h, Json.hex_value l, unhex s' with
      | Some x, Some y, Some bytes => Some (ascii_of_nat (16 * x + y) :: bytes)
      | _, _, _ => None
      end
  | String _ EmptyString => None
  end.

(** The 32 bytes [createNonce] draws in world [w]. *)
Definition nonceBytes (pf : Platform) (w : World) : list ascii :=
  map (fun i => entropy pf (drawn w + i)%nat) (seq 0 32).

(** Whether [ToString] converts a value, and the text it then gives. *)
Definition prints (v : jsval) : bool :=
  match ToString v with
  | inr _ => true
  | inl _ => false
  end.

Definition text_of (v : jsval) : string :=
  match ToString v with
  | inr s => s
  | inl _ => ""
  end.

(** The conditions shown for a report:
    [weatherData.conditions || weatherData.weather || "Current conditions"] *)
Definition conditionsOf (weatherData : jsval) : jsval :=
  js_or (get_prop_opt weatherData "conditions")
    (js_or (get_prop_opt weatherData "weather") (VString "Current conditions")).

(** The three measures of a report can all be converted to text. *)
Definition measures_print (weatherData : jsval) : bool :=
  (prints (get_prop_opt weatherData "temperature")
   && prints (get_prop_opt weatherData "humidity")
   && prints (get_prop_opt weatherData "windSpeed"))%bool.

(** The text of the reply of the approval branch once the pipeline has
    returned: the weather report on a success (lines 897-929), the reason
    of the failure otherwise (line 869). *)
Definition approvalReplyText (r : PaymentResult) : thrown + string :=
  if pr_success r then weatherReportText (weatherDataOf r)
  else and_then
         (ToString (js_or (opt_val (pr_error r)) (VString "Unknown error")))
         (fun s => inr ("Payment processing failed: " ++ s)).

(** A measure as the report shows it: "N/A" for a property that is not
    there, else its text and its unit. *)
Definition measureText (v : jsval) (unit : string) : string :=
  match v with
  | VUndefined => "N/A"
  | x => text_of x ++ unit
  end.

(** A line of the report that is there only when the property is. *)
Definition optionalLine (label : string) (v : jsval) (unit : string) : string :=
  match v with
  | VUndefined => ""
  | x => label ++ text_of x ++ unit ++ nl
  end.

(** The text of the weather report for a report object, line by line. *)
Definition reportLines (weatherData : jsval) : string :=
  let prop := get_prop_opt weatherData in
  SUN ++ " Weather Report:" ++ nl
  ++ "Current Conditions: " ++ text_of (conditionsOf weatherData) ++ nl
  ++ "Temperature: " ++ measureText (prop "temperature") DEGREES_F ++ nl
  ++ optionalLine "Humidity: " (prop "humidity") "%"
  ++ optionalLine "Wind Speed: " (prop "windSpeed") " mph"
  ++ CHECK ++ " Payment processed successfully!".

(* ================================================================= *)
(** ** The wallet information: [getWalletInfo] and [walletInfoAction] *)

(** What viem reads on the chain and how numbers are printed; none of it
    is code of the repository. *)
Record Chain : Type := mkChain {
  (** [baseSepolia.name] *)
  chain_name : string;
  (** [baseSepolia.blockExplorers?.default?.url] *)
  chain_explorer : option string;
  (** [publicClient.getBalance({address})] *)
  getBalance : string -> thrown + Z;
  (** [getContract({address: c, ...}).read.balanceOf([owner])] *)
  balanceOf : string -> string -> thrown + Z;
  (** viem's [formatUnits(value, decimals)] *)
  formatUnits : Z -> Z -> string;
  (** [parseFloat(s).toFixed(6)], a floating-point computation *)
  toFixed6 : string -> string
}.

Record WalletInfo : Type := mkWalletInfo {
  wi_address : string;
  wi_nativeBalance : string;
  wi_usdcBalance : string;
  wi_network : string;
  wi_chainId : Z;
  wi_blockExplorer : option string
}.

(** [getWalletInfo]: [None] is [null], returned when anything throws. *)
Definition getWalletInfo (pf : Platform) (chain : Chain) (privateKey : string)
  : option WalletInfo :=
  match privateKeyToAccount pf privateKey with
  | inl _ => None
  | inr account =>
      match getBalance chain (address account) with
      | inl _ => None
      | inr nativeBalance =>
          match balanceOf chain USDC_ADDRESS (address account) with
          | inl _ => None
          | inr usdcBalanceRaw =>
              let nativeBalanceFormatted := formatUnits chain nativeBalance 18 in
              let usdcBalanceFormatted := formatUnits chain usdcBalanceRaw 6 in
              Some (mkWalletInfo (address account) nativeBalanceFormatted
                      usdcBalanceFormatted (chain_name chain) baseSepolia_id
                      (chain_explorer chain))
          end
      end
  end.

Definition WalletInfo_value (i : WalletInfo) : jsval :=
  VObject
    [("address", VString (wi_address i));
     ("nativeBalance", VString (wi_nativeBalance i));
     ("usdcBalance", VString (wi_usdcBalance i));
     ("network", VString (wi_network i));
     ("chainId", VNumber (wi_chainId i));
     ("blockExplorer",
      match wi_blockExplorer i with Some u => VString u | None => VUndefined end)].

Module WalletInfoAction.

Definition walletKeywords : list string :=
  ["wallet"; "address"; "balance"; "account"; "my wallet"; "wallet address";
   "show me my wallet"; "give me my wallet"; "what is my wallet"].

Definition validate (message : Memory) : bool :=
  let messageText := lowered_text (m_content message) in
  some_keyword walletKeywords messageText.

Definition reply (messageText : string) (message : Memory) : Content :=
  mkContent (Some messageText) (Some ["WALLET_INFO"])
    (c_source (m_content message)).

Definition MISSING_KEY_TEXT : string :=
  "Wallet information unavailable: PRIVATE_KEY not configured. Please set PRIVATE_KEY in your environment variables.".

Definition FETCH_FAILED_TEXT : string :=
  "Failed to retrieve wallet information. Please check your network connection.".

(** Lines 1179-1190, the text of the answer. *)
Definition walletText (chain : Chain) (walletInfo : WalletInfo) : string :=
  "üëõ Wallet Information:"
  ++ nl
  ++ nl
  ++ "üìç Address: "
  ++ (wi_address walletInfo)
  ++ nl
  ++ nl
  ++ "üí∞ Balances:"
  ++ nl
  ++ "   ‚Ä¢ Native Token (ETH): "
  ++ (toFixed6 chain (wi_nativeBalance walletInfo))
  ++ " ETH"
  ++ nl
  ++ "   ‚Ä¢ USDC: "
  ++ (toFixed6 chain (wi_usdcBalance walletInfo))
  ++ " USDC"
  ++ nl
  ++ nl
  ++ "üåê Network:"
  ++ nl
  ++ "   ‚Ä¢ Network: "
  ++ (wi_network walletInfo)
  ++ nl
  ++ "   ‚Ä¢ Chain ID: "
  ++ (Z_toString (wi_chainId walletInfo))
  ++ nl
  ++ "   ‚Ä¢ Block Explorer: "
  ++ (match wi_blockExplorer walletInfo with
     | Some u => if (u =? "")%string then "N/A" else u
     | None => "N/A"
     end).

Definition handler (pf : Platform) (chain : Chain) (runtime : IAgentRuntime)
    (message : Memory) : M ActionResult :=
  try_catch
    (match getSetting runtime "PRIVATE_KEY" with
     | None | Some EmptyString =>
         let errorMsg := MISSING_KEY_TEXT in
         _ <- callback (reply errorMsg message) ;;
         timestamp <- dateNow pf ;;
         ret (mkActionResult
                "Wallet info unavailable - missing configuration"
                [("success", VBool false);
                 ("error", VString "MISSING_PRIVATE_KEY")]
                [("actionName", VString "WALLET_INFO");
                 ("messageId", VString (m_id message));
                 ("timestamp", VNumber timestamp)]
                false (Some "PRIVATE_KEY not configured"))
     | Some privateKey =>
         match getWalletInfo pf chain privateKey with
         | None =>
             let errorMsg := FETCH_FAILED_TEXT in
             _ <- callback (reply errorMsg message) ;;
             timestamp <- dateNow pf ;;
             ret (mkActionResult
                    "Failed to retrieve wallet info"
                    [("success", VBool false);
                     ("error", VString "WALLET_INFO_FETCH_FAILED")]
                    [("actionName", VString "WALLET_INFO");
                     ("messageId", VString (m_id message));
                     ("timestamp", VNumber timestamp)]
                    false (Some "Failed to fetch wallet info"))
         | Some walletInfo =>
             _ <- callback (reply (walletText chain walletInfo) message) ;;
             timestamp <- dateNow pf ;;
             ret (mkActionResult
                    "Provided wallet information"
                    [("success", VBool true);
                     ("walletInfoProvided", VBool true)]
                    [("actionName", VString "WALLET_INFO");
                     ("messageId", VString (m_id message));
                     ("timestamp", VNumber timestamp);
                     ("walletInfo", WalletInfo_value walletInfo)]
                    true None)
         end
     end)
    (fun error =>
       errorText <- lift (error_text error) ;;
       ret (mkActionResult
              "Failed to retrieve wallet information"
              [("success", VBool false);
               ("error", VString "WALLET_INFO_FAILED")]
              [("actionName", VString "WALLET_INFO");
               ("error", VString errorText)]
              false (Some errorText))).

End WalletInfoAction.

(* ================================================================= *)
(** ** The character's plugins and the plugin's [init] *)

(** [process.env]: a variable is a string or is not set. *)
Definition Env : Type := string -> option string.

(** [s.trim()] is empty: [s] holds white space and line terminators only
    (the ASCII ones and, in UTF-8, U+00A0, U+1680, U+2000 to U+200A,
    U+2028, U+2029, U+202F, U+205F, U+3000 and U+FEFF). *)
Fixpoint blank (s : string) : bool :=
  match s with
  | EmptyString => true
  | String c s1 =>
      let n := nat_of_ascii c in
      if ((Nat.leb 9 n && Nat.leb n 13) || Nat.eqb n 32)%bool then blank s1
      else
        match s1 with
        | String c2 s2 =>
            let n2 := nat_of_ascii c2 in
            if (Nat.eqb n 194 && Nat.eqb n2 160)%bool then blank s2
            else
              match s2 with
              | String c3 s3 =>
                  let n3 := nat_of_ascii c3 in
                  if ((Nat.eqb n 225 && Nat.eqb n2 154 && Nat.eqb n3 128)
                      || (Nat.eqb n 226 && Nat.eqb n2 128
                          && ((Nat.leb 128 n3 && Nat.leb n3 138)
                              || Nat.eqb n3 168 || Nat.eqb n3 169
                              || Nat.eqb n3 175))
                      || (Nat.eqb n 226 && Nat.eqb n2 129 && Nat.eqb n3 159)
                      || (Nat.eqb n 227 && Nat.eqb n2 128 && Nat.eqb n3 128)
                      || (Nat.eqb n 239 && Nat.eqb n2 187 && Nat.eqb n3 191))%bool
                  then blank s3
                  else false
              | EmptyString => false
              end
        | EmptyString => false
        end
  end.

(** [process.env.K?.trim()] is truthy. *)
Definition set_and_not_blank (env : Env) (k : string) : bool :=
  match env k with
  | Some s => negb (blank s)
  | None => false
  end.

(** [process.env.K] is truthy. *)
Definition set_and_not_empty (env : Env) (k : string) : bool :=
  match env k with
  | Some s => negb (s =? "")%string
  | None => false
  end.

Module Character.

(** Lines 6-40, [character.plugins]. *)
Definition plugins (env : Env) : list string :=
  (["@elizaos/plugin-sql"]
   ++ (if set_and_not_blank env "ANTHROPIC_API_KEY"
       then ["@elizaos/plugin-anthropic"] else [])
   ++ (if set_and_not_blank env "OPENROUTER_API_KEY"
       then ["@elizaos/plugin-openrouter"] else [])
   ++ (if set_and_not_blank env "OPENAI_API_KEY"
       then ["@elizaos/plugin-openai"] else [])
   ++ (if set_and_not_blank env "GOOGLE_GENERATIVE_AI_API_KEY"
       then ["@elizaos/plugin-google-genai"] else [])
   ++ (if set_and_not_blank env "DISCORD_API_TOKEN"
       then ["@elizaos/plugin-discord"] else [])
   ++ (if (set_and_not_blank env "TWITTER_API_KEY"
           && set_and_not_blank env "TWITTER_API_SECRET_KEY"
           && set_and_not_blank env "TWITTER_ACCESS_TOKEN"
           && set_and_not_blank env "TWITTER_ACCESS_TOKEN_SECRET")%bool
       then ["@elizaos/plugin-twitter"] else [])
   ++ (if set_and_not_blank env "TELEGRAM_BOT_TOKEN"
       then ["@elizaos/plugin-telegram"] else [])
   ++ (if negb (set_and_not_empty env "IGNORE_BOOTSTRAP")
       then ["@elizaos/plugin-bootstrap"] else []))%list.

End Character.

Module Plugin.

(** The output of [configSchema]. *)
Record ValidatedConfig : Type := mkValidatedConfig {
  EXAMPLE_PLUGIN_VARIABLE : option string;
  PRIVATE_KEY : option string;
  WEATHER_API_URL : string
}.

(** [z.string().min(1, message).optional()] on a string or [undefined]:
    the issues it raises. *)
Definition min1_issues (message : string) (v : option string) : list string :=
  match v with
  | Some EmptyString => [message]
  | _ => []
  end.

(** Lines 253-273, [configSchema.parseAsync(config)] on a configuration
    whose values are strings or [undefined]: the messages of the issues,
    in the order of the schema, or the validated configuration.  [isUrl]
    is the check behind [z.string().url()]. *)
Definition configSchema_parse (isUrl : string -> bool) (config : Env)
  : list string + ValidatedConfig :=
  let issues :=
    (min1_issues "Example plugin variable is not provided"
       (config "EXAMPLE_PLUGIN_VARIABLE")
     ++ min1_issues "PRIVATE_KEY is required for payment processing"
          (config "PRIVATE_KEY")
     ++ match config "WEATHER_API_URL" with
        | Some u => if isUrl u then [] else ["WEATHER_API_URL must be a valid URL"]
        | None => []
        end)%list in
  match issues with
  | [] =>
      inr (mkValidatedConfig
             (config "EXAMPLE_PLUGIN_VARIABLE")
             (config "PRIVATE_KEY")
             (match config "WEATHER_API_URL" with
              | Some u => u
              | None => DEFAULT_API_URL
              end))
  | _ => inl issues
  end.

(** [if (value) process.env[key] = value] *)
Definition set_if_truthy (key : string) (v : option string) (env : Env) : Env :=
  match v with
  | Some (String a s) => fun k => if (k =? key)%string then Some (String a s) else env k
  | _ => env
  end.

(** Lines 1326-1346, [plugin.init(config)]: the environment it leaves, or
    the error it throws. *)
Definition init (isUrl : string -> bool) (config : Env) (env : Env)
  : thrown + Env :=
  match configSchema_parse isUrl config with
  | inr validatedConfig =>
      inr (set_if_truthy "WEATHER_API_URL"
             (Some (WEATHER_API_URL validatedConfig))
             (set_if_truthy "PRIVATE_KEY" (PRIVATE_KEY validatedConfig)
                (set_if_truthy "EXAMPLE_PLUGIN_VARIABLE"
                   (EXAMPLE_PLUGIN_VARIABLE validatedConfig) env)))
  | inl issues =>
      let joined := String.concat ", " issues in
      let errorMessages :=
        if (joined =? "")%string then "Unknown validation error" else joined in
      inl (JsError ("Invalid plugin configuration: " ++ errorMessages))
  end.

End Plugin.

(** Fixtures: a chain that answers, one whose USDC contract fails. *)
Definition fixtureChain (usdc : thrown + Z) : Chain :=
  mkChain "Base Sepolia" (Some "https://sepolia.basescan.org")
    (fun _ => inr 1500000000000000000)
    (fun _ _ => usdc)
    (fun v d => Z_toString v ++ "e-" ++ Z_toString d)
    (fun s => s).

Definition fixtureEnv (vars : list (string * string)) : Env :=
  fun k =>
    match find (fun p => (fst p =? k)%string) vars with
    | Some p => Some (snd p)
    | None => None
    end.

(** A runtime with no key configured. *)
Definition fixtureRuntimeNoKey : IAgentRuntime :=
  mkRuntime (fun _ _ _ => inr []) (fun _ => None).

(** A server that gives the report away: 200 whatever the request. *)
Definition openServer (rq : Request) : thrown + Response :=
  inr (mkResponse 200 "OK"
         (inr (VObject
                 [("report",
                   VObject [("conditions", VString "Sunny");
                            ("temperature", VNumber 72)])]))).

(** A server whose body is [{"temperature": {"toString": 0}}]: the
    temperature is an object with a [toString] property of its own. *)
Definition oddServer (rq : Request) : thrown + Response :=
  inr (mkResponse 200 "OK"
         (inr (VObject
                 [("temperature", VObject [("toString", VNumber 0)])]))).

(** A platform whose clock passes from one second to the next between its
    first two readings. *)
Definition fixtureLatePlatform : Platform :=
  mkPlatform
    (fun k => 1690000000999 + Z.of_nat k)
    (fun i => ascii_of_nat i)
    (fun _ rq => paywall rq)
    (fun key => inr (fixtureAccount key))
    (fun _ _ => inr "0xfeed")
    (fun _ _ _ => inr true).

(* ================================================================= *)
(** ** Tactics *)

(** Linear arithmetic with division and remainder by constants. *)
Ltac div_lia := zify; Z.to_euclidean_division_equations; lia.

(* ================================================================= *)
(** * Properties *)

(** ** Running the monad *)

Lemma bind_ret {A B : Type} (a : A) (k : A -> M B) (w : World) :
  bind (ret a) k w = k a w.
Proof. reflexivity. Qed.

Lemma bind_lift_inr {A B : Type} (a : A) (k : A -> M B) (w : World) :
  bind (lift (inr a)) k w = k a w.
Proof. reflexivity. Qed.

Lemma bind_lift_inl {A B : Type} (e : thrown) (k : A -> M B) (w : World) :
  bind (lift (inl e)) k w = (inl e, w).
Proof. reflexivity. Qed.

Lemma bind_run {A B : Type} (c : M A) (k : A -> M B) (w w' : World) (a : A) :
  c w = (inr a, w') -> bind c k w = k a w'.
Proof. intros H. unfold bind. now rewrite H. Qed.

Lemma bind_run_throw {A B : Type} (c : M A) (k : A -> M B)
    (w w' : World) (e : thrown) :
  c w = (inl e, w') -> bind c k w = (inl e, w').
Proof. intros H. unfold bind. now rewrite H. Qed.

(** ** The approval gate *)

Section Gate.

Variable runtime : IAgentRuntime.
Variable message : Memory.

Local Abbreviation messageText := (lowered_text (m_content message)) (only parsing).

(** [validate] tries the approval keywords first: a message that has one
    is answered by the lookback alone. *)
Lemma validate_approval :
  isApproval messageText = true ->
  validate runtime message =
    match getMemories runtime (m_roomId message) 10 "messages" with
    | inr recentMemories => existsb isPaymentPrompt recentMemories
    | inl _ => false
    end.
Proof.
  intros Ha. unfold validate. now rewrite Ha.
Qed.

(** A message with a rejection keyword and no approval keyword is always
    let through. *)
Lemma validate_rejection :
  isApproval messageText = false ->
  isRejection messageText = true ->
  validate runtime message = true.
Proof.
  intros Ha Hr. unfold validate. rewrite Ha, Hr.
  now destruct (getMemories runtime (m_roomId message) 10 "messages").
Qed.

(** C1. When the lookback of [validate] finds no payment prompt (the
    memory store throws, or returns no memory that is one, possibly none at
    all), a message classified as an approval is refused ([validate] is
    false) and a message classified as a rejection is accepted ([validate]
    is true): approval fails closed, rejection fails open.  A message with
    keywords of both kinds is an approval for [validate], which tries the
    approval keywords first. *)
Theorem validate_fail_closed_fail_open :
  snapshot_unavailable_or_empty runtime message ->
  (isApproval messageText = true -> validate runtime message = false)
  /\ (isApproval messageText = false -> isRejection messageText = true ->
      validate runtime message = true).
Proof.
  intros Hsnap. split.
  - intros Ha. rewrite (validate_approval Ha).
    unfold snapshot_unavailable_or_empty in Hsnap.
    destruct (getMemories runtime (m_roomId message) 10 "messages");
      [reflexivity | exact Hsnap].
  - apply validate_rejection.
Qed.

End Gate.

(** The two scenarios of C1 on an empty snapshot and on a failing store:
    "Yes" is refused, "No" is accepted. *)
Lemma validate_fail_closed_fail_open_witness :
  (validate (fixtureRuntime (inr [])) (userMessage "Yes") = false
   /\ validate (fixtureRuntime (inl (JsError "store down"))) (userMessage "Yes") = false)
  /\ (validate (fixtureRuntime (inr [])) (userMessage "No") = true
      /\ validate (fixtureRuntime (inl (JsError "store down"))) (userMessage "No") = true).
Proof.
  split; split.
  - apply (validate_fail_closed_fail_open
             (fixtureRuntime (inr [])) (userMessage "Yes"));
      reflexivity.
  - apply (validate_fail_closed_fail_open
             (fixtureRuntime (inl (JsError "store down"))) (userMessage "Yes"));
      [exact I | reflexivity].
  - apply (validate_fail_closed_fail_open
             (fixtureRuntime (inr [])) (userMessage "No"));
      reflexivity.
  - apply (validate_fail_closed_fail_open
             (fixtureRuntime (inl (JsError "store down"))) (userMessage "No"));
      [exact I | reflexivity | reflexivity].
Defined.

(** ** The Authorization Builder *)

Section Builder.

Variable pf : Platform.
Variable account : Account.

(** The builder is total, and its result is read off the world it starts
    in: the first clock reading gives [validAfter], the second one
    [validBefore]. *)
Lemma buildAuthorization_run (v : Z) (w : World) :
  buildAuthorization pf account v w =
    (inr (builtAuthorization pf account v w), afterBuild w).
Proof. reflexivity. Qed.

(** With a clock that does not run backwards the window always holds the
    moment of construction. *)
Lemma window_holds_now (v : Z) (w w' : World) (msg : Authorization) :
  buildAuthorization pf account v w = (inr msg, w') ->
  clock pf (ticks w) <= clock pf (S (ticks w)) ->
  validAfter msg < clock pf (ticks w) / 1000
  /\ clock pf (S (ticks w)) / 1000 <= validBefore msg
  /\ validBefore msg - validAfter msg >= 4200.
Proof.
  rewrite buildAuthorization_run. intros H Hmono.
  injection H as <- _. unfold builtAuthorization. cbn [validAfter validBefore].
  assert (clock pf (ticks w) / 1000 <= clock pf (S (ticks w)) / 1000)
    by (apply Z.div_le_mono; lia).
  lia.
Qed.

(** C5, as the code has it.  The clock is read twice, once for each
    bound.  When both readings fall in the unix second [t], the
    Authorization has [validAfter = t - 600] and [validBefore = t + 3600],
    hence [validAfter < t <= validBefore]. *)
Theorem validity_window (v : Z) (w w' : World) (msg : Authorization) (t : Z) :
  buildAuthorization pf account v w = (inr msg, w') ->
  clock pf (ticks w) / 1000 = t ->
  clock pf (S (ticks w)) / 1000 = t ->
  validAfter msg = t - 600
  /\ validBefore msg = t + 3600
  /\ validAfter msg < t <= validBefore msg.
Proof.
  rewrite buildAuthorization_run. intros H H1 H2.
  injection H as <- _. unfold builtAuthorization. cbn [validAfter validBefore].
  rewrite H1, H2. lia.
Qed.

End Builder.

(** At 1690000000 the window is [1689999400, 1690003600]. *)
Lemma validity_window_witness :
  exists msg w',
    buildAuthorization (fixturePlatform paywall true) (fixtureAccount "0xkey")
      amount w0 = (inr msg, w')
    /\ validAfter msg = 1690000000 - 600
    /\ validBefore msg = 1690000000 + 3600
    /\ validAfter msg < 1690000000 <= validBefore msg.
Proof.
  pose proof (buildAuthorization_run (fixturePlatform paywall true)
                (fixtureAccount "0xkey") amount w0) as Hrun.
  eexists _, _. split; [exact Hrun |].
  apply (validity_window _ _ _ _ _ _ 1690000000 Hrun); reflexivity.
Defined.

(** The claim of C5 fails when a second ends between the two readings of
    the clock.  The first reading is 1690000000999 ms, the second
    1690000001000 ms: [validAfter] is 600 s before the second 1690000000
    and [validBefore] 3600 s after the second 1690000001, so no time [t]
    gives both [validAfter = t - 600] and [validBefore = t + 3600]. *)
Lemma window_spans_two_seconds :
  let pf := fixtureLatePlatform in
  let msg := builtAuthorization pf (fixtureAccount "0xkey") amount w0 in
  buildAuthorization pf (fixtureAccount "0xkey") amount w0
  = (inr msg, afterBuild w0)
  /\ clock pf 0 = 1690000000999
  /\ clock pf 1 = 1690000001000
  /\ validAfter msg = 1689999400
  /\ validBefore msg = 1690003601
  /\ ~ (exists t, validAfter msg = t - 600 /\ validBefore msg = t + 3600).
Proof.
  intros pf msg.
  assert (Ha : validAfter msg = 1689999400) by reflexivity.
  assert (Hb : validBefore msg = 1690003601) by reflexivity.
  repeat split; try assumption.
  intros (t & H1 & H2). rewrite Ha in H1. rewrite Hb in H2. lia.
Qed.

(** ** The Payment Encoder *)

Section Encoder.

Lemma append_assoc (a b c : string) : (a ++ b) ++ c = a ++ (b ++ c).
Proof. induction a as [| x a IH]; simpl; [reflexivity | now rewrite IH]. Qed.

Lemma append_nil_r (a : string) : a ++ "" = a.
Proof. induction a as [| x a IH]; simpl; [reflexivity | now rewrite IH]. Qed.

(** A digit is copied by the JSON quoting. *)
Lemma quote_char_digit (c : ascii) :
  is_digit c = true -> Json.quote_char c = String c "".
Proof.
  destruct c as [[] [] [] [] [] [] [] []]; cbv; intros H;
    try reflexivity; discriminate H.
Qed.

Lemma all_digits_uint (d : Decimal.uint) :
  all_digits (NilEmpty.string_of_uint d) = true.
Proof. induction d; simpl; auto. Qed.

Lemma quote_body_digits (s : string) :
  all_digits s = true -> Json.quote_body s = s.
Proof.
  induction s as [| c s IH]; simpl; [reflexivity |].
  intros H. apply andb_prop in H as [Hc Hs].
  rewrite (quote_char_digit c Hc), (IH Hs). reflexivity.
Qed.

Lemma all_digits_NilZero (d : Decimal.uint) :
  all_digits (NilZero.string_of_uint d) = true.
Proof. destruct d; try reflexivity; apply (all_digits_uint (_ d)). Qed.

(** A numeral starts with a digit and holds digits only. *)
Lemma string_of_uint_digits (d : Decimal.uint) :
  exists c s, NilZero.string_of_uint d = String c s
              /\ is_digit c = true /\ all_digits s = true.
Proof.
  pose proof (all_digits_NilZero d) as H.
  destruct (NilZero.string_of_uint d) as [| c s] eqn:E.
  - destruct d; discriminate E.
  - cbn [all_digits] in H. apply andb_prop in H as [Hc Hs]. now exists c, s.
Qed.


(** It needs no escaping: quoting it only puts it between quotes. *)
Lemma quote_decimal (z : Z) :
  Json.quote (Z_toString z) = quoted (Z_toString z).
Proof.
  unfold Json.quote, quoted, Z_toString. f_equal. f_equal.
  destruct (Z.to_int z) as [d | d]; simpl.
  - apply quote_body_digits, all_digits_NilZero.
  - change (Json.quote_char "-") with "-". simpl. f_equal.
    apply quote_body_digits, all_digits_NilZero.
Qed.

(** [JSON.stringify] of the payload object is the wire text. *)
Lemma stringify_paymentPayload (signature : string) (account : Account)
    (v va vb : Z) (n : string) :
  Json.stringify (paymentPayload signature account v va vb n) =
    Some (wireText signature
            (mkAuthorization (address account) PAYEE_ADDRESS v va vb n)).
Proof.
  unfold paymentPayload, wireText.
  cbn [Json.stringify flat_map map snd fst String.concat List.app
       from to value validAfter validBefore nonce].
  rewrite !quote_decimal.
  f_equal.
  change (Z_toString 1) with "1".
  repeat rewrite append_assoc.
  reflexivity.
Qed.

Lemma encodePayment_wire (signature : string) (account : Account)
    (v va vb : Z) (n : string) :
  encodePayment (paymentPayload signature account v va vb n) =
    inr (Base64.encode
           (wireText signature
              (mkAuthorization (address account) PAYEE_ADDRESS v va vb n))).
Proof. unfold encodePayment. now rewrite stringify_paymentPayload. Qed.

End Encoder.

(** ** Base64: decoding inverts encoding *)

Section Base64RoundTrip.

Import Base64.

(** Every six-bit group is read back from its character, which is not the
    pad. *)
Lemma sextet_digit (k : N) :
  (k < 64)%N ->
  sextet (digit k) = Some k /\ Ascii.eqb (digit k) pad = false.
Proof.
  intros Hk.
  assert (Hall : forallb (fun i =>
            match sextet (digit i) with
            | Some j => (N.eqb i j && negb (Ascii.eqb (digit i) pad))%bool
            | None => false
            end) (map N.of_nat (seq 0 64)) = true) by (vm_compute; reflexivity).
  rewrite forallb_forall in Hall.
  specialize (Hall k).
  assert (Hin : In k (map N.of_nat (seq 0 64))).
  { apply in_map_iff. exists (N.to_nat k). split; [apply N2Nat.id |].
    apply in_seq. lia. }
  specialize (Hall Hin).
  destruct (sextet (digit k)) as [j |]; [| discriminate Hall].
  apply andb_prop in Hall as [Hj Hp].
  apply N.eqb_eq in Hj. subst j.
  split; [reflexivity |]. now destruct (Ascii.eqb (digit k) pad).
Qed.

Lemma byte_bound (a : ascii) : (byte a < 256)%N.
Proof. apply N_ascii_bounded. Qed.

Lemma decode_bytes_4 (c1 c2 c3 c4 : ascii) (s' : string) :
  decode_bytes (String c1 (String c2 (String c3 (String c4 s')))) =
      match sextet c1, sextet c2 with
      | Some v1, Some v2 =>
          if Ascii.eqb c3 pad then
            if (Ascii.eqb c4 pad && is_empty s')%bool
            then Some [ascii_of_N ((v1 * 64 + v2) / 16)]
            else None
          else
            match sextet c3 with
            | Some v3 =>
                if Ascii.eqb c4 pad then
                  if is_empty s' then
                    let n := (((v1 * 64 + v2) * 64 + v3) / 4)%N in
                    Some [ascii_of_N (n / 256); ascii_of_N (n mod 256)]
                  else None
                else
                  match sextet c4 with
                  | Some v4 =>
                      let n := (((v1 * 64 + v2) * 64 + v3) * 64 + v4)%N in
                      match decode_bytes s' with
                      | Some l =>
                          Some (ascii_of_N (n / 65536)
                                :: ascii_of_N ((n / 256) mod 256)
                                :: ascii_of_N (n mod 256) :: l)
                      | None => None
                      end
                  | None => None
                  end
            | None => None
            end
      | _, _ => None
      end%N.
Proof. reflexivity. Qed.

Lemma decode_encode3 (a b c : ascii) (s' : string) :
  decode_bytes (encode3 a b c ++ s') =
    match decode_bytes s' with
    | Some l => Some (a :: b :: c :: l)
    | None => None
    end.
Proof.
  unfold encode3. cbn [append]. rewrite decode_bytes_4.
  pose proof (byte_bound a) as Ha. pose proof (byte_bound b) as Hb.
  pose proof (byte_bound c) as Hc.
  set (n := (byte a * 65536 + byte b * 256 + byte c)%N).
  destruct (sextet_digit (n / 262144)) as [-> _]; [subst n; div_lia |].
  destruct (sextet_digit ((n / 4096) mod 64)) as [-> _]; [div_lia |].
  destruct (sextet_digit ((n / 64) mod 64)) as [-> ->]; [div_lia |].
  destruct (sextet_digit (n mod 64)) as [-> ->]; [div_lia |].
  cbv zeta.
  replace ((((n / 262144) * 64 + (n / 4096) mod 64) * 64 + (n / 64) mod 64) * 64
           + n mod 64)%N with n by (subst n; div_lia).
  replace (n / 65536)%N with (byte a) by (subst n; div_lia).
  replace ((n / 256) mod 256)%N with (byte b) by (subst n; div_lia).
  replace (n mod 256)%N with (byte c) by (subst n; div_lia).
  unfold byte. rewrite !ascii_N_embedding. reflexivity.
Qed.

Lemma decode_encode2 (a b : ascii) :
  decode_bytes (encode2 a b) = Some [a; b].
Proof.
  unfold encode2. rewrite decode_bytes_4.
  pose proof (byte_bound a) as Ha. pose proof (byte_bound b) as Hb.
  set (n := ((byte a * 256 + byte b) * 4)%N).
  destruct (sextet_digit (n / 4096)) as [-> _]; [subst n; div_lia |].
  destruct (sextet_digit ((n / 64) mod 64)) as [-> _]; [div_lia |].
  destruct (sextet_digit (n mod 64)) as [-> ->]; [div_lia |].
  cbn [Ascii.eqb is_empty]. change (Ascii.eqb pad pad) with true. cbv iota zeta.
  replace ((((n / 4096) * 64 + (n / 64) mod 64) * 64 + n mod 64) / 4 / 256)%N
    with (byte a) by (subst n; div_lia).
  replace (((((n / 4096) * 64 + (n / 64) mod 64) * 64 + n mod 64) / 4) mod 256)%N
    with (byte b) by (subst n; div_lia).
  unfold byte. rewrite !ascii_N_embedding. reflexivity.
Qed.

Lemma decode_encode1 (a : ascii) :
  decode_bytes (encode1 a) = Some [a].
Proof.
  unfold encode1. rewrite decode_bytes_4.
  pose proof (byte_bound a) as Ha.
  set (n := (byte a * 16)%N).
  destruct (sextet_digit (n / 64)) as [-> _]; [subst n; div_lia |].
  destruct (sextet_digit (n mod 64)) as [-> _]; [div_lia |].
  change (Ascii.eqb pad pad) with true. cbn [andb is_empty]. cbv iota.
  replace (((n / 64) * 64 + n mod 64) / 16)%N with (byte a)
    by (subst n; div_lia).
  unfold byte. rewrite ascii_N_embedding. reflexivity.
Qed.

(** The encoder advances three bytes at a time. *)
Lemma list_ind3 {A : Type} (P : list A -> Prop) :
  P [] -> (forall a, P [a]) -> (forall a b, P [a; b]) ->
  (forall a b c l, P l -> P (a :: b :: c :: l)) ->
  forall l, P l.
Proof.
  intros H0 H1 H2 H3.
  assert (H : forall l, P l /\ (forall a, P (a :: l))
                        /\ (forall a b, P (a :: b :: l))).
  { induction l as [| x l (IH0 & IH1 & IH2)].
    - repeat split; auto.
    - repeat split; auto. }
  intros l. apply H.
Qed.

Lemma decode_encode_bytes (l : list ascii) :
  decode_bytes (encode_bytes l) = Some l.
Proof.
  induction l as [| a | a b | a b c l IH] using list_ind3.
  - reflexivity.
  - apply decode_encode1.
  - apply decode_encode2.
  - change (encode_bytes (a :: b :: c :: l))
      with (encode3 a b c ++ encode_bytes l).
    rewrite decode_encode3, IH. reflexivity.
Qed.

(** Base64 decoding inverts base64 encoding, on every string. *)
Lemma base64_decode_encode (s : string) :
  Base64.decode (Base64.encode s) = Some s.
Proof.
  unfold decode, encode. rewrite decode_encode_bytes. cbn [option_map].
  now rewrite string_of_list_ascii_of_string.
Qed.




(** The test vectors of RFC 4648, section 10, written and read. *)
Example base64_test_vectors :
  Base64.encode "" = ""
  /\ Base64.encode "f" = "Zg=="
  /\ Base64.encode "fo" = "Zm8="
  /\ Base64.encode "foo" = "Zm9v"
  /\ Base64.encode "foob" = "Zm9vYg=="
  /\ Base64.encode "fooba" = "Zm9vYmE="
  /\ Base64.encode "foobar" = "Zm9vYmFy"
  /\ Base64.decode "Zm9vYmE=" = Some "fooba"
  /\ Base64.decode "Zm9vYg==" = Some "foob"
  /\ Base64.decode "Zm9vYmFy" = Some "foobar"
  /\ Base64.decode "{}" = None
  /\ Base64.decode "Zm9" = None.
Proof. repeat split. Qed.

End Base64RoundTrip.

(** ** JSON: parsing inverts serialization *)

Section JsonRoundTrip.

Import Json.

(** *** Strings *)

Lemma read_chars_quote_char (c : ascii) (t : string) :
  read_chars (quote_char c ++ t) = push c (read_chars t).
Proof.
  destruct c as [[] [] [] [] [] [] [] []]; reflexivity.
Qed.

Lemma read_chars_quote_body (s rest : string) :
  read_chars (quote_body s ++ String dquote rest) = Some (s, rest).
Proof.
  induction s as [| c s IH]; [reflexivity |].
  cbn [quote_body]. rewrite append_assoc, read_chars_quote_char, IH.
  reflexivity.
Qed.

Lemma quote_app (s rest : string) :
  quote s ++ rest = String dquote (quote_body s ++ String dquote rest).
Proof.
  unfold quote. cbn [append]. now rewrite append_assoc.
Qed.

(** *** Numbers *)

Lemma span_digits_app (d rest : string) :
  all_digits d = true -> ends_number rest = true ->
  span_digits (d ++ rest) = (d, rest).
Proof.
  intros Hd Hr. induction d as [| c d IH].
  - cbn [append]. destruct rest as [| c r]; [reflexivity |].
    cbn [span_digits]. cbn [ends_number] in Hr.
    destruct (is_digit c); [discriminate Hr | reflexivity].
  - cbn [all_digits] in Hd. apply andb_prop in Hd as [Hc Hd].
    cbn [append span_digits]. rewrite Hc, (IH Hd). reflexivity.
Qed.

Lemma to_int_proper (z : Z) :
  Z.to_int z <> Decimal.Pos Decimal.Nil /\ Z.to_int z <> Decimal.Neg Decimal.Nil.
Proof.
  destruct z as [| p | p]; cbn; split; try discriminate;
    intros [= H]; exact (Unsigned.to_uint_nonnil p H).
Qed.

Lemma read_number_Z_toString (z : Z) (rest : string) :
  ends_number rest = true ->
  read_number (Z_toString z ++ rest) = Some (z, rest).
Proof.
  intros Hr.
  assert (Hparse : NilZero.int_of_string (Z_toString z) = Some (Z.to_int z)).
  { destruct (to_int_proper z). now apply NilZero.isi. }
  assert (Hrest : match rest with
                  | String "." _ | String "e" _ | String "E" _ => None
                  | _ => match NilZero.int_of_string (Z_toString z) with
                         | Some i => Some (Z.of_int i, rest)
                         | None => None
                         end
                  end = Some (z, rest)).
  { rewrite Hparse, DecimalZ.of_to.
    destruct rest as [| c r]; [reflexivity |].
    cbn [ends_number] in Hr.
    destruct c as [[] [] [] [] [] [] [] []]; try reflexivity; discriminate Hr. }
  unfold read_number.
  unfold Z_toString in *.
  destruct (Z.to_int z) as [d | d]; cbn [NilZero.string_of_int] in *;
    destruct (string_of_uint_digits d) as (c & s & E & Hc & Hs);
    rewrite E in *.
  - cbn [append].
    assert (Hsp : span_digits (String c (s ++ rest)) = (String c s, rest)).
    { change (String c (s ++ rest)) with (String c s ++ rest).
      apply span_digits_app; [cbn; now rewrite Hc, Hs | exact Hr]. }
    destruct c as [[] [] [] [] [] [] [] []]; try discriminate Hc;
      rewrite Hsp; exact Hrest.
  - cbn [append].
    assert (Hsp : span_digits (String c (s ++ rest)) = (String c s, rest)).
    { change (String c (s ++ rest)) with (String c s ++ rest).
      apply span_digits_app; [cbn; now rewrite Hc, Hs | exact Hr]. }
    rewrite Hsp. exact Hrest.
Qed.



(** *** Values *)

Lemma jsval_nested_ind (P : jsval -> Prop) :
  P VUndefined -> P VNull -> (forall b, P (VBool b)) ->
  (forall n, P (VNumber n)) -> (forall s, P (VString s)) ->
  (forall elems, Forall P elems -> P (VArray elems)) ->
  (forall props, Forall (fun p => P (snd p)) props -> P (VObject props)) ->
  forall v, P v.
Proof.
  intros Hu Hn Hb Hz Hs Ha Ho.
  fix IH 1. intros [| | b | n | s | elems | props].
  - exact Hu.
  - exact Hn.
  - apply Hb.
  - apply Hz.
  - apply Hs.
  - apply Ha. induction elems as [| x l IHl]; constructor; [apply IH | exact IHl].
  - apply Ho. induction props as [| [k x] l IHl]; constructor;
      [apply IH | exact IHl].
Qed.

Lemma string_length_app (a b : string) :
  String.length (a ++ b) = (String.length a + String.length b)%nat.
Proof. induction a as [| x a IH]; cbn; [reflexivity | now rewrite IH]. Qed.

Lemma is_json_stringify (v : jsval) :
  is_json v = true -> stringify v = Some (text_of v).
Proof.
  unfold text_of. destruct v as [| | [] | | | |]; try reflexivity.
  discriminate.
Qed.

(** Under [is_json] no member is skipped. *)
Lemma members_text (props : list (string * jsval)) :
  forallb (fun p => is_json (snd p)) props = true ->
  flat_map (fun p : string * jsval =>
              match stringify (snd p) with
              | Some t => [quote (fst p) ++ ":" ++ t]
              | None => []
              end) props
  = map member_text props.
Proof.
  induction props as [| p l IH]; [reflexivity |].
  cbn [forallb flat_map map]. intros H. apply andb_prop in H as [Hp Hl].
  rewrite (IH Hl). unfold member_text at 1.
  rewrite (is_json_stringify _ Hp). reflexivity.
Qed.

Lemma text_of_array (elems : list jsval) :
  text_of (VArray elems) = "[" ++ String.concat "," (map text_of elems) ++ "]".
Proof. reflexivity. Qed.

Lemma text_of_object (props : list (string * jsval)) :
  forallb (fun p => is_json (snd p)) props = true ->
  text_of (VObject props)
  = "{" ++ String.concat "," (map member_text props) ++ "}".
Proof.
  intros H. unfold text_of. cbn [stringify]. now rewrite (members_text _ H).
Qed.

(** The text of a value starts with a character that tells its kind. *)
Lemma text_of_head (v : jsval) :
  is_json v = true ->
  exists c t, text_of v = String c t /\ starts_value c = true.
Proof.
  destruct v as [| | [] | n | s | elems | props]; intros H;
    try discriminate H; try (eexists _, _; split; reflexivity).
  - unfold text_of. cbn [stringify]. unfold Z_toString.
    destruct (Z.to_int n) as [d | d]; cbn [NilZero.string_of_int].
    + destruct (string_of_uint_digits d) as (c & t & -> & Hc & _).
      exists c, t. split; [reflexivity |]. unfold starts_value. now rewrite Hc.
    + eexists _, _. split; reflexivity.
Qed.

Lemma parse_value_number (f : nat) (c : ascii) (s : string) :
  (is_digit c || Ascii.eqb c "-")%bool = true ->
  parse_value (S f) (String c s) =
    match read_number (String c s) with
    | Some (n, r) => Some (VNumber n, r)
    | None => None
    end.
Proof.
  destruct c as [[] [] [] [] [] [] [] []]; intros H;
    try discriminate H; reflexivity.
Qed.

Lemma parse_value_array (f : nat) (c : ascii) (t : string) :
  starts_value c = true ->
  parse_value (S f) (String "[" (String c t)) =
    match parse_elements f (String c t) with
    | Some (l, r) => Some (VArray l, r)
    | None => None
    end.
Proof.
  destruct c as [[] [] [] [] [] [] [] []]; intros H;
    try discriminate H; reflexivity.
Qed.

Lemma parse_value_object (f : nat) (t : string) :
  parse_value (S f) (String "{" (String dquote t)) =
    match parse_members f (String dquote t) with
    | Some (l, r) => Some (VObject l, r)
    | None => None
    end.
Proof. reflexivity. Qed.

Lemma elements_read_back (elems : list jsval) :
  Forall reads_back elems ->
  elems <> [] ->
  forallb is_json elems = true ->
  forall fuel rest,
    (need_elems elems <= fuel)%nat ->
    parse_elements fuel
      (String.concat "," (map text_of elems) ++ String "]" rest)
    = Some (elems, rest).
Proof.
  induction 1 as [| x l Hx Hl IH]; [congruence |].
  intros _ Hjson fuel rest Hfuel.
  cbn [forallb] in Hjson. apply andb_prop in Hjson as [Hjx Hjl].
  unfold need_elems in Hfuel. cbn [fold_right] in Hfuel.
  fold (need_elems l) in Hfuel.
  destruct fuel as [| f]; [lia |].
  destruct l as [| y l'].
  - cbn [map String.concat parse_elements].
    rewrite (Hx Hjx f (String "]" rest)); [reflexivity | lia | reflexivity].
  - change (String.concat "," (map text_of (x :: y :: l')))
      with (text_of x ++ "," ++ String.concat "," (map text_of (y :: l'))).
    rewrite !append_assoc. cbn [append parse_elements].
    rewrite (Hx Hjx f); [| lia | reflexivity].
    cbn [Ascii.eqb Bool.eqb]. cbv iota.
    rewrite (IH ltac:(discriminate) Hjl f rest ltac:(lia)). reflexivity.
Qed.

Lemma members_read_back (props : list (string * jsval)) :
  Forall (fun p => reads_back (snd p)) props ->
  props <> [] ->
  forallb (fun p => is_json (snd p)) props = true ->
  forall fuel rest,
    (need_members props <= fuel)%nat ->
    parse_members fuel
      (String.concat "," (map member_text props) ++ String "}" rest)
    = Some (props, rest).
Proof.
  induction 1 as [| [k x] l Hx Hl IH]; [congruence |].
  intros _ Hjson fuel rest Hfuel.
  cbn [forallb snd] in Hjson. apply andb_prop in Hjson as [Hjx Hjl].
  unfold need_members in Hfuel. cbn [fold_right snd] in Hfuel.
  fold (need_members l) in Hfuel. cbn [snd] in Hx.
  destruct fuel as [| f]; [lia |].
  destruct l as [| q l'].
  - cbn [map String.concat]. unfold member_text. cbn [fst snd].
    rewrite !append_assoc, quote_app. cbn [parse_members].
    change (Ascii.eqb dquote dquote) with true. cbv iota.
    rewrite read_chars_quote_body. cbn [append].
    change (Ascii.eqb ":" ":") with true. cbv iota.
    rewrite (Hx Hjx f (String "}" rest)); [reflexivity | lia | reflexivity].
  - change (String.concat "," (map member_text ((k, x) :: q :: l')))
      with (member_text (k, x) ++ ","
            ++ String.concat "," (map member_text (q :: l'))).
    unfold member_text at 1. cbn [fst snd].
    rewrite !append_assoc, quote_app. cbn [parse_members].
    change (Ascii.eqb dquote dquote) with true. cbv iota.
    rewrite read_chars_quote_body. cbn [append].
    change (Ascii.eqb ":" ":") with true. cbv iota.
    rewrite (Hx Hjx f); [| lia | reflexivity].
    cbn [Ascii.eqb Bool.eqb]. cbv iota.
    rewrite (IH ltac:(discriminate) Hjl f rest ltac:(lia)). reflexivity.
Qed.

Lemma value_reads_back (v : jsval) : reads_back v.
Proof.
  induction v as [| | b | n | s | elems IH | props IH] using jsval_nested_ind;
    intros Hjson fuel rest Hfuel Hrest;
    try discriminate Hjson;
    (destruct fuel as [| f]; [cbn in Hfuel; lia |]).
  - reflexivity.
  - destruct b; reflexivity.
  - change (text_of (VNumber n)) with (Z_toString n).
    pose proof (read_number_Z_toString n rest Hrest) as Hread.
    destruct (text_of_head (VNumber n) eq_refl) as (c & t & E & Hc).
    change (text_of (VNumber n)) with (Z_toString n) in E.
    rewrite E in *. cbn [append] in *.
    assert (Hc' : (is_digit c || Ascii.eqb c "-")%bool = true).
    { unfold Z_toString in E. destruct (Z.to_int n) as [d | d];
        cbn [NilZero.string_of_int] in E.
      - destruct (string_of_uint_digits d) as (c' & t' & E' & Hd & _).
        rewrite E' in E. injection E as <- _. now rewrite Hd.
      - injection E as <- _. reflexivity. }
    rewrite (parse_value_number f c _ Hc'), Hread. reflexivity.
  - change (text_of (VString s)) with (quote s). rewrite quote_app.
    cbn [parse_value]. change (Ascii.eqb dquote "n") with false.
    change (Ascii.eqb dquote "t") with false.
    change (Ascii.eqb dquote "f") with false.
    change (Ascii.eqb dquote dquote) with true. cbv iota.
    rewrite read_chars_quote_body. reflexivity.
  - cbn [is_json] in Hjson. rewrite text_of_array.
    destruct elems as [| x l]; [reflexivity |].
    assert (Hne : x :: l <> []) by discriminate.
    pose proof (elements_read_back (x :: l) IH Hne Hjson f rest) as Hel.
    change (need (VArray (x :: l))) with (S (need_elems (x :: l))) in Hfuel.
    specialize (Hel ltac:(lia)).
    rewrite !append_assoc. cbn [append].
    cbn [forallb] in Hjson. apply andb_prop in Hjson as [Hjx _].
    destruct (text_of_head x Hjx) as (c & t & E & Hc).
    revert Hel. cbn [map]. 
    assert (Hcat : exists t', String.concat "," (text_of x :: map text_of l)
                             = String c t').
    { destruct l; cbn [map String.concat]; rewrite E; cbn [append];
        eexists; reflexivity. }
    destruct Hcat as (t' & ->). cbn [append]. intros Hel.
    rewrite (parse_value_array f c _ Hc), Hel. reflexivity.
  - cbn [is_json] in Hjson. rewrite (text_of_object _ Hjson).
    destruct props as [| p l]; [reflexivity |].
    assert (Hne : p :: l <> []) by discriminate.
    pose proof (members_read_back (p :: l) IH Hne Hjson f rest) as Hel.
    change (need (VObject (p :: l))) with (S (need_members (p :: l))) in Hfuel.
    specialize (Hel ltac:(lia)).
    rewrite !append_assoc. cbn [append].
    revert Hel. cbn [map].
    assert (Hcat : exists t', String.concat "," (member_text p :: map member_text l)
                             = String dquote t').
    { destruct l; cbn [map String.concat]; unfold member_text at 1;
        unfold quote; cbn [append]; eexists; reflexivity. }
    destruct Hcat as (t' & ->). cbn [append]. intros Hel.
    rewrite parse_value_object, Hel. reflexivity.
Qed.

(** The fuel [parse] gives is enough: a value needs no more than the
    length of its text. *)
Lemma text_of_nonempty (v : jsval) :
  is_json v = true -> (1 <= String.length (text_of v))%nat.
Proof.
  intros H. destruct (text_of_head v H) as (c & t & -> & _). cbn. lia.
Qed.

Lemma need_elems_le_length (elems : list jsval) :
  Forall (fun v => is_json v = true ->
                   (need v <= String.length (text_of v))%nat) elems ->
  forallb is_json elems = true ->
  (need_elems elems
   <= S (String.length (String.concat "," (map text_of elems))))%nat.
Proof.
  induction 1 as [| x l Hx Hl IH]; [cbn; lia |].
  cbn [forallb]. intros Hj. apply andb_prop in Hj as [Hjx Hjl].
  specialize (Hx Hjx). specialize (IH Hjl).
  unfold need_elems in *. cbn [fold_right].
  destruct l as [| y l'].
  - cbn [map String.concat fold_right]. lia.
  - change (String.concat "," (map text_of (x :: y :: l')))
      with (text_of x ++ "," ++ String.concat "," (map text_of (y :: l'))).
    rewrite !string_length_app. cbn [String.length]. lia.
Qed.

Lemma need_members_le_length (props : list (string * jsval)) :
  Forall (fun p => is_json (snd p) = true ->
                   (need (snd p) <= String.length (text_of (snd p)))%nat) props ->
  forallb (fun p => is_json (snd p)) props = true ->
  (need_members props
   <= S (String.length (String.concat "," (map member_text props))))%nat.
Proof.
  induction 1 as [| x l Hx Hl IH]; [cbn; lia |].
  cbn [forallb]. intros Hj. apply andb_prop in Hj as [Hjx Hjl].
  specialize (Hx Hjx). specialize (IH Hjl).
  unfold need_members in *. cbn [fold_right].
  assert (Hm : (String.length (text_of (snd x))
                <= String.length (member_text x))%nat).
  { unfold member_text. rewrite !string_length_app. lia. }
  destruct l as [| y l'].
  - cbn [map String.concat fold_right]. lia.
  - change (String.concat "," (map member_text (x :: y :: l')))
      with (member_text x ++ ","
            ++ String.concat "," (map member_text (y :: l'))).
    rewrite !string_length_app. cbn [String.length]. lia.
Qed.

Lemma need_le_length (v : jsval) :
  is_json v = true -> (need v <= String.length (text_of v))%nat.
Proof.
  induction v as [| | b | n | s | elems IH | props IH] using jsval_nested_ind;
    intros Hjson; try discriminate Hjson;
    try (apply (text_of_nonempty _ Hjson)).
  - cbn [is_json] in Hjson. rewrite text_of_array.
    pose proof (need_elems_le_length elems IH Hjson) as H.
    change (need (VArray elems)) with (S (need_elems elems)).
    rewrite !string_length_app. cbn [String.length]. lia.
  - cbn [is_json] in Hjson. rewrite (text_of_object _ Hjson).
    pose proof (need_members_le_length props IH Hjson) as H.
    change (need (VObject props)) with (S (need_members props)).
    rewrite !string_length_app. cbn [String.length]. lia.
Qed.

(** [JSON.parse] inverts [JSON.stringify] on every value that holds no
    [undefined]. *)
Lemma parse_stringify (v : jsval) :
  is_json v = true ->
  exists t, stringify v = Some t /\ parse t = Some v.
Proof.
  intros Hjson. exists (text_of v). split; [apply is_json_stringify, Hjson |].
  unfold parse.
  pose proof (value_reads_back v Hjson (S (String.length (text_of v))) ""
                ltac:(pose proof (need_le_length v Hjson); lia) eq_refl) as H.
  rewrite append_nil_r in H. rewrite H. reflexivity.
Qed.

End JsonRoundTrip.

Lemma decimal_field_Z_toString (k : string) (z : Z) (props : list (string * jsval)) :
  assoc k props = Some (VString (Z_toString z)) ->
  decimal_field k (VObject props) = Some z.
Proof.
  intros H. unfold decimal_field, string_field, field. rewrite H.
  unfold Z_toString. destruct (to_int_proper z) as [Hp Hn].
  rewrite (NilZero.isi _ Hp Hn). cbn [option_map].
  now rewrite DecimalZ.of_to.
Qed.


(** ** The round trip of the header *)

(** C9. Decoding inverts encoding: the header the encoder makes for a
    signature and the fields of its Authorization (to the fixed payee)
    decodes to that Signed Authorization, whatever the strings and the
    integers are. *)
Theorem decode_inverts_encode (signature : string) (account : Account)
    (v va vb : Z) (n : string) :
  exists paymentHeader,
    encodePayment (paymentPayload signature account v va vb n)
      = inr paymentHeader
    /\ decodePayment paymentHeader
       = Some (mkSignedAuthorization signature
                 (mkAuthorization (address account) PAYEE_ADDRESS v va vb n)).
Proof.
  destruct (parse_stringify (paymentPayload signature account v va vb n) eq_refl)
    as (t & Ht & Hparse).
  exists (Base64.encode t). unfold encodePayment. rewrite Ht.
  split; [reflexivity |].
  unfold decodePayment.
  rewrite base64_decode_encode. cbn [option_bind]. rewrite Hparse.
  unfold paymentPayload, string_field, field.
  cbn [option_bind assoc String.eqb Ascii.eqb Bool.eqb].
  erewrite !decimal_field_Z_toString by reflexivity.
  reflexivity.
Qed.

(** ** The transport without payment *)

Section PlainTransport.

Variable pf : Platform.
Variable apiUrl : string.

(** Every run of [fetchWeatherWithoutPayment] issues exactly one request,
    without the payment header, and returns an outcome. *)
Lemma fetchWeatherWithoutPayment_run (w : World) :
  fetchWeatherWithoutPayment pf apiUrl w =
    (inr match network pf (sent w) (plainRequest apiUrl) with
         | inr response =>
             match json response with
             | inr data =>
                 mkPaymentResult true (Some data) None (Some (status response))
             | inl e => failed e
             end
         | inl e => failed e
         end,
     afterRequest (plainRequest apiUrl) w).
Proof.
  unfold fetchWeatherWithoutPayment, try_catch, bind, fetch, lift, ret.
  fold (plainRequest apiUrl). fold (afterRequest (plainRequest apiUrl) w).
  destruct (network pf (sent w) (plainRequest apiUrl)) as [e | response];
    [reflexivity |].
  destruct (json response); reflexivity.
Qed.

(** C3, as the code has it.  The request without payment does not
    classify by status: whenever the server answers and the body parses as
    JSON, the outcome is a success carrying the parsed body and the status
    code, whatever the status is; the outcome is a failure only when the
    request or the parsing of the body throws, and that failure carries the
    error message and no status code. *)
Theorem no_payment_outcome (w : World) :
  exists r,
    fetchWeatherWithoutPayment pf apiUrl w =
      (inr r, afterRequest (plainRequest apiUrl) w)
    /\ match network pf (sent w) (plainRequest apiUrl) with
       | inr response =>
           match json response with
           | inr data =>
               r = mkPaymentResult true (Some data) None
                     (Some (status response))
           | inl e => r = failed e
           end
       | inl e => r = failed e
       end
    /\ (pr_success r = false -> pr_status r = None).
Proof.
  rewrite fetchWeatherWithoutPayment_run. eexists. split; [reflexivity |].
  destruct (network pf (sent w) (plainRequest apiUrl)) as [e | response];
    [split; [reflexivity | reflexivity] |].
  destruct (json response); split; try reflexivity.
  discriminate.
Qed.

End PlainTransport.

(** The claim of C3 fails on a 402 answer: without the payment header the
    paywall answers 402, and the outcome is a success with status 402. *)
Lemma no_payment_402_is_success :
  exists r w',
    fetchWeatherWithoutPayment (fixturePlatform paywall true)
      DEFAULT_API_URL w0 = (inr r, w')
    /\ pr_status r = Some 402
    /\ pr_success r = true
    /\ ~ (pr_success r = true <-> pr_status r = Some 200).
Proof.
  eexists _, _. split; [reflexivity |].
  cbn. repeat split. intros [H _]. specialize (H eq_refl). discriminate H.
Qed.

(** ** The payment pipeline *)

Section Pipeline.

Variable pf : Platform.
Variables privateKey apiUrl : string.

(** The transport step, run by run. *)
Lemma requestWithPayment_run (paymentHeader : string) (w : World) :
  requestWithPayment pf apiUrl paymentHeader w =
    (match network pf (sent w) (paidRequest apiUrl paymentHeader) with
     | inr response =>
         match json response with
         | inr data =>
             if status response =? 200 then inr (classified response data)
             else
               match get_prop data "error" with
               | inr _ => inr (classified response data)
               | inl e => inl e
               end
         | inl e => inl e
         end
     | inl e => inl e
     end,
     afterRequest (paidRequest apiUrl paymentHeader) w).
Proof.
  unfold requestWithPayment, bind, fetch, lift, ret, classified.
  fold (paidRequest apiUrl paymentHeader).
  fold (afterRequest (paidRequest apiUrl paymentHeader) w).
  destruct (network pf (sent w) (paidRequest apiUrl paymentHeader))
    as [e | response]; [reflexivity |].
  destruct (json response) as [e | data]; [reflexivity |].
  destruct (status response =? 200); [reflexivity |].
  destruct data; reflexivity.
Qed.

Section Steps.

Variable account : Account.
Variable w : World.

Local Abbreviation msg := (builtAuthorization pf account amount w) (only parsing).

Hypothesis Haccount : privateKeyToAccount pf privateKey = inr account.

(** The signer throws: a failure, nothing sent. *)
Lemma pipeline_sign_throws (e : thrown) :
  signTypedData pf account (typedData msg) = inl e ->
  processPaymentAndFetchWeather pf privateKey apiUrl w =
    (inr (failed e), afterBuild w).
Proof.
  intros Hs. unfold processPaymentAndFetchWeather, try_catch.
  rewrite Haccount, bind_lift_inr.
  rewrite (bind_run _ _ _ _ _ (buildAuthorization_run pf account amount w)).
  rewrite Hs. reflexivity.
Qed.

Variable signature : string.

Hypothesis Hsigned : signTypedData pf account (typedData msg) = inr signature.

(** The local verification throws: a failure, nothing sent. *)
Lemma pipeline_verify_throws (e : thrown) :
  verifyTypedData pf (address account) (typedData msg) signature = inl e ->
  processPaymentAndFetchWeather pf privateKey apiUrl w =
    (inr (failed e), afterBuild w).
Proof.
  intros Hv. unfold processPaymentAndFetchWeather, try_catch.
  rewrite Haccount, bind_lift_inr.
  rewrite (bind_run _ _ _ _ _ (buildAuthorization_run pf account amount w)).
  rewrite Hsigned, bind_lift_inr, Hv. reflexivity.
Qed.

(** The local verification says no: the SignatureError outcome. *)
Lemma pipeline_verify_rejects :
  verifyTypedData pf (address account) (typedData msg) signature = inr false ->
  processPaymentAndFetchWeather pf privateKey apiUrl w =
    (inr signatureError, afterBuild w).
Proof.
  intros Hv. unfold processPaymentAndFetchWeather, try_catch.
  rewrite Haccount, bind_lift_inr.
  rewrite (bind_run _ _ _ _ _ (buildAuthorization_run pf account amount w)).
  rewrite Hsigned, bind_lift_inr, Hv. reflexivity.
Qed.

(** The local verification says yes: the transport step runs, once, with
    the encoded wire text as its header. *)
Lemma pipeline_verified :
  verifyTypedData pf (address account) (typedData msg) signature = inr true ->
  processPaymentAndFetchWeather pf privateKey apiUrl w =
    try_catch
      (requestWithPayment pf apiUrl (Base64.encode (wireText signature msg)))
      (fun e => ret (failed e))
      (afterBuild w).
Proof.
  intros Hv. unfold processPaymentAndFetchWeather, try_catch.
  rewrite Haccount, bind_lift_inr.
  rewrite (bind_run _ _ _ _ _ (buildAuthorization_run pf account amount w)).
  rewrite Hsigned, bind_lift_inr, Hv, bind_lift_inr.
  cbn [negb]. rewrite encodePayment_wire, bind_lift_inr.
  reflexivity.
Qed.

End Steps.

(** No account: a failure, nothing built, nothing sent. *)
Lemma pipeline_no_account (e : thrown) (w : World) :
  privateKeyToAccount pf privateKey = inl e ->
  processPaymentAndFetchWeather pf privateKey apiUrl w = (inr (failed e), w).
Proof.
  intros Ha. unfold processPaymentAndFetchWeather, try_catch.
  rewrite Ha. reflexivity.
Qed.

(** C4. Right after signing, the pipeline verifies the signature against
    the address of the account that signed.  In every run where this
    verification answers false, the outcome is the SignatureError (success
    false, error "Signature verification failed") and no request is issued:
    the requests sent are those sent before the run. *)
Theorem verification_failure_halts (w : World) (account : Account)
    (signature : string) :
  privateKeyToAccount pf privateKey = inr account ->
  signTypedData pf account
    (typedData (builtAuthorization pf account amount w)) = inr signature ->
  verifyTypedData pf (address account)
    (typedData (builtAuthorization pf account amount w)) signature = inr false ->
  exists w',
    processPaymentAndFetchWeather pf privateKey apiUrl w =
      (inr (mkPaymentResult false None
              (Some (VString "Signature verification failed")) None), w')
    /\ sent w' = sent w.
Proof.
  intros Ha Hs Hv. exists (afterBuild w).
  rewrite (pipeline_verify_rejects account w Ha signature Hs Hv).
  split; reflexivity.
Qed.


(** C7. When the server answers the paying request with a body that
    parses (and is not [null]), the outcome follows the status: 200 gives a
    success carrying the parsed body; any other status gives a failure
    carrying the body, the status code, and as its error the body's [error],
    else its [invalidReason], else "HTTP <status>".  In either case the
    request was issued exactly once: nothing is sent again. *)
Theorem paid_response_classified (w : World) (account : Account)
    (signature : string) (response : Response) (data : jsval) :
  privateKeyToAccount pf privateKey = inr account ->
  signTypedData pf account
    (typedData (builtAuthorization pf account amount w)) = inr signature ->
  verifyTypedData pf (address account)
    (typedData (builtAuthorization pf account amount w)) signature = inr true ->
  let rq :=
    paidRequest apiUrl
      (Base64.encode
         (wireText signature (builtAuthorization pf account amount w))) in
  network pf (sent w) rq = inr response ->
  json response = inr data ->
  data <> VNull -> data <> VUndefined ->
  exists r w',
    processPaymentAndFetchWeather pf privateKey apiUrl w = (inr r, w')
    /\ sent w' = (sent w ++ [rq])%list
    /\ (status response = 200 ->
        r = mkPaymentResult true (Some data) None (Some 200))
    /\ (status response <> 200 ->
        r = mkPaymentResult false (Some data)
              (Some (js_or (get_prop_opt data "error")
                       (js_or (get_prop_opt data "invalidReason")
                          (VString ("HTTP " ++ Z_toString (status response))))))
              (Some (status response))
        /\ (forall s, get_prop_opt data "error" = VString s -> s <> "" ->
            pr_error r = Some (VString s))
        /\ (forall s, get_prop_opt data "error" = VUndefined ->
            get_prop_opt data "invalidReason" = VString s -> s <> "" ->
            pr_error r = Some (VString s))).
Proof.
  intros Ha Hs Hv rq Hnet Hjson Hnull Hundef.
  exists (classified response data), (afterRequest rq (afterBuild w)).
  split; [| split; [reflexivity | split]].
  - rewrite (pipeline_verified account w Ha signature Hs Hv).
    unfold try_catch. rewrite requestWithPayment_run.
    fold rq. change (sent (afterBuild w)) with (sent w).
    rewrite Hnet, Hjson.
    destruct (status response =? 200); [reflexivity |].
    destruct data; try reflexivity; congruence.
  - intros H200. unfold classified. rewrite H200. reflexivity.
  - intros Hne. unfold classified.
    destruct (Z.eqb_spec (status response) 200) as [E | _]; [contradiction |].
    split; [reflexivity |]. cbn [pr_error]. split.
    + intros s He Hs'. rewrite He. unfold js_or at 1. cbn [truthy].
      destruct (String.eqb_spec s ""); [contradiction | reflexivity].
    + intros s He Hi Hs'. rewrite He, Hi. unfold js_or. cbn [truthy].
      destruct (String.eqb_spec s ""); [contradiction | reflexivity].
Qed.

End Pipeline.

(** The corrupted signature of scenario D: the verification answers false,
    the outcome is the SignatureError and nothing is sent. *)
Lemma verification_failure_halts_witness :
  exists w',
    processPaymentAndFetchWeather (fixturePlatform paywall false)
      "0xkey" DEFAULT_API_URL w0 =
      (inr (mkPaymentResult false None
              (Some (VString "Signature verification failed")) None), w')
    /\ sent w' = sent w0.
Proof.
  apply (verification_failure_halts (fixturePlatform paywall false)
           "0xkey" DEFAULT_API_URL w0 (fixtureAccount "0xkey") "0xfeed");
    reflexivity.
Defined.


(** Scenario E: the server answers 402 with [invalidReason]
    "insufficient_funds"; the outcome carries that reason and the status,
    and one request was sent. *)
Lemma paid_response_classified_witness :
  exists r w',
    processPaymentAndFetchWeather (fixturePlatform insufficient_funds true)
      "0xkey" DEFAULT_API_URL w0 = (inr r, w')
    /\ List.length (sent w') = 1%nat
    /\ pr_success r = false
    /\ pr_status r = Some 402
    /\ pr_error r = Some (VString "insufficient_funds").
Proof.
  destruct (paid_response_classified (fixturePlatform insufficient_funds true)
              "0xkey" DEFAULT_API_URL w0 (fixtureAccount "0xkey") "0xfeed"
              (mkResponse 402 "Payment Required"
                 (inr (VObject [("invalidReason", VString "insufficient_funds")])))
              (VObject [("invalidReason", VString "insufficient_funds")]))
    as (r & w' & Hrun & Hsent & _ & Hfail);
    try reflexivity; try discriminate.
  destruct Hfail as (Hr & _ & Hreason); [discriminate |].
  exists r, w'. split; [exact Hrun |].
  split; [rewrite Hsent; reflexivity |].
  split; [rewrite Hr; reflexivity |].
  split; [rewrite Hr; reflexivity |].
  apply Hreason; [reflexivity | reflexivity | discriminate].
Defined.

(** ** Conversions to text *)

Section Conversions.

(** The only thing a conversion to text throws is the TypeError of an
    object that has no primitive value. *)
Lemma ToString_throws (v : jsval) (e : thrown) :
  ToString v = inl e -> e = CANNOT_CONVERT.
Proof.
  revert e.
  induction v as [| | b | n | s | elems IH | props _] using jsval_nested_ind;
    intros e; cbn [ToString]; try discriminate.
  - destruct b; discriminate.
  - match goal with
    | |- and_then (?f elems) _ = _ -> _ => set (items := f)
    end.
    assert (Hitems : forall e', items elems = inl e' -> e' = CANNOT_CONVERT).
    { induction IH as [| x l Hx _ IHl]; intros e'; cbn [items];
        [discriminate |].
      fold items.
      assert (Hhead : forall r : thrown + string,
                 (forall e1, r = inl e1 -> e1 = CANNOT_CONVERT) ->
                 and_then r
                   (fun s => and_then (items l) (fun ss => inr (s :: ss)))
                 = inl e' -> e' = CANNOT_CONVERT).
      { intros [e1 | s] Hr; cbn [and_then].
        - intros H. injection H as <-. now apply Hr.
        - destruct (items l) as [e2 | ss] eqn:El; cbn [and_then];
            [| discriminate].
          intros H. injection H as <-. now apply IHl. }
      destruct x; apply Hhead; try discriminate; exact Hx. }
    destruct (items elems) as [e1 | ss]; cbn [and_then]; [| discriminate].
    intros H. injection H as <-. now apply Hitems.
  - destruct (assoc "toString" props); [| discriminate].
    intros H. now injection H as <-.
Qed.

Lemma measure_throws (v : jsval) (unit : string) (e : thrown) :
  measure v unit = inl e -> e = CANNOT_CONVERT.
Proof.
  assert (H : forall x, and_then (ToString x) (fun s => inr (s ++ unit)) = inl e ->
                        e = CANNOT_CONVERT).
  { intros x. destruct (ToString x) as [e1 | s] eqn:E; cbn [and_then];
      [| discriminate].
    intros H. injection H as <-. exact (ToString_throws _ _ E). }
  destruct v; cbn [measure]; try apply H. discriminate.
Qed.

(** A measure is converted when its value is. *)
Lemma measure_prints (v : jsval) (unit : string) :
  measure v unit
  = if prints v then inr (measureText v unit) else inl CANNOT_CONVERT.
Proof.
  unfold prints, measureText, text_of.
  destruct v; cbn [measure]; try reflexivity;
    match goal with
    | |- context [ToString ?x] =>
        destruct (ToString x) as [e | s] eqn:E; cbn [and_then];
        [now rewrite (ToString_throws _ _ E) | reflexivity]
    end.
Qed.

(** The reply to a rejection is the notice, unless formatting a measure
    throws. *)
Lemma rejectionText_cases (weatherData : jsval) :
  rejectionText weatherData
  = if measures_print weatherData then inr NO_HEADER_TEXT
    else inl CANNOT_CONVERT.
Proof.
  unfold rejectionText, measures_print.
  destruct (truthy weatherData && typeof_object weatherData)%bool eqn:Hobj.
  - rewrite !measure_prints.
    destruct (prints (get_prop_opt weatherData "temperature")); [| reflexivity].
    cbn [and_then andb].
    destruct (prints (get_prop_opt weatherData "humidity")); [| reflexivity].
    cbn [and_then andb].
    destruct (prints (get_prop_opt weatherData "windSpeed")); reflexivity.
  - destruct weatherData; try discriminate Hobj; reflexivity.
Qed.

Lemma weatherReportText_throws (weatherData : jsval) (e : thrown) :
  weatherReportText weatherData = inl e -> e = CANNOT_CONVERT.
Proof.
  unfold weatherReportText.
  destruct (truthy weatherData && typeof_object weatherData)%bool;
    [| discriminate].
  repeat match goal with
         | |- and_then (measure ?v ?u) _ = _ -> _ =>
             let E := fresh "E" in
             destruct (measure v u) as [? | ?] eqn:E; cbn [and_then];
             [intros H; injection H as <-; exact (measure_throws _ _ _ E) |]
         end.
  match goal with
  | |- and_then (ToString ?v) _ = _ -> _ =>
      destruct (ToString v) as [? | ?] eqn:Econd; cbn [and_then];
      [intros H; injection H as <-; exact (ToString_throws _ _ Econd)
      | discriminate]
  end.
Qed.

(** [a || b] and [a || c] with [b] and [c] strings: when the first is
    converted, so is the second. *)
Lemma ToString_or_string (a : jsval) (b c s : string) :
  ToString (js_or a (VString b)) = inr s ->
  exists s', ToString (js_or a (VString c)) = inr s'
             /\ (truthy a = true -> s' = s).
Proof.
  unfold js_or. destruct (truthy a).
  - intros H. exists s. split; [exact H | reflexivity].
  - intros _. exists c. split; [reflexivity | discriminate].
Qed.

(** Some conversions: an array joins its elements, [null] printing as
    nothing inside it; an own [toString] property makes the conversion
    throw, also inside an array; an own [valueOf] property does not. *)
Example ToString_samples :
  ToString (VArray [VNumber 1; VNull; VArray [VString "a"; VObject []]])
  = inr "1,,a,[object Object]"
  /\ ToString (VObject [("toString", VNumber 0)]) = inl CANNOT_CONVERT
  /\ ToString (VArray [VBool true; VObject [("toString", VNull)]])
     = inl CANNOT_CONVERT
  /\ ToString (VObject [("valueOf", VNumber 0)]) = inr "[object Object]".
Proof. repeat split. Qed.

(** Lowercase forms: ASCII letters, U+212A, U+0130, and a character
    outside ASCII that keeps its bytes. *)
Example toLowerCase_samples :
  toLowerCase "Yes, OK" = "yes, ok"
  /\ toLowerCase (String "226" (String "132" (String "170" ""))) = "k"
  /\ toLowerCase (String "196" (String "176" "x"))
     = String "i" (String "204" (String "135" "x"))
  /\ toLowerCase (String "195" (String "137" "A"))
     = String "195" (String "137" "a").
Proof. repeat split. Qed.

End Conversions.

(** ** The handler *)

Section Handler.

Variable pf : Platform.
Variable runtime : IAgentRuntime.
Variable message : Memory.

Local Abbreviation messageText := (lowered_text (m_content message)) (only parsing).
Local Abbreviation apiUrl := (weatherApiUrl runtime) (only parsing).

(** What the handler returns when a conversion to text threw in its
    body. *)
Lemma handlerCatch_run (w : World) :
  exists r,
    handlerCatch CANNOT_CONVERT w = (inr r, w)
    /\ ar_text r = HANDLER_FAILED_TEXT
    /\ ar_success r = false
    /\ ar_error r = Some "Cannot convert object to primitive value".
Proof. eexists. split; [reflexivity |]. repeat split. Qed.

(** The rejection branch issues the request without the payment header,
    once.  Then either it answers with one reply, which is not the payment
    prompt, and returns; or formatting a measure of the report throws,
    before any reply. *)
Lemma handleRejection_run (w : World) :
  let w1 := afterRequest (plainRequest apiUrl) w in
  (exists r c,
      handleRejection pf runtime message w
      = (inr r,
         mkWorld (S (ticks w1)) (drawn w1) (sent w1) (replies w1 ++ [c]))
      /\ c_text c <> Some PAYMENT_PROMPT
      /\ c_actions c = Some ["WEATHER_REPORT"]
      /\ c_source c = c_source (m_content message)
      /\ (ar_text r = "Provided weather report after payment rejection"
          \/ ar_text r = "Failed to fetch weather after payment rejection"))
  \/ handleRejection pf runtime message w = (inl CANNOT_CONVERT, w1).
Proof.
  intros w1. unfold handleRejection.
  rewrite (bind_run _ _ _ _ _
             (fetchWeatherWithoutPayment_run pf (weatherApiUrl runtime) w)).
  fold w1.
  set (r0 := match network pf (sent w) (plainRequest (weatherApiUrl runtime))
             with inr _ => _ | inl _ => _ end).
  destruct (pr_success r0) eqn:Hs; cbn [negb].
  - rewrite rejectionText_cases.
    destruct (measures_print (weatherDataOf r0)).
    + left. eexists _, _. split; [reflexivity |].
      split; [discriminate |]. split; [reflexivity |]. split; [reflexivity |].
      left. reflexivity.
    + right. reflexivity.
  - assert (He : exists m, pr_error r0 = Some (VString m)).
    { subst r0.
      destruct (network pf (sent w) (plainRequest (weatherApiUrl runtime)))
        as [e | response]; [eexists; reflexivity |].
      destruct (json response) as [e | data];
        [eexists; reflexivity | discriminate Hs]. }
    destruct He as (m & He). rewrite He. cbn [opt_val].
    assert (Hor : forall b, exists s,
               ToString (js_or (VString m) (VString b)) = inr s).
    { intros b. unfold js_or. destruct (truthy (VString m));
        eexists; reflexivity. }
    destruct (Hor "Unknown error") as (s1 & ->).
    destruct (Hor "Weather fetch failed") as (s2 & E2).
    left. eexists _, _. split.
    + rewrite bind_lift_inr. unfold bind at 1, callback at 1.
      unfold bind at 1, dateNow at 1. cbn [ticks drawn sent replies].
      rewrite E2, bind_lift_inr. reflexivity.
    + split; [| split; [reflexivity | split; [reflexivity |]]].
      * cbn [reply c_text]. intros H. injection H as H. discriminate H.
      * right. reflexivity.
Qed.

(** A message with a rejection keyword takes the rejection branch,
    whatever else it contains: the handler tries the rejection keywords
    first. *)
Lemma handler_rejection_first (w : World) :
  isRejection messageText = true ->
  handler pf runtime message w
  = try_catch (handleRejection pf runtime message) handlerCatch w.
Proof. intros Hr. unfold handler, try_catch. now rewrite Hr. Qed.

(** The handler on a message with a rejection keyword: one request, without
    the payment header; one reply that is not the payment prompt, or none
    when formatting the report threw. *)
Lemma handler_rejection_run (w : World) :
  isRejection messageText = true ->
  exists r w',
    handler pf runtime message w = (inr r, w')
    /\ sent w' = (sent w ++ [plainRequest apiUrl])%list
    /\ ((exists c, replies w' = (replies w ++ [c])%list
                   /\ c_text c <> Some PAYMENT_PROMPT
                   /\ c_actions c = Some ["WEATHER_REPORT"]
                   /\ c_source c = c_source (m_content message)
                   /\ (ar_text r = "Provided weather report after payment rejection"
                       \/ ar_text r
                          = "Failed to fetch weather after payment rejection"))
        \/ (replies w' = replies w
            /\ ar_text r = HANDLER_FAILED_TEXT
            /\ ar_success r = false
            /\ ar_error r = Some "Cannot convert object to primitive value")).
Proof.
  intros Hr. rewrite (handler_rejection_first w Hr). unfold try_catch.
  destruct (handleRejection_run w) as [(r & c & -> & Hc) | ->].
  - eexists _, _. split; [reflexivity |]. split; [reflexivity |].
    left. exists c. split; [reflexivity | exact Hc].
  - destruct (handlerCatch_run (afterRequest (plainRequest apiUrl) w))
      as (r & -> & Hr').
    eexists _, _. split; [reflexivity |]. split; [reflexivity |].
    right. split; [reflexivity | exact Hr'].
Qed.

(** C2, as the code has it.  For a message with both an approval and a
    rejection keyword the two entry points disagree.  [validate] tries the
    approval keywords first, so its answer is the lookback's.  The handler
    tries the rejection keywords first, so it treats the message as a
    rejection: it runs the rejection branch (inside its [try]), whose one
    request carries no payment header, the payment pipeline does not run,
    and the result is one of the two results of the rejection branch or the
    one of the [catch]. *)
Theorem both_keywords_validate_approval_handler_rejection (w : World) :
  isApproval messageText = true ->
  isRejection messageText = true ->
  validate runtime message =
    match getMemories runtime (m_roomId message) 10 "messages" with
    | inr recentMemories => existsb isPaymentPrompt recentMemories
    | inl _ => false
    end
  /\ handler pf runtime message w
     = try_catch (handleRejection pf runtime message) handlerCatch w
  /\ exists r w',
       handler pf runtime message w = (inr r, w')
       /\ sent w' = (sent w ++ [plainRequest (weatherApiUrl runtime)])%list
       /\ has_header "X-PAYMENT" (plainRequest (weatherApiUrl runtime)) = false
       /\ (ar_text r = "Provided weather report after payment rejection"
           \/ ar_text r = "Failed to fetch weather after payment rejection"
           \/ ar_text r = HANDLER_FAILED_TEXT).
Proof.
  intros Ha Hr. split; [exact (validate_approval runtime message Ha) |].
  split; [exact (handler_rejection_first w Hr) |].
  destruct (handler_rejection_run w Hr) as (r & w' & Hrun & Hsent & Hcases).
  exists r, w'. split; [exact Hrun |]. split; [exact Hsent |].
  split; [reflexivity |].
  destruct Hcases as [(c & _ & _ & _ & _ & [Ht | Ht]) | (_ & Ht & _)]; auto.
Qed.

(** C10. A weather request whose text contains a rejection keyword, even
    inside another word, is handled as a rejection: the handler runs the
    rejection branch (inside its [try]) and issues the request without
    payment; it makes at most one reply, which is not the payment prompt,
    and its result is one of the two results of the rejection branch or the
    one of the [catch]. *)
Theorem weather_request_routed_to_rejection (w : World) :
  isWeatherRequest messageText = true ->
  isRejection messageText = true ->
  exists r w',
    handler pf runtime message w = (inr r, w')
    /\ handler pf runtime message w
       = try_catch (handleRejection pf runtime message) handlerCatch w
    /\ sent w' = (sent w ++ [plainRequest (weatherApiUrl runtime)])%list
    /\ (replies w' = replies w
        \/ exists c, replies w' = (replies w ++ [c])%list
                     /\ c_text c <> Some PAYMENT_PROMPT)
    /\ (ar_text r = "Provided weather report after payment rejection"
        \/ ar_text r = "Failed to fetch weather after payment rejection"
        \/ ar_text r = HANDLER_FAILED_TEXT).
Proof.
  intros _ Hr.
  destruct (handler_rejection_run w Hr) as (r & w' & Hrun & Hsent & Hcases).
  exists r, w'. split; [exact Hrun |].
  split; [exact (handler_rejection_first w Hr) |]. split; [exact Hsent |].
  destruct Hcases as [(c & Hrep & Hc & _ & _ & Ht) | (Hrep & Ht & _)].
  - split; [right; exists c; split; assumption |].
    destruct Ht as [Ht | Ht]; auto.
  - split; [left; exact Hrep | auto].
Qed.

End Handler.

(** "yes, no problem" has "yes" and "no": [validate] gates it as an
    approval, the handler answers it as a rejection. *)
Lemma both_keywords_validate_approval_handler_rejection_witness :
  validate (fixtureRuntime (inr [])) (userMessage "yes, no problem") = false
  /\ exists r w',
       handler (fixturePlatform paywall true) (fixtureRuntime (inr []))
         (userMessage "yes, no problem") w0 = (inr r, w')
       /\ sent w' = [plainRequest DEFAULT_API_URL].
Proof.
  destruct (both_keywords_validate_approval_handler_rejection
              (fixturePlatform paywall true) (fixtureRuntime (inr []))
              (userMessage "yes, no problem") w0)
    as (Hv & _ & r & w' & Hrun & Hsent & _); try reflexivity.
  split; [exact Hv |]. exists r, w'. split; [exact Hrun | exact Hsent].
Defined.

(** The claim of C2 fails on "yes, no problem": the handler does not run
    the payment pipeline (no request carries the payment header, and the
    result is the one of the rejection branch), although the approval
    branch, run on the same message, would have paid. *)
Lemma both_keywords_not_approval :
  let pf := fixturePlatform paywall true in
  let runtime := fixtureRuntime (inr []) in
  let message := userMessage "yes, no problem" in
  isApproval (lowered_text (m_content message)) = true
  /\ isRejection (lowered_text (m_content message)) = true
  /\ existsb (has_header "X-PAYMENT")
       (sent (snd (handler pf runtime message w0))) = false
  /\ existsb (has_header "X-PAYMENT")
       (sent (snd (handleApproval pf runtime message w0))) = true
  /\ handler pf runtime message w0 <> handleApproval pf runtime message w0.
Proof.
  cbv zeta. repeat split; try reflexivity.
  intros H.
  apply (f_equal (fun x => existsb (has_header "X-PAYMENT") (sent (snd x)))) in H.
  vm_compute in H. discriminate H.
Qed.

(** "what's the weather now" is a weather request and contains "no": it
    is let through by [validate] and answered as a rejection. *)
Lemma weather_request_routed_to_rejection_witness :
  validate (fixtureRuntime (inr [])) (userMessage "what's the weather now") = true
  /\ exists r w',
       handler (fixturePlatform paywall true) (fixtureRuntime (inr []))
         (userMessage "what's the weather now") w0 = (inr r, w')
       /\ sent w' = [plainRequest DEFAULT_API_URL]
       /\ ar_text r = "Provided weather report after payment rejection".
Proof.
  split; [reflexivity |].
  destruct (weather_request_routed_to_rejection
              (fixturePlatform paywall true) (fixtureRuntime (inr []))
              (userMessage "what's the weather now") w0)
    as (r & w' & Hrun & _ & Hsent & _ & _); try reflexivity.
  exists r, w'. split; [exact Hrun |]. split; [exact Hsent |].
  vm_compute in Hrun. injection Hrun as <- _. reflexivity.
Defined.

(* ================================================================= *)
(** * Further properties *)

(** ** The runs of the pipeline *)

Section PipelineRuns.

Variable pf : Platform.
Variables privateKey apiUrl : string.

Lemma transport_run (paymentHeader : string) (w : World) :
  try_catch (requestWithPayment pf apiUrl paymentHeader)
    (fun e => ret (failed e)) w
  = (inr (transportOutcome pf (sent w) (paidRequest apiUrl paymentHeader)),
     afterRequest (paidRequest apiUrl paymentHeader) w).
Proof.
  unfold try_catch, transportOutcome. rewrite requestWithPayment_run.
  destruct (network pf _ _) as [e | response]; [reflexivity |].
  destruct (json response) as [e | data]; [reflexivity |].
  destruct (status response =? 200); [reflexivity |].
  destruct (get_prop data "error"); reflexivity.
Qed.

(** The runs of the pipeline, case by case. *)
Lemma pipeline_cases (w : World) :
  (exists e,
      privateKeyToAccount pf privateKey = inl e
      /\ processPaymentAndFetchWeather pf privateKey apiUrl w
         = (inr (failed e), w))
  \/ exists account,
      privateKeyToAccount pf privateKey = inr account
      /\ ((exists e,
             signTypedData pf account
               (typedData (builtAuthorization pf account amount w)) = inl e
             /\ processPaymentAndFetchWeather pf privateKey apiUrl w
                = (inr (failed e), afterBuild w))
          \/ exists signature,
             signTypedData pf account
               (typedData (builtAuthorization pf account amount w))
             = inr signature
             /\ ((exists e,
                    verifyTypedData pf (address account)
                      (typedData (builtAuthorization pf account amount w))
                      signature = inl e
                    /\ processPaymentAndFetchWeather pf privateKey apiUrl w
                       = (inr (failed e), afterBuild w))
                 \/ (verifyTypedData pf (address account)
                       (typedData (builtAuthorization pf account amount w))
                       signature = inr false
                     /\ processPaymentAndFetchWeather pf privateKey apiUrl w
                        = (inr signatureError, afterBuild w))
                 \/ (verifyTypedData pf (address account)
                       (typedData (builtAuthorization pf account amount w))
                       signature = inr true
                     /\ let rq :=
                          paidRequest apiUrl
                            (Base64.encode
                               (wireText signature
                                  (builtAuthorization pf account amount w))) in
                        processPaymentAndFetchWeather pf privateKey apiUrl w
                        = (inr (transportOutcome pf (sent w) rq),
                           afterRequest rq (afterBuild w))))).
Proof.
  destruct (privateKeyToAccount pf privateKey) as [e | account] eqn:Ha.
  { left. exists e. split; [reflexivity |].
    apply pipeline_no_account, Ha. }
  right. exists account. split; [reflexivity |].
  destruct (signTypedData pf account
              (typedData (builtAuthorization pf account amount w)))
    as [e | signature] eqn:Hs.
  { left. exists e. split; [reflexivity |].
    apply (pipeline_sign_throws pf privateKey apiUrl account w Ha e Hs). }
  right. exists signature. split; [reflexivity |].
  destruct (verifyTypedData pf (address account)
              (typedData (builtAuthorization pf account amount w)) signature)
    as [e | [|]] eqn:Hv.
  - left. exists e. split; [reflexivity |].
    apply (pipeline_verify_throws pf privateKey apiUrl account w Ha
             signature Hs e Hv).
  - right. right. split; [reflexivity |]. cbv zeta.
    rewrite (pipeline_verified pf privateKey apiUrl account w Ha
               signature Hs Hv).
    rewrite transport_run. reflexivity.
  - right. left. split; [reflexivity |].
    apply (pipeline_verify_rejects pf privateKey apiUrl account w Ha
             signature Hs Hv).
Qed.

(** X4. In every run the pipeline issues at most one request; it issues
    one only after the signature was made and the local verification
    answered true, and that request carries the encoded payment as its
    X-PAYMENT header. *)
Theorem pipeline_sends_only_verified (w : World) :
  let w' := snd (processPaymentAndFetchWeather pf privateKey apiUrl w) in
  sent w' = sent w
  \/ exists account signature,
       privateKeyToAccount pf privateKey = inr account
       /\ signTypedData pf account
            (typedData (builtAuthorization pf account amount w))
          = inr signature
       /\ verifyTypedData pf (address account)
            (typedData (builtAuthorization pf account amount w)) signature
          = inr true
       /\ sent w'
          = (sent w
             ++ [paidRequest apiUrl
                   (Base64.encode
                      (wireText signature
                         (builtAuthorization pf account amount w)))])%list.
Proof.
  cbv zeta.
  destruct (pipeline_cases w)
    as [(e & _ & ->)
       | (account & Ha
          & [(e & _ & ->)
            | (signature & Hs
               & [(e & _ & ->) | [(_ & ->) | (Hv & Hrun)]])])];
    try (left; reflexivity).
  right. exists account, signature. cbv zeta in Hrun. rewrite Hrun.
  repeat split; assumption || reflexivity.
Qed.

Lemma classified_success (response : Response) (data : jsval) :
  pr_success (classified response data) = (status response =? 200).
Proof. unfold classified. now destruct (status response =? 200). Qed.

(** X5. The pipeline never throws: whatever fails (the key, the signer,
    the verification, the request, the parsing of the body), it returns an
    outcome.  The outcome is a success exactly when the paying request was
    issued and answered with status 200 and a body that parses; a success
    carries that body and the status 200. *)
Theorem pipeline_success_iff_200 (w : World) :
  exists r w',
    processPaymentAndFetchWeather pf privateKey apiUrl w = (inr r, w')
    /\ (pr_success r = true <->
        exists account signature response data,
          privateKeyToAccount pf privateKey = inr account
          /\ signTypedData pf account
               (typedData (builtAuthorization pf account amount w))
             = inr signature
          /\ verifyTypedData pf (address account)
               (typedData (builtAuthorization pf account amount w)) signature
             = inr true
          /\ network pf (sent w)
               (paidRequest apiUrl
                  (Base64.encode
                     (wireText signature
                        (builtAuthorization pf account amount w))))
             = inr response
          /\ json response = inr data
          /\ status response = 200
          /\ r = mkPaymentResult true (Some data) None (Some 200)).
Proof.
  destruct (pipeline_cases w)
    as [(e & Ha & Hrun)
       | (account & Ha
          & [(e & Hs & Hrun)
            | (signature & Hs
               & [(e & Hv & Hrun) | [(Hv & Hrun) | (Hv & Hrun)]])])];
    cbv zeta in Hrun; rewrite Hrun; eexists _, _; (split; [reflexivity |]).
  - split; [discriminate |]. intros (? & ? & ? & ? & Ha' & _). congruence.
  - split; [discriminate |].
    intros (a' & ? & ? & ? & Ha' & Hs' & _).
    rewrite Ha in Ha'. injection Ha' as <-. congruence.
  - split; [discriminate |].
    intros (a' & s' & ? & ? & Ha' & Hs' & Hv' & _).
    rewrite Ha in Ha'. injection Ha' as <-.
    rewrite Hs in Hs'. injection Hs' as <-. congruence.
  - split; [discriminate |].
    intros (a' & s' & ? & ? & Ha' & Hs' & Hv' & _).
    rewrite Ha in Ha'. injection Ha' as <-.
    rewrite Hs in Hs'. injection Hs' as <-. congruence.
  - set (rq := paidRequest apiUrl _).
    unfold transportOutcome.
    destruct (network pf (sent w) rq) as [e | response] eqn:Hnet.
    { split; [discriminate |].
      intros (a' & s' & ? & ? & Ha' & Hs' & _ & Hnet' & _).
      rewrite Ha in Ha'. injection Ha' as <-.
      rewrite Hs in Hs'. injection Hs' as <-.
      fold rq in Hnet'. congruence. }
    destruct (json response) as [e | data] eqn:Hjson.
    { split; [discriminate |].
      intros (a' & s' & r' & ? & Ha' & Hs' & _ & Hnet' & Hjson' & _).
      rewrite Ha in Ha'. injection Ha' as <-.
      rewrite Hs in Hs'. injection Hs' as <-.
      fold rq in Hnet'. rewrite Hnet in Hnet'. injection Hnet' as <-.
      congruence. }
    destruct (Z.eqb_spec (status response) 200) as [E | NE].
    + split; [| intros _; rewrite classified_success, E; reflexivity].
      intros _.
      exists account, signature, response, data.
      repeat split; try assumption.
      unfold classified. rewrite E. reflexivity.
    + assert (Hno : forall r0 : PaymentResult,
                 pr_success r0 = false ->
                 (pr_success r0 = true <->
                  exists account0 signature0 response0 data0,
                    privateKeyToAccount pf privateKey = inr account0
                    /\ signTypedData pf account0
                         (typedData (builtAuthorization pf account0 amount w))
                       = inr signature0
                    /\ verifyTypedData pf (address account0)
                         (typedData (builtAuthorization pf account0 amount w))
                         signature0 = inr true
                    /\ network pf (sent w)
                         (paidRequest apiUrl
                            (Base64.encode
                               (wireText signature0
                                  (builtAuthorization pf account0 amount w))))
                       = inr response0
                    /\ json response0 = inr data0
                    /\ status response0 = 200
                    /\ r0 = mkPaymentResult true (Some data0) None (Some 200))).
      { intros r0 Hr0. split; [congruence |].
        intros (a' & s' & r' & ? & Ha' & Hs' & _ & Hnet' & _ & H200 & _).
        rewrite Ha in Ha'. injection Ha' as <-.
        rewrite Hs in Hs'. injection Hs' as <-.
        fold rq in Hnet'. rewrite Hnet in Hnet'. injection Hnet' as <-.
        contradiction. }
      destruct (get_prop data "error"); apply Hno; [reflexivity |].
      rewrite classified_success. now apply Z.eqb_neq.
Qed.

End PipelineRuns.

Section PipelineShape.

Variable pf : Platform.
Variables privateKey apiUrl : string.

(** Every run returns, leaves the replies alone and sends at most the one
    paying request. *)
Lemma pipeline_run_shape (w : World) :
  exists r w1,
    processPaymentAndFetchWeather pf privateKey apiUrl w = (inr r, w1)
    /\ replies w1 = replies w
    /\ (sent w1 = sent w
        \/ exists paymentHeader,
             sent w1 = (sent w ++ [paidRequest apiUrl paymentHeader])%list).
Proof.
  destruct (pipeline_cases pf privateKey apiUrl w)
    as [(e & _ & ->)
       | (account & Ha
          & [(e & _ & ->)
            | (signature & Hs
               & [(e & _ & ->) | [(_ & ->) | (Hv & Hrun)]])])];
    try (eexists _, _; split; [reflexivity |]; split; [reflexivity |];
         left; reflexivity).
  cbv zeta in Hrun. rewrite Hrun.
  eexists _, _. split; [reflexivity |]. split; [reflexivity |].
  right. eexists. reflexivity.
Qed.

End PipelineShape.

Section HandlerRuns.

Variable pf : Platform.
Variable runtime : IAgentRuntime.
Variable message : Memory.

Local Abbreviation messageText := (lowered_text (m_content message)) (only parsing).

(** The approval branch without a usable key: one reply, nothing else. *)
Lemma handleApproval_missing_key (w : World) :
  getSetting runtime "PRIVATE_KEY" = None
  \/ getSetting runtime "PRIVATE_KEY" = Some "" ->
  exists r,
    handleApproval pf runtime message w
    = (inr r,
       mkWorld (S (ticks w)) (drawn w) (sent w)
         (replies w ++ [reply MISSING_KEY_TEXT message]))
    /\ ar_success r = false
    /\ ar_text r = "Payment processing failed - missing configuration"
    /\ ar_values r = [("success", VBool false);
                      ("error", VString "MISSING_PRIVATE_KEY")]
    /\ ar_error r = Some "PRIVATE_KEY not configured".
Proof.
  intros [H | H]; unfold handleApproval; rewrite H;
    eexists; (split; [reflexivity |]); repeat split.
Qed.

(** The approval branch with a key, after the pipeline has run: the reply
    is made with the text of [approvalReplyText]; when that text cannot be
    made, the branch throws before any reply. *)
Lemma handleApproval_with_key (k : string) (w w1 : World) (r : PaymentResult) :
  getSetting runtime "PRIVATE_KEY" = Some k -> k <> "" ->
  processPaymentAndFetchWeather pf k (weatherApiUrl runtime) w = (inr r, w1) ->
  match approvalReplyText r with
  | inr text =>
      exists res,
        handleApproval pf runtime message w
        = (inr res,
           mkWorld (S (ticks w1)) (drawn w1) (sent w1)
             (replies w1 ++ [reply text message]))
        /\ ar_success res = pr_success r
        /\ ar_text res
           = (if pr_success r
              then "Provided weather report after payment approval"
              else "Payment processing failed")
        /\ (pr_success r = false ->
            exists s,
              ToString (js_or (opt_val (pr_error r)) (VString "Payment failed"))
              = inr s
              /\ ar_error res = Some s)
  | inl _ =>
      handleApproval pf runtime message w = (inl CANNOT_CONVERT, w1)
  end.
Proof.
  intros Hk Hne Hrun. unfold handleApproval. rewrite Hk.
  destruct k as [| a k']; [congruence |].
  rewrite (bind_run _ _ _ _ _ Hrun). unfold approvalReplyText.
  destruct (pr_success r); cbn [negb].
  - destruct (weatherReportText (weatherDataOf r)) as [e | text] eqn:E.
    + rewrite (weatherReportText_throws _ _ E). reflexivity.
    + eexists. split; [reflexivity |]. repeat split. discriminate.
  - destruct (ToString (js_or (opt_val (pr_error r)) (VString "Unknown error")))
      as [e | s] eqn:E; cbn [and_then].
    + rewrite (ToString_throws _ _ E). reflexivity.
    + destruct (ToString_or_string _ _ "Payment failed" _ E) as (s' & E' & _).
      eexists. split.
      * rewrite bind_lift_inr. unfold bind at 1, callback at 1.
        unfold bind at 1, dateNow at 1. cbn [ticks drawn sent replies].
        rewrite E', bind_lift_inr. reflexivity.
      * repeat split. intros _. exists s'. split; [exact E' | reflexivity].
Qed.

(** The approval branch sends at most the one paying request, and that
    only with a key; it replies once and returns, or throws before any
    reply when the text of the reply cannot be made. *)
Lemma handleApproval_shape (w : World) :
  exists res w',
    handleApproval pf runtime message w = (res, w')
    /\ (sent w' = sent w
        \/ exists k paymentHeader,
             getSetting runtime "PRIVATE_KEY" = Some k /\ k <> ""
             /\ sent w'
                = (sent w
                   ++ [paidRequest (weatherApiUrl runtime) paymentHeader])%list)
    /\ ((exists r c,
            res = inr r
            /\ replies w' = (replies w ++ [c])%list
            /\ c_actions c = Some ["WEATHER_REPORT"]
            /\ c_source c = c_source (m_content message))
        \/ (res = inl CANNOT_CONVERT /\ replies w' = replies w)).
Proof.
  assert (Hmissing :
            getSetting runtime "PRIVATE_KEY" = None
            \/ getSetting runtime "PRIVATE_KEY" = Some "" ->
            exists res w',
              handleApproval pf runtime message w = (res, w')
              /\ (sent w' = sent w
                  \/ exists k paymentHeader,
                       getSetting runtime "PRIVATE_KEY" = Some k /\ k <> ""
                       /\ sent w'
                          = (sent w
                             ++ [paidRequest (weatherApiUrl runtime)
                                   paymentHeader])%list)
              /\ ((exists r c,
                      res = inr r
                      /\ replies w' = (replies w ++ [c])%list
                      /\ c_actions c = Some ["WEATHER_REPORT"]
                      /\ c_source c = c_source (m_content message))
                  \/ (res = inl CANNOT_CONVERT /\ replies w' = replies w))).
  { intros H. destruct (handleApproval_missing_key w H) as (r & -> & _).
    eexists _, _. split; [reflexivity |]. split; [left; reflexivity |].
    left. eexists _, _. split; [reflexivity |]. repeat split. }
  destruct (getSetting runtime "PRIVATE_KEY") as [k |] eqn:Hk;
    [| apply Hmissing; left; reflexivity].
  destruct (String.eqb_spec k "") as [-> | Hne];
    [apply Hmissing; right; reflexivity |].
  clear Hmissing.
  destruct (pipeline_run_shape pf k (weatherApiUrl runtime) w)
    as (r & w1 & Hrun & Hrep & Hsent).
  assert (Hsent' : sent w1 = sent w
                   \/ exists k0 paymentHeader,
                        Some k = Some k0 /\ k0 <> ""
                        /\ sent w1
                           = (sent w
                              ++ [paidRequest (weatherApiUrl runtime)
                                    paymentHeader])%list).
  { destruct Hsent as [-> | (h & ->)]; [left; reflexivity |].
    right. exists k, h. repeat split. exact Hne. }
  pose proof (handleApproval_with_key k w w1 r Hk Hne Hrun) as H.
  destruct (approvalReplyText r) as [e | text].
  - rewrite H. eexists _, _. split; [reflexivity |].
    split; [exact Hsent' |]. right. split; [reflexivity | exact Hrep].
  - destruct H as (res & -> & _).
    eexists _, _. split; [reflexivity |]. cbn [sent replies].
    split; [exact Hsent' |]. left.
    eexists _, _. split; [reflexivity |]. rewrite Hrep. repeat split.
Qed.

(** Without a rejection keyword, an approval keyword leads to the approval
    branch. *)
Lemma handler_approval (w : World) :
  isRejection messageText = false ->
  isApproval messageText = true ->
  handler pf runtime message w
  = try_catch (handleApproval pf runtime message) handlerCatch w.
Proof. intros Hr Ha. unfold handler, try_catch. now rewrite Hr, Ha. Qed.

(** Without any of the two kinds of keyword, the prompt. *)
Lemma handler_prompt (w : World) :
  isRejection messageText = false ->
  isApproval messageText = false ->
  handler pf runtime message w = promptForPayment pf message w.
Proof.
  intros Hr Ha. unfold handler, try_catch. rewrite Hr, Ha. reflexivity.
Qed.

(** The handler on an approval: what the approval branch sent stays sent;
    one reply, or none when the text of the reply could not be made. *)
Lemma handler_approval_run (w : World) :
  isRejection messageText = false ->
  isApproval messageText = true ->
  exists r w',
    handler pf runtime message w = (inr r, w')
    /\ (sent w' = sent w
        \/ exists k paymentHeader,
             getSetting runtime "PRIVATE_KEY" = Some k /\ k <> ""
             /\ sent w'
                = (sent w
                   ++ [paidRequest (weatherApiUrl runtime) paymentHeader])%list)
    /\ ((exists c,
            replies w' = (replies w ++ [c])%list
            /\ c_actions c = Some ["WEATHER_REPORT"]
            /\ c_source c = c_source (m_content message))
        \/ (replies w' = replies w
            /\ ar_text r = HANDLER_FAILED_TEXT
            /\ ar_success r = false
            /\ ar_error r = Some "Cannot convert object to primitive value")).
Proof.
  intros Hr Ha. rewrite (handler_approval w Hr Ha). unfold try_catch.
  destruct (handleApproval_shape w)
    as (res & w' & -> & Hsent & [(r & c & -> & Hrep) | (-> & Hrep)]).
  - eexists _, _. split; [reflexivity |]. split; [exact Hsent |].
    left. exists c. exact Hrep.
  - destruct (handlerCatch_run w') as (r & -> & Hr').
    eexists _, _. split; [reflexivity |]. split; [exact Hsent |].
    right. split; [exact Hrep | exact Hr'].
Qed.

(** X7. A message with neither an approval nor a rejection keyword is
    answered by the payment prompt, whether or not it asks for the weather:
    the one reply is the prompt naming 0.001 USDC, nothing is sent, and the
    result is a success flagged [paymentPrompted] and [awaitingApproval]. *)
Theorem handler_prompts_without_keywords (w : World) :
  isRejection messageText = false ->
  isApproval messageText = false ->
  exists r w',
    handler pf runtime message w = (inr r, w')
    /\ sent w' = sent w
    /\ replies w' = (replies w ++ [reply PAYMENT_PROMPT message])%list
    /\ includes PAYMENT_PROMPT "0.001 USDC" = true
    /\ ar_success r = true
    /\ ar_values r = [("success", VBool true); ("paymentPrompted", VBool true)]
    /\ assoc "awaitingApproval" (ar_data r) = Some (VBool true).
Proof.
  intros Hr Ha. rewrite (handler_prompt w Hr Ha).
  eexists _, _. split; [reflexivity |]. repeat split.
Qed.

(** X8. An approval without a configured key (PRIVATE_KEY unset or empty)
    pays nothing: no request is sent, the one reply says the key is not
    configured, and the result is a failure with MISSING_PRIVATE_KEY. *)
Theorem handler_approval_missing_key (w : World) :
  isRejection messageText = false ->
  isApproval messageText = true ->
  getSetting runtime "PRIVATE_KEY" = None
  \/ getSetting runtime "PRIVATE_KEY" = Some "" ->
  exists r w',
    handler pf runtime message w = (inr r, w')
    /\ sent w' = sent w
    /\ replies w' = (replies w ++ [reply MISSING_KEY_TEXT message])%list
    /\ ar_success r = false
    /\ ar_values r = [("success", VBool false);
                      ("error", VString "MISSING_PRIVATE_KEY")]
    /\ ar_error r = Some "PRIVATE_KEY not configured".
Proof.
  intros Hr Ha Hk. rewrite (handler_approval w Hr Ha). unfold try_catch.
  destruct (handleApproval_missing_key w Hk) as (r & -> & Hs & _ & Hv & He).
  eexists _, _. split; [reflexivity |]. repeat split; assumption.
Qed.


(** X9. The handler pays only on approval: whatever it sends, a request
    carrying the X-PAYMENT header is sent only for a message with an
    approval keyword and no rejection keyword, with a non-empty PRIVATE_KEY
    configured, and then it is the only request of the run. *)
Theorem handler_pays_only_on_approval (w : World) :
  exists new,
    sent (snd (handler pf runtime message w)) = (sent w ++ new)%list
    /\ (existsb (has_header "X-PAYMENT") new = true ->
        isApproval messageText = true
        /\ isRejection messageText = false
        /\ (exists k, getSetting runtime "PRIVATE_KEY" = Some k /\ k <> "")
        /\ List.length new = 1%nat).
Proof.
  destruct (isRejection messageText) eqn:Hr.
  - destruct (handler_rejection_run pf runtime message w Hr)
      as (r & w' & -> & Hsent & _).
    exists [plainRequest (weatherApiUrl runtime)]. split; [exact Hsent |].
    cbn. discriminate.
  - destruct (isApproval messageText) eqn:Ha.
    + destruct (handler_approval_run w Hr Ha)
        as (r & w' & -> & [Hsent | (k & h & Hk & Hne & Hsent)] & _).
      * exists []. cbn [snd]. rewrite Hsent, app_nil_r. split; [reflexivity |].
        cbn. discriminate.
      * exists [paidRequest (weatherApiUrl runtime) h]. split; [exact Hsent |].
        intros _. repeat split. exists k. split; assumption.
    + rewrite (handler_prompt w Hr Ha).
      exists []. cbn [snd promptForPayment]. split.
      * unfold promptForPayment, bind, callback, dateNow, ret. cbn.
        now rewrite app_nil_r.
      * cbn. discriminate.
Qed.

(** X11. A rejection never shows the weather.  Whenever the server answers
    the request without payment with a body that parses, whatever the
    status and the body (a 200 with the report included), the handler
    formats the three measures of the report and drops them.  When they can
    be converted to text, the one reply is the notice that the X-PAYMENT
    header was not found, and the result is a success flagged
    [paymentRejected]; when one cannot (an object with a [toString]
    property of its own), nothing is replied and the result is the failure
    of the [catch] clause. *)
Theorem rejection_reply_hides_report (w : World) (response : Response)
    (data : jsval) :
  isRejection messageText = true ->
  network pf (sent w) (plainRequest (weatherApiUrl runtime)) = inr response ->
  json response = inr data ->
  exists r w',
    handler pf runtime message w = (inr r, w')
    /\ sent w' = (sent w ++ [plainRequest (weatherApiUrl runtime)])%list
    /\ if measures_print (js_or (get_prop_opt data "report") data)
       then replies w' = (replies w ++ [reply NO_HEADER_TEXT message])%list
            /\ ar_success r = true
            /\ ar_values r = [("success", VBool true);
                              ("weatherReported", VBool true);
                              ("paymentRejected", VBool true)]
       else replies w' = replies w
            /\ ar_success r = false
            /\ ar_text r = HANDLER_FAILED_TEXT.
Proof.
  intros Hr Hnet Hjson.
  rewrite (handler_rejection_first pf runtime message w Hr).
  unfold try_catch, handleRejection.
  rewrite (bind_run _ _ _ _ _
             (fetchWeatherWithoutPayment_run pf (weatherApiUrl runtime) w)).
  rewrite Hnet, Hjson. cbn [pr_success negb].
  unfold weatherDataOf. cbn [pr_data opt_val].
  rewrite rejectionText_cases.
  destruct (measures_print (js_or (get_prop_opt data "report") data)).
  - eexists _, _. split; [reflexivity |]. repeat split.
  - eexists _, _. split; [reflexivity |]. repeat split.
Qed.

End HandlerRuns.

Section ApprovalEndToEnd.

Variable pf : Platform.
Variable runtime : IAgentRuntime.
Variable message : Memory.
Variable w : World.
Variable k : string.
Variable account : Account.
Variable signature : string.
Variable response : Response.
Variable data : jsval.

Local Abbreviation messageText := (lowered_text (m_content message)) (only parsing).
Local Abbreviation rq :=
  (paidRequest (weatherApiUrl runtime)
     (Base64.encode
        (wireText signature (builtAuthorization pf account amount w))))
  (only parsing).

Hypothesis Hnot_rejection : isRejection messageText = false.
Hypothesis Happroval : isApproval messageText = true.
Hypothesis Hkey : getSetting runtime "PRIVATE_KEY" = Some k.
Hypothesis Hkey_set : k <> "".
Hypothesis Haccount : privateKeyToAccount pf k = inr account.
Hypothesis Hsigned :
  signTypedData pf account
    (typedData (builtAuthorization pf account amount w)) = inr signature.
Hypothesis Hverified :
  verifyTypedData pf (address account)
    (typedData (builtAuthorization pf account amount w)) signature = inr true.
Hypothesis Hanswer : network pf (sent w) rq = inr response.
Hypothesis Hbody : json response = inr data.

Lemma pipeline_answered :
  processPaymentAndFetchWeather pf k (weatherApiUrl runtime) w
  = (inr (if status response =? 200 then classified response data
          else match get_prop data "error" with
               | inl e => failed e
               | inr _ => classified response data
               end),
     afterRequest rq (afterBuild w)).
Proof.
  rewrite (pipeline_verified pf k (weatherApiUrl runtime) account w Haccount
             signature Hsigned Hverified).
  rewrite transport_run. unfold transportOutcome.
  change (sent (afterBuild w)) with (sent w).
  rewrite Hanswer, Hbody. reflexivity.
Qed.

(** The handler after the pipeline has returned [r]: the reply is made
    with the text of [approvalReplyText], or not at all. *)
Lemma handler_after_pipeline (r : PaymentResult) :
  processPaymentAndFetchWeather pf k (weatherApiUrl runtime) w
  = (inr r, afterRequest rq (afterBuild w)) ->
  exists res w',
    handler pf runtime message w = (inr res, w')
    /\ sent w' = (sent w ++ [rq])%list
    /\ match approvalReplyText r with
       | inr text =>
           replies w' = (replies w ++ [reply text message])%list
           /\ ar_success res = pr_success r
           /\ ar_text res
              = (if pr_success r
                 then "Provided weather report after payment approval"
                 else "Payment processing failed")
           /\ (pr_success r = false ->
               exists s,
                 ToString (js_or (opt_val (pr_error r))
                             (VString "Payment failed")) = inr s
                 /\ ar_error res = Some s)
       | inl _ =>
           replies w' = replies w
           /\ ar_success res = false
           /\ ar_text res = HANDLER_FAILED_TEXT
       end.
Proof.
  intros Hrun.
  rewrite (handler_approval pf runtime message w Hnot_rejection Happroval).
  unfold try_catch.
  pose proof (handleApproval_with_key pf runtime message k w _ r
                Hkey Hkey_set Hrun) as H.
  destruct (approvalReplyText r) as [e | text].
  - rewrite H.
    destruct (handlerCatch_run (afterRequest rq (afterBuild w)))
      as (res & -> & Ht & Hs & _).
    eexists _, _. split; [reflexivity |]. split; [reflexivity |].
    split; [reflexivity |]. split; assumption.
  - destruct H as (res & -> & Hs & Ht & He).
    eexists _, _. split; [reflexivity |]. split; [reflexivity |].
    split; [reflexivity |]. repeat split; assumption.
Qed.

(** X12. An approved payment that the server accepts: on status 200 the
    handler has sent the one paying request.  Its reply is the weather
    report made from the body's [report] (or from the body itself when it
    has none), and it returns a success; when the report cannot be made (a
    value to convert is an object with a [toString] property of its own),
    nothing is replied and the result is the failure of the [catch] clause.
    The numbers of the body are safe integers, which are printed in
    full. *)
Theorem approval_success_reports_weather :
  status response = 200 ->
  safe_numbers data = true ->
  exists r w',
    handler pf runtime message w = (inr r, w')
    /\ sent w' = (sent w ++ [rq])%list
    /\ match weatherReportText (js_or (get_prop_opt data "report") data) with
       | inr text =>
           replies w' = (replies w ++ [reply text message])%list
           /\ ar_success r = true
           /\ ar_text r = "Provided weather report after payment approval"
       | inl _ =>
           replies w' = replies w
           /\ ar_success r = false
           /\ ar_text r = HANDLER_FAILED_TEXT
       end.
Proof.
  intros H200 _.
  pose proof pipeline_answered as Hrun.
  assert (Hc : classified response data
               = mkPaymentResult true (Some data) None (Some 200)).
  { unfold classified. rewrite H200. reflexivity. }
  rewrite H200, Hc in Hrun. change (200 =? 200) with true in Hrun.
  cbv iota in Hrun.
  destruct (handler_after_pipeline _ Hrun) as (res & w' & Hh & Hsent & Hcases).
  exists res, w'. split; [exact Hh |]. split; [exact Hsent |].
  unfold approvalReplyText, weatherDataOf in Hcases.
  cbn [pr_success pr_data opt_val] in Hcases.
  destruct (weatherReportText (js_or (get_prop_opt data "report") data)).
  - exact Hcases.
  - destruct Hcases as (H1 & H2 & H3 & _). repeat split; assumption.
Qed.

Lemma js_or_truthy_r (a b : jsval) : truthy b = true -> truthy (js_or a b) = true.
Proof. unfold js_or. destruct (truthy a) eqn:E; auto. Qed.

Lemma js_or_truthy_l (a b : jsval) : truthy a = true -> js_or a b = a.
Proof. unfold js_or. now intros ->. Qed.

Lemma http_status_truthy (n : Z) : truthy (VString ("HTTP " ++ Z_toString n)) = true.
Proof. reflexivity. Qed.

(** X13. An approved payment that the server turns down: on any other
    status (with a body that is not [null]) the handler has sent the one
    paying request and nothing more.  Its reply names the reason (the
    body's [error], else its [invalidReason], else "HTTP <status>") and the
    result is a failure carrying the same reason; when the reason cannot be
    converted to text (an object with a [toString] property of its own),
    nothing is replied and the result is the failure of the [catch] clause.
    The numbers of the body are safe integers, which are printed in
    full. *)
Theorem approval_rejected_names_reason :
  status response <> 200 ->
  data <> VNull -> data <> VUndefined ->
  safe_numbers data = true ->
  let reason :=
    js_or (get_prop_opt data "error")
      (js_or (get_prop_opt data "invalidReason")
         (VString ("HTTP " ++ Z_toString (status response)))) in
  exists r w',
    handler pf runtime message w = (inr r, w')
    /\ sent w' = (sent w ++ [rq])%list
    /\ match ToString reason with
       | inr text =>
           replies w'
           = (replies w
              ++ [reply ("Payment processing failed: " ++ text) message])%list
           /\ ar_success r = false
           /\ ar_text r = "Payment processing failed"
           /\ ar_error r = Some text
       | inl _ =>
           replies w' = replies w
           /\ ar_success r = false
           /\ ar_text r = HANDLER_FAILED_TEXT
       end.
Proof.
  intros Hne Hnull Hundef _ reason.
  pose proof pipeline_answered as Hrun.
  destruct (Z.eqb_spec (status response) 200) as [E | _]; [contradiction |].
  assert (Hget : exists x, get_prop data "error" = inr x)
    by (destruct data; try (eexists; reflexivity); congruence).
  destruct Hget as (x & Hget). rewrite Hget in Hrun.
  assert (Hc : classified response data
               = mkPaymentResult false (Some data) (Some reason)
                   (Some (status response))).
  { unfold classified.
    destruct (Z.eqb_spec (status response) 200); [contradiction | reflexivity]. }
  rewrite Hc in Hrun.
  destruct (handler_after_pipeline _ Hrun) as (res & w' & Hh & Hsent & Hcases).
  exists res, w'. split; [exact Hh |]. split; [exact Hsent |].
  unfold approvalReplyText in Hcases.
  cbn [pr_success pr_error opt_val] in Hcases.
  assert (Ht : truthy reason = true)
    by (subst reason; apply js_or_truthy_r, js_or_truthy_r, http_status_truthy).
  rewrite (js_or_truthy_l _ (VString "Unknown error") Ht) in Hcases.
  rewrite (js_or_truthy_l _ (VString "Payment failed") Ht) in Hcases.
  destruct (ToString reason) as [e | text]; cbn [and_then] in Hcases.
  - exact Hcases.
  - destruct Hcases as (H1 & H2 & H3 & H4).
    destruct (H4 eq_refl) as (s & Es & He). injection Es as <-.
    repeat split; assumption.
Qed.

End ApprovalEndToEnd.

Section Nonce.

Variable pf : Platform.

Lemma concat_empty_cons (x : string) (l : list string) :
  String.concat "" (x :: l) = x ++ String.concat "" l.
Proof.
  destruct l as [| y l]; cbn [String.concat].
  - now rewrite append_nil_r.
  - reflexivity.
Qed.

Lemma toHex_cons (c : ascii) (l : list ascii) :
  String.concat "" (map Json.hex_byte (c :: l))
  = Json.hex_byte c ++ String.concat "" (map Json.hex_byte l).
Proof. cbn [map]. apply concat_empty_cons. Qed.

Lemma hex_byte_shape (c : ascii) :
  exists h l, Json.hex_byte c = String h (String l "")
              /\ is_hex_lower h = true /\ is_hex_lower l = true
              /\ Json.hex_value h = Some (nat_of_ascii c / 16)%nat
              /\ Json.hex_value l = Some (nat_of_ascii c mod 16)%nat.
Proof.
  destruct c as [[] [] [] [] [] [] [] []];
    eexists _, _; repeat split; reflexivity.
Qed.

Lemma hex_digits_length (l : list ascii) :
  String.length (String.concat "" (map Json.hex_byte l))
  = (2 * List.length l)%nat
  /\ all_hex_lower (String.concat "" (map Json.hex_byte l)) = true
  /\ unhex (String.concat "" (map Json.hex_byte l)) = Some l.
Proof.
  induction l as [| c l (IH1 & IH2 & IH3)]; [repeat split |].
  rewrite toHex_cons.
  destruct (hex_byte_shape c) as (h & lo & -> & Hh & Hl & Vh & Vl).
  cbn [append String.length all_hex_lower unhex].
  rewrite IH1, IH2, IH3, Hh, Hl, Vh, Vl. repeat split; [cbn; lia |].
  f_equal. f_equal.
  rewrite <- (ascii_nat_embedding c) at 3. f_equal.
  pose proof (Nat.div_mod_eq (nat_of_ascii c) 16). lia.
Qed.

(** X1. [createNonce] never fails and returns "0x" followed by 64
    lowercase hexadecimal digits (66 characters), the 32 bytes it drew
    from the random source written two digits each; it consumes exactly
    those 32 bytes and sends nothing. *)
Theorem createNonce_format (w : World) :
  exists body w',
    createNonce pf w = (inr ("0x" ++ body), w')
    /\ String.length ("0x" ++ body) = 66%nat
    /\ all_hex_lower body = true
    /\ unhex body = Some (nonceBytes pf w)
    /\ drawn w' = (drawn w + 32)%nat
    /\ sent w' = sent w.
Proof.
  eexists _, _. split; [reflexivity |].
  destruct (hex_digits_length (nonceBytes pf w)) as (H1 & H2 & H3).
  fold (nonceBytes pf w).
  cbn [append String.length]. rewrite H1.
  unfold nonceBytes at 1. rewrite length_map, length_seq.
  repeat split; assumption.
Qed.

(** X2. The hexadecimal writing loses nothing: two nonces are equal only
    if the 32 random bytes behind them are equal. *)
Theorem nonce_determines_bytes (w1 w2 : World) :
  nonceAt pf w1 = nonceAt pf w2 -> nonceBytes pf w1 = nonceBytes pf w2.
Proof.
  assert (Hinj : forall l1 l2, toHex l1 = toHex l2 ->
                  String.concat "" (map Json.hex_byte l1)
                  = String.concat "" (map Json.hex_byte l2)).
  { intros l1 l2 E. unfold toHex in E. cbn [append] in E. now inversion E. }
  intros H. apply (Hinj (nonceBytes pf w1) (nonceBytes pf w2)) in H.
  rename H into Heq.
  destruct (hex_digits_length (nonceBytes pf w1)) as (_ & _ & Hb1).
  destruct (hex_digits_length (nonceBytes pf w2)) as (_ & _ & Hb2).
  rewrite Heq in Hb1. rewrite Hb1 in Hb2.
  exact (f_equal (fun o => match o with Some l => l | None => [] end) Hb2).
Qed.

End Nonce.

Section ReportText.

Lemma not_NA_percent (s : string) : (s ++ "%" =? "N/A")%string = false.
Proof.
  apply String.eqb_neq.
  destruct s as [| a [| b [| c [| d s]]]]; cbn; congruence.
Qed.

Lemma not_NA_mph (s : string) : (s ++ " mph" =? "N/A")%string = false.
Proof.
  apply String.eqb_neq.
  destruct s as [| a [| b [| c [| d s]]]]; cbn; congruence.
Qed.

(** The Humidity line is there exactly when the property is. *)
Lemma humidity_line (v : jsval) :
  (if negb (measureText v "%" =? "N/A")%string
   then "Humidity: " ++ measureText v "%" ++ nl
   else "")
  = optionalLine "Humidity: " v "%".
Proof.
  unfold measureText, optionalLine.
  destruct v; try reflexivity;
    rewrite not_NA_percent; cbn [negb]; now rewrite append_assoc.
Qed.

Lemma windSpeed_line (v : jsval) :
  (if negb (measureText v " mph" =? "N/A")%string
   then "Wind Speed: " ++ measureText v " mph" ++ nl
   else "")
  = optionalLine "Wind Speed: " v " mph".
Proof.
  unfold measureText, optionalLine.
  destruct v; try reflexivity;
    rewrite not_NA_mph; cbn [negb]; now rewrite append_assoc.
Qed.

(** X14. For a report that is an object whose numbers are safe integers,
    the weather text is made exactly when the three measures and the
    conditions can be converted to text.  It then has the conditions
    ([conditions], else [weather], else "Current conditions"), the
    temperature or "N/A", and a Humidity line and a Wind Speed line exactly
    when the report has a [humidity] and a [windSpeed] property, whatever
    they print as.  Otherwise making the text throws. *)
Theorem weatherReportText_lines (weatherData : jsval) :
  (truthy weatherData && typeof_object weatherData)%bool = true ->
  safe_numbers weatherData = true ->
  weatherReportText weatherData
  = if (measures_print weatherData && prints (conditionsOf weatherData))%bool
    then inr (reportLines weatherData)
    else inl CANNOT_CONVERT.
Proof.
  intros H _. unfold weatherReportText, reportLines, measures_print.
  rewrite H. fold (conditionsOf weatherData). rewrite !measure_prints.
  destruct (prints (get_prop_opt weatherData "temperature")); [| reflexivity].
  cbn [and_then andb].
  destruct (prints (get_prop_opt weatherData "humidity")); [| reflexivity].
  cbn [and_then andb].
  destruct (prints (get_prop_opt weatherData "windSpeed")); [| reflexivity].
  cbn [and_then andb].
  rewrite humidity_line, windSpeed_line.
  unfold prints.
  destruct (ToString (conditionsOf weatherData)) as [e | s] eqn:E;
    cbn [and_then].
  - now rewrite (ToString_throws _ _ E).
  - assert (Ht : text_of (conditionsOf weatherData) = s)
      by (unfold text_of; now rewrite E).
    rewrite Ht. reflexivity.
Qed.

End ReportText.

Section HeaderInjective.

(** The header made from a wire text decodes to what was encoded. *)
Lemma decodePayment_encoded (signature : string) (account : Account)
    (v va vb : Z) (n : string) :
  decodePayment
    (Base64.encode
       (wireText signature
          (mkAuthorization (address account) PAYEE_ADDRESS v va vb n)))
  = Some (mkSignedAuthorization signature
            (mkAuthorization (address account) PAYEE_ADDRESS v va vb n)).
Proof.
  destruct (parse_stringify (paymentPayload signature account v va vb n) eq_refl)
    as (t & Ht & Hparse).
  rewrite stringify_paymentPayload in Ht. injection Ht as <-.
  unfold decodePayment.
  rewrite base64_decode_encode. cbn [option_bind]. rewrite Hparse.
  unfold paymentPayload, string_field, field.
  cbn [option_bind assoc String.eqb Ascii.eqb Bool.eqb].
  erewrite !decimal_field_Z_toString by reflexivity.
  reflexivity.
Qed.

(** X6. The encoder is injective: two payments with the same X-PAYMENT
    header value have the same signature, payer address, amount, validity
    window and nonce.  Neither the quoting of the strings nor the decimal
    writing of the integers nor the base64 padding can make two different
    authorizations collide on the wire. *)
Theorem encodePayment_injective (s1 s2 : string) (a1 a2 : Account)
    (v1 v2 va1 va2 vb1 vb2 : Z) (n1 n2 : string) :
  encodePayment (paymentPayload s1 a1 v1 va1 vb1 n1)
  = encodePayment (paymentPayload s2 a2 v2 va2 vb2 n2) ->
  s1 = s2 /\ address a1 = address a2 /\ v1 = v2 /\ va1 = va2 /\ vb1 = vb2
  /\ n1 = n2.
Proof.
  rewrite !encodePayment_wire. intros H.
  assert (Hh : forall x y : string,
             @inr thrown string x = inr y -> x = y) by (intros x y E; now inversion E).
  apply Hh in H.
  pose proof (decodePayment_encoded s1 a1 v1 va1 vb1 n1) as D1.
  pose proof (decodePayment_encoded s2 a2 v2 va2 vb2 n2) as D2.
  rewrite H in D1. rewrite D1 in D2.
  inversion D2. repeat split; reflexivity.
Qed.

End HeaderInjective.

Section Keywords.

Lemma prefix_app_iff (k s : string) :
  String.prefix k s = true <-> exists post, s = k ++ post.
Proof.
  revert s. induction k as [| c k IH]; intros s.
  - split; [intros _; exists s; reflexivity |]. intros _. now destruct s.
  - destruct s as [| d s]; cbn [String.prefix append].
    + split; [discriminate | intros (post & E); discriminate E].
    + destruct (Ascii.ascii_dec c d) as [-> | Hne].
      * rewrite IH. split; intros (post & E); exists post; congruence.
      * split; [discriminate | intros (post & E); congruence].
Qed.

(** [includes s k] holds exactly when [k] occurs in [s]. *)
Lemma includes_iff (s k : string) :
  includes s k = true <-> exists pre post, s = pre ++ k ++ post.
Proof.
  induction s as [| c s IH].
  - cbn [includes]. rewrite orb_false_r, prefix_app_iff. split.
    + intros (post & E). exists "", post. exact E.
    + intros (pre & post & E). destruct pre; [| discriminate E].
      exists post. exact E.
  - cbn [includes]. rewrite orb_true_iff, prefix_app_iff, IH. split.
    + intros [(post & E) | (pre & post & E)].
      * exists "", post. exact E.
      * exists (String c pre), post. cbn [append]. now rewrite E.
    + intros (pre & post & E). destruct pre as [| d pre].
      * left. exists post. exact E.
      * right. cbn [append] in E. injection E as _ E. now exists pre, post.
Qed.

(** A text that has a keyword has every part of the keyword. *)
Lemma includes_trans (s k k' : string) :
  includes k k' = true -> includes s k = true -> includes s k' = true.
Proof.
  rewrite !includes_iff. intros (a & b & ->) (pre & post & ->).
  exists (pre ++ a), (b ++ post). now rewrite !append_assoc.
Qed.

(** X15. Three keywords of the weather action are dead: every text that
    has "okay" has "ok", and every text that has "weather report" or
    "weather forecast" has "weather"; the approval test and the weather
    test are those of the shorter lists. *)
Theorem weather_action_dead_keywords (messageText : string) :
  isApproval messageText
  = some_keyword ["yes"; "approve"; "ok"; "proceed"; "go ahead"; "sure"; "fine"]
      messageText
  /\ isWeatherRequest messageText
     = some_keyword ["weather"; "temperature"; "forecast"; "climate"]
         messageText.
Proof.
  unfold isApproval, isWeatherRequest, some_keyword, approvalKeywords,
    weatherKeywords.
  cbn [existsb].
  pose proof (includes_trans messageText "okay" "ok" eq_refl) as H1.
  pose proof (includes_trans messageText "weather report" "weather" eq_refl) as H2.
  pose proof (includes_trans messageText "weather forecast" "weather" eq_refl) as H3.
  destruct (includes messageText "okay"), (includes messageText "ok");
    destruct (includes messageText "weather report"),
             (includes messageText "weather forecast"),
             (includes messageText "weather");
    try (specialize (H1 eq_refl)); try (specialize (H2 eq_refl));
    try (specialize (H3 eq_refl)); try discriminate;
    split; repeat rewrite ?orb_true_r, ?orb_false_r, ?orb_true_l, ?orb_false_l;
    reflexivity.
Qed.

End Keywords.

Section LetterCase.

(** X16. The gate and the handler read the text of the message only
    through its lowercase form: two messages that differ only by the case
    of ASCII letters in their text get the same answer from [validate] and
    the same run of the handler. *)
Theorem classification_ignores_case (pf : Platform) (runtime : IAgentRuntime)
    (id room : string) (acts : option (list string)) (source : option string)
    (t1 t2 : string) (w : World) :
  toLowerCase t1 = toLowerCase t2 ->
  let m1 := mkMemory id room (mkContent (Some t1) acts source) in
  let m2 := mkMemory id room (mkContent (Some t2) acts source) in
  validate runtime m1 = validate runtime m2
  /\ handler pf runtime m1 w = handler pf runtime m2 w.
Proof.
  intros H m1 m2. subst m1 m2.
  unfold validate, handler, handleRejection, handleApproval, promptForPayment,
    reply, lowered_text.
  cbn [m_content c_text m_roomId m_id c_source]. rewrite H.
  split; reflexivity.
Qed.

End LetterCase.

Section WalletAction.

Variable pf : Platform.
Variable chain : Chain.
Variable runtime : IAgentRuntime.
Variable message : Memory.

(** X17. Five keywords of the wallet action are dead: each of the phrases
    contains "wallet", so [validate] accepts a message exactly when its
    lowercase text has "wallet", "address", "balance" or "account". *)
Theorem wallet_validate_four_keywords :
  WalletInfoAction.validate message
  = some_keyword ["wallet"; "address"; "balance"; "account"]
      (lowered_text (m_content message)).
Proof.
  unfold WalletInfoAction.validate, WalletInfoAction.walletKeywords,
    some_keyword.
  cbn [existsb]. set (t := lowered_text (m_content message)).
  pose proof (includes_trans t "my wallet" "wallet" eq_refl) as H1.
  pose proof (includes_trans t "wallet address" "wallet" eq_refl) as H2.
  pose proof (includes_trans t "show me my wallet" "wallet" eq_refl) as H3.
  pose proof (includes_trans t "give me my wallet" "wallet" eq_refl) as H4.
  pose proof (includes_trans t "what is my wallet" "wallet" eq_refl) as H5.
  destruct (includes t "wallet").
  - reflexivity.
  - destruct (includes t "my wallet"); [discriminate (H1 eq_refl) |].
    destruct (includes t "wallet address"); [discriminate (H2 eq_refl) |].
    destruct (includes t "show me my wallet"); [discriminate (H3 eq_refl) |].
    destruct (includes t "give me my wallet"); [discriminate (H4 eq_refl) |].
    destruct (includes t "what is my wallet"); [discriminate (H5 eq_refl) |].
    now rewrite !orb_false_r.
Qed.

(** [getWalletInfo] answers exactly when the key gives an account and both
    balances of that account's address are read. *)
Lemma getWalletInfo_some (privateKey : string) :
  (exists i, getWalletInfo pf chain privateKey = Some i)
  <-> exists account nativeBalance usdcBalance,
        privateKeyToAccount pf privateKey = inr account
        /\ getBalance chain (address account) = inr nativeBalance
        /\ balanceOf chain USDC_ADDRESS (address account) = inr usdcBalance.
Proof.
  unfold getWalletInfo.
  destruct (privateKeyToAccount pf privateKey) as [e | account].
  { split; [intros (i & H); discriminate H |].
    intros (? & ? & ? & H & _). discriminate H. }
  destruct (getBalance chain (address account)) as [e | nb] eqn:Hn.
  { split; [intros (i & H); discriminate H |].
    intros (a & ? & ? & Ha & Hb & _). injection Ha as <-. congruence. }
  destruct (balanceOf chain USDC_ADDRESS (address account)) as [e | ub] eqn:Hu.
  { split; [intros (i & H); discriminate H |].
    intros (a & ? & ? & Ha & _ & Hb). injection Ha as <-. congruence. }
  split; [| intros _; eexists; reflexivity].
  intros _. exists account, nb, ub. repeat split; assumption.
Qed.

(** X18. The wallet handler never throws, issues no request of its own and
    answers exactly once, with a content tagged WALLET_INFO and the source
    of the message.  Its result is a success exactly when PRIVATE_KEY is
    set and not empty, the key gives an account, and both the native
    balance and the USDC balance of that account's address are read;
    any failure on the way gives a failure result, not an exception. *)
Theorem wallet_handler_outcome (w : World) :
  exists r w' c,
    WalletInfoAction.handler pf chain runtime message w = (inr r, w')
    /\ sent w' = sent w
    /\ replies w' = (replies w ++ [c])%list
    /\ c_actions c = Some ["WALLET_INFO"]
    /\ c_source c = c_source (m_content message)
    /\ (ar_success r = true <->
        exists k account nativeBalance usdcBalance,
          getSetting runtime "PRIVATE_KEY" = Some k /\ k <> ""
          /\ privateKeyToAccount pf k = inr account
          /\ getBalance chain (address account) = inr nativeBalance
          /\ balanceOf chain USDC_ADDRESS (address account) = inr usdcBalance).
Proof.
  unfold WalletInfoAction.handler, try_catch.
  destruct (getSetting runtime "PRIVATE_KEY") as [[| a k] |] eqn:Hk.
  - eexists _, _, _. split; [reflexivity |]. repeat split; try discriminate.
    intros (k' & ? & ? & ? & E & Hne & _). congruence.
  - destruct (getWalletInfo pf chain (String a k)) as [i |] eqn:Hi.
    + eexists _, _, _. split; [reflexivity |]. repeat split.
      intros _.
      destruct (proj1 (getWalletInfo_some (String a k)) (ex_intro _ i Hi))
        as (account & nb & ub & Ha & Hn & Hu).
      exists (String a k), account, nb, ub. repeat split; try assumption.
      discriminate.
    + eexists _, _, _. split; [reflexivity |]. repeat split; try discriminate.
      intros (k' & account & nb & ub & E & _ & Ha & Hn & Hu).
      injection E as <-.
      destruct (proj2 (getWalletInfo_some (String a k))
                  (ex_intro _ account
                     (ex_intro _ nb (ex_intro _ ub (conj Ha (conj Hn Hu))))))
        as (i & Hi').
      congruence.
  - eexists _, _, _. split; [reflexivity |]. repeat split; try discriminate.
    intros (k' & ? & ? & ? & E & _). congruence.
Qed.

End WalletAction.

Section Plugins.

Variable env : Env.

Lemma in_optional (b : bool) (x p : string) :
  In p (if b then [x] else []) <-> b = true /\ x = p.
Proof. destruct b; cbn; intuition discriminate. Qed.

Lemma set_and_not_blank_iff (k : string) :
  set_and_not_blank env k = true
  <-> exists s, env k = Some s /\ blank s = false.
Proof.
  unfold set_and_not_blank. destruct (env k) as [s |].
  - rewrite negb_true_iff. split; [intros H; now exists s |].
    intros (s' & E & H). now injection E as ->.
  - split; [discriminate | intros (s' & E & _); discriminate E].
Qed.

(** X19. The Twitter plugin is loaded exactly when all four Twitter
    credentials are set and not blank; the bootstrap plugin is loaded
    exactly when IGNORE_BOOTSTRAP is unset or empty.  So a credential made
    of white space counts as unset, while an IGNORE_BOOTSTRAP made of white
    space does switch the bootstrap plugin off. *)
Theorem plugins_twitter_and_bootstrap :
  (In "@elizaos/plugin-twitter" (Character.plugins env)
   <-> (exists s, env "TWITTER_API_KEY" = Some s /\ blank s = false)
       /\ (exists s, env "TWITTER_API_SECRET_KEY" = Some s /\ blank s = false)
       /\ (exists s, env "TWITTER_ACCESS_TOKEN" = Some s /\ blank s = false)
       /\ (exists s, env "TWITTER_ACCESS_TOKEN_SECRET" = Some s
                     /\ blank s = false))
  /\ (In "@elizaos/plugin-bootstrap" (Character.plugins env)
      <-> env "IGNORE_BOOTSTRAP" = None \/ env "IGNORE_BOOTSTRAP" = Some "").
Proof.
  unfold Character.plugins.
  rewrite <- !set_and_not_blank_iff.
  rewrite !in_app_iff, !in_optional. cbn [In]. split.
  - rewrite !andb_true_iff. intuition (try discriminate).
  - rewrite negb_true_iff. unfold set_and_not_empty.
    destruct (env "IGNORE_BOOTSTRAP") as [s |].
    + rewrite negb_false_iff, String.eqb_eq.
      intuition (try discriminate); congruence.
    + intuition (try discriminate).
Qed.

(** X20. Whatever the environment, the plugin list starts with the SQL
    plugin, names no plugin twice, has at most nine entries, and has the
    bootstrap plugin, when it is there, in the last place. *)
Theorem plugins_order :
  (exists rest, Character.plugins env = "@elizaos/plugin-sql" :: rest)
  /\ NoDup (Character.plugins env)
  /\ (List.length (Character.plugins env) <= 9)%nat
  /\ (In "@elizaos/plugin-bootstrap" (Character.plugins env) ->
      last (Character.plugins env) "" = "@elizaos/plugin-bootstrap").
Proof.
  unfold Character.plugins.
  set (twitter := (set_and_not_blank env "TWITTER_API_KEY"
                   && set_and_not_blank env "TWITTER_API_SECRET_KEY"
                   && set_and_not_blank env "TWITTER_ACCESS_TOKEN"
                   && set_and_not_blank env "TWITTER_ACCESS_TOKEN_SECRET")%bool).
  set (b1 := set_and_not_blank env "ANTHROPIC_API_KEY").
  set (b2 := set_and_not_blank env "OPENROUTER_API_KEY").
  set (b3 := set_and_not_blank env "OPENAI_API_KEY").
  set (b4 := set_and_not_blank env "GOOGLE_GENERATIVE_AI_API_KEY").
  set (b5 := set_and_not_blank env "DISCORD_API_TOKEN").
  set (b7 := set_and_not_blank env "TELEGRAM_BOT_TOKEN").
  set (b8 := negb (set_and_not_empty env "IGNORE_BOOTSTRAP")).
  clearbody twitter b1 b2 b3 b4 b5 b7 b8.
  split; [eexists; reflexivity |].
  set (all := ["@elizaos/plugin-sql"; "@elizaos/plugin-anthropic";
               "@elizaos/plugin-openrouter"; "@elizaos/plugin-openai";
               "@elizaos/plugin-google-genai"; "@elizaos/plugin-discord";
               "@elizaos/plugin-twitter"; "@elizaos/plugin-telegram";
               "@elizaos/plugin-bootstrap"]).
  set (keep := fun p : string =>
         ((p =? "@elizaos/plugin-sql")
          || (b1 && (p =? "@elizaos/plugin-anthropic"))
          || (b2 && (p =? "@elizaos/plugin-openrouter"))
          || (b3 && (p =? "@elizaos/plugin-openai"))
          || (b4 && (p =? "@elizaos/plugin-google-genai"))
          || (b5 && (p =? "@elizaos/plugin-discord"))
          || (twitter && (p =? "@elizaos/plugin-twitter"))
          || (b7 && (p =? "@elizaos/plugin-telegram"))
          || (b8 && (p =? "@elizaos/plugin-bootstrap")))%bool%string).
  assert (Hall : NoDup all)
    by (subst all; repeat constructor; cbn [In]; intuition discriminate).
  assert (Hfilter :
            (["@elizaos/plugin-sql"]
             ++ (if b1 then ["@elizaos/plugin-anthropic"] else [])
             ++ (if b2 then ["@elizaos/plugin-openrouter"] else [])
             ++ (if b3 then ["@elizaos/plugin-openai"] else [])
             ++ (if b4 then ["@elizaos/plugin-google-genai"] else [])
             ++ (if b5 then ["@elizaos/plugin-discord"] else [])
             ++ (if twitter then ["@elizaos/plugin-twitter"] else [])
             ++ (if b7 then ["@elizaos/plugin-telegram"] else [])
             ++ (if b8 then ["@elizaos/plugin-bootstrap"] else []))%list
            = filter keep all)
    by (subst keep all; destruct b1, b2, b3, b4, b5, twitter, b7, b8;
        reflexivity).
  rewrite Hfilter. split; [apply NoDup_filter, Hall |].
  split.
  - pose proof (filter_length_le keep all) as Hle.
    subst all. cbn [List.length] in Hle. exact Hle.
  - rewrite <- Hfilter.
    destruct b8; [| intros H; exfalso; revert H;
                    rewrite !in_app_iff;
                    destruct b1, b2, b3, b4, b5, twitter, b7; cbn [In];
                    intuition discriminate].
    intros _. destruct b1, b2, b3, b4, b5, twitter, b7; reflexivity.
Qed.

End Plugins.

Section PluginInit.

Variable isUrl : string -> bool.
Variable config : Env.
Variable env : Env.

(** X21. [init] throws exactly when EXAMPLE_PLUGIN_VARIABLE or PRIVATE_KEY
    is the empty string or WEATHER_API_URL is given and is not a URL; a
    missing PRIVATE_KEY passes.  What it throws is an [Error] whose message
    is "Invalid plugin configuration: " followed by the messages of the
    issues, in the order of the schema, joined by ", "; the fallback
    "Unknown validation error" is never used. *)
Theorem init_fails_iff :
  ((exists e, Plugin.init isUrl config env = inl e)
   <-> config "EXAMPLE_PLUGIN_VARIABLE" = Some ""
       \/ config "PRIVATE_KEY" = Some ""
       \/ exists u, config "WEATHER_API_URL" = Some u /\ isUrl u = false)
  /\ forall e,
       Plugin.init isUrl config env = inl e ->
       e = JsError
             ("Invalid plugin configuration: "
              ++ String.concat ", "
                   ((if match config "EXAMPLE_PLUGIN_VARIABLE" with
                        | Some "" => true | _ => false end
                     then ["Example plugin variable is not provided"] else [])
                    ++ (if match config "PRIVATE_KEY" with
                           | Some "" => true | _ => false end
                        then ["PRIVATE_KEY is required for payment processing"]
                        else [])
                    ++ (if match config "WEATHER_API_URL" with
                           | Some u => negb (isUrl u) | None => false end
                        then ["WEATHER_API_URL must be a valid URL"] else []))%list).
Proof.
  unfold Plugin.init, Plugin.configSchema_parse, Plugin.min1_issues.
  destruct (config "EXAMPLE_PLUGIN_VARIABLE") as [[| a1 s1] |];
    destruct (config "PRIVATE_KEY") as [[| a2 s2] |];
    destruct (config "WEATHER_API_URL") as [u |];
    try destruct (isUrl u) eqn:Hu; cbn [List.app negb];
    (split;
     [split;
      [intros (e & H); try discriminate H; auto; eauto
      | intros [H | [H | (u' & H & H')]]; try discriminate H;
        try (eexists; reflexivity);
        try (injection H as <-; congruence)]
     | intros e H; try discriminate H; injection H as <-; reflexivity]).
Qed.

(** X22. When [init] succeeds it only adds to the environment: it sets
    WEATHER_API_URL to the configured URL, or to the default one when none
    is configured; it sets PRIVATE_KEY when one is configured and leaves it
    as it was otherwise; and it leaves every variable other than the three
    of the schema untouched. *)
Theorem init_success_env (env' : Env) :
  Plugin.init isUrl config env = inr env' ->
  env' "WEATHER_API_URL"
  = (match config "WEATHER_API_URL" with
     | Some "" => env "WEATHER_API_URL"
     | Some u => Some u
     | None => Some DEFAULT_API_URL
     end)
  /\ env' "PRIVATE_KEY"
     = (match config "PRIVATE_KEY" with
        | Some k => Some k
        | None => env "PRIVATE_KEY"
        end)
  /\ forall k,
       k <> "EXAMPLE_PLUGIN_VARIABLE" -> k <> "PRIVATE_KEY" ->
       k <> "WEATHER_API_URL" -> env' k = env k.
Proof.
  unfold Plugin.init, Plugin.configSchema_parse, Plugin.min1_issues.
  destruct (config "EXAMPLE_PLUGIN_VARIABLE") as [[| a1 s1] |];
    destruct (config "PRIVATE_KEY") as [[| a2 s2] |];
    destruct (config "WEATHER_API_URL") as [[| a3 s3] |];
    try match goal with |- context [isUrl ?u] => destruct (isUrl u) end;
    cbn [List.app]; intros H; try discriminate H;
    injection H as <-;
    cbn [Plugin.WEATHER_API_URL Plugin.PRIVATE_KEY
         Plugin.EXAMPLE_PLUGIN_VARIABLE Plugin.set_if_truthy];
    (split; [reflexivity |]); (split; [reflexivity |]);
    intros k H1 H2 H3;
    repeat match goal with
           | |- context [(k =? ?x)%string] =>
               destruct (String.eqb_spec k x); [contradiction |]
           end;
    reflexivity.
Qed.

End PluginInit.

(** ** The validity window, and the examples of the properties above *)

Section TwoReadings.

Variable pf : Platform.
Variable account : Account.

(** X3. The validity window is taken from two readings of the clock: its
    width is 4200 seconds plus the seconds that passed between them.  With
    a clock that does not run backwards it is at least 4200 seconds wide
    and holds both readings, [validAfter] being 600 seconds before the
    first and [validBefore] 3600 seconds after the second. *)
Theorem window_from_two_readings (v : Z) (w w' : World)
    (msg : Authorization) :
  buildAuthorization pf account v w = (inr msg, w') ->
  clock pf (ticks w) <= clock pf (S (ticks w)) ->
  validAfter msg = clock pf (ticks w) / 1000 - 600
  /\ validBefore msg = clock pf (S (ticks w)) / 1000 + 3600
  /\ validBefore msg - validAfter msg
     = 4200 + (clock pf (S (ticks w)) / 1000 - clock pf (ticks w) / 1000)
  /\ 4200 <= validBefore msg - validAfter msg
  /\ validAfter msg < clock pf (ticks w) / 1000
  /\ clock pf (S (ticks w)) / 1000 <= validBefore msg.
Proof.
  rewrite buildAuthorization_run. intros H Hmono.
  injection H as <- _. unfold builtAuthorization. cbn [validAfter validBefore].
  assert (clock pf (ticks w) / 1000 <= clock pf (S (ticks w)) / 1000)
    by (apply Z.div_le_mono; lia).
  lia.
Qed.

End TwoReadings.

(** The first reading at 1690000000.999, the second one millisecond later:
    the window is 4201 seconds wide. *)
Lemma window_from_two_readings_witness :
  exists msg w',
    buildAuthorization fixtureLatePlatform (fixtureAccount "0xkey") amount w0
    = (inr msg, w')
    /\ validBefore msg - validAfter msg = 4201.
Proof.
  pose proof (buildAuthorization_run fixtureLatePlatform
                (fixtureAccount "0xkey") amount w0) as Hrun.
  eexists _, _. split; [exact Hrun |].
  destruct (window_from_two_readings fixtureLatePlatform
              (fixtureAccount "0xkey") amount w0 _ _ Hrun)
    as (_ & _ & Hw & _); [cbn; lia |].
  rewrite Hw. reflexivity.
Defined.

Lemma nonce_determines_bytes_witness :
  nonceBytes (fixturePlatform paywall true) w0
  = nonceBytes (fixturePlatform paywall true) w0.
Proof.
  apply (nonce_determines_bytes (fixturePlatform paywall true) w0 w0).
  reflexivity.
Defined.

Lemma encodePayment_injective_witness :
  "0xfeed" = "0xfeed"
  /\ address (fixtureAccount "0xkey") = address (fixtureAccount "0xother")
  /\ 1000 = 1000 /\ 1 = 1 /\ 2 = 2 /\ "0x00" = "0x00".
Proof.
  apply (encodePayment_injective "0xfeed" "0xfeed"
           (fixtureAccount "0xkey") (fixtureAccount "0xother")
           1000 1000 1 1 2 2 "0x00" "0x00").
  reflexivity.
Defined.

(** "hello there" asks for nothing and still gets the prompt. *)
Lemma handler_prompts_without_keywords_witness :
  exists r w',
    handler (fixturePlatform paywall true) (fixtureRuntime (inr []))
      (userMessage "hello there") w0 = (inr r, w')
    /\ sent w' = []
    /\ replies w' = [reply PAYMENT_PROMPT (userMessage "hello there")].
Proof.
  destruct (handler_prompts_without_keywords (fixturePlatform paywall true)
              (fixtureRuntime (inr [])) (userMessage "hello there") w0)
    as (r & w' & H1 & H2 & H3 & _); try reflexivity.
  exists r, w'. repeat split; assumption.
Defined.

Lemma handler_approval_missing_key_witness :
  exists r w',
    handler (fixturePlatform paywall true) fixtureRuntimeNoKey
      (userMessage "Yes") w0 = (inr r, w')
    /\ sent w' = []
    /\ ar_success r = false.
Proof.
  destruct (handler_approval_missing_key (fixturePlatform paywall true)
              fixtureRuntimeNoKey (userMessage "Yes") w0)
    as (r & w' & H1 & H2 & _ & H4 & _); try reflexivity.
  { left. reflexivity. }
  exists r, w'. repeat split; assumption.
Defined.

(** The open server answers 200 with the report, and the reply to "No"
    still is the notice about the missing header. *)
Lemma rejection_reply_hides_report_witness :
  exists r w',
    handler (fixturePlatform openServer true) (fixtureRuntime (inr []))
      (userMessage "No") w0 = (inr r, w')
    /\ replies w' = [reply NO_HEADER_TEXT (userMessage "No")].
Proof.
  destruct (rejection_reply_hides_report (fixturePlatform openServer true)
              (fixtureRuntime (inr [])) (userMessage "No") w0
              (mkResponse 200 "OK"
                 (inr (VObject
                         [("report",
                           VObject [("conditions", VString "Sunny");
                                    ("temperature", VNumber 72)])])))
              (VObject
                 [("report",
                   VObject [("conditions", VString "Sunny");
                            ("temperature", VNumber 72)])]))
    as (r & w' & H1 & _ & H3); try reflexivity.
  exists r, w'. split; [exact H1 |].
  change (measures_print _) with true in H3. cbv iota in H3.
  exact (proj1 H3).
Defined.

(** The body [{"temperature": {"toString": 0}}]: formatting the
    temperature throws, nothing is replied, and the handler returns the
    failure of its [catch] clause. *)
Example rejection_unprintable_temperature :
  exists r w',
    handler (fixturePlatform oddServer true) (fixtureRuntime (inr []))
      (userMessage "No") w0 = (inr r, w')
    /\ sent w' = [plainRequest DEFAULT_API_URL]
    /\ replies w' = []
    /\ ar_text r = HANDLER_FAILED_TEXT
    /\ ar_success r = false
    /\ ar_error r = Some "Cannot convert object to primitive value".
Proof. eexists _, _. split; [reflexivity |]. repeat split. Qed.

Lemma approval_success_reports_weather_witness :
  exists r w',
    handler (fixturePlatform paywall true) (fixtureRuntime (inr []))
      (userMessage "Yes") w0 = (inr r, w')
    /\ List.length (sent w') = 1%nat
    /\ ar_success r = true.
Proof.
  destruct (approval_success_reports_weather (fixturePlatform paywall true)
              (fixtureRuntime (inr [])) (userMessage "Yes") w0 "0xkey"
              (fixtureAccount "0xkey") "0xfeed"
              (mkResponse 200 "OK"
                 (inr (VObject
                         [("report",
                           VObject [("conditions", VString "Sunny");
                                    ("temperature", VNumber 72)])])))
              (VObject
                 [("report",
                   VObject [("conditions", VString "Sunny");
                            ("temperature", VNumber 72)])]))
    as (r & w' & H1 & H2 & H3); try reflexivity; try discriminate.
  exists r, w'. split; [exact H1 |]. split; [rewrite H2; reflexivity |].
  destruct (weatherReportText _) as [e | text] eqn:E in H3.
  - discriminate E.
  - exact (proj1 (proj2 H3)).
Defined.

(** The payment is accepted and the body is
    [{"temperature": {"toString": 0}}]: the paying request was sent, making
    the report throws, nothing is replied, and the handler returns the
    failure of its [catch] clause. *)
Example approval_unprintable_temperature :
  exists r w',
    handler (fixturePlatform oddServer true) (fixtureRuntime (inr []))
      (userMessage "Yes") w0 = (inr r, w')
    /\ existsb (has_header "X-PAYMENT") (sent w') = true
    /\ List.length (sent w') = 1%nat
    /\ replies w' = []
    /\ ar_text r = HANDLER_FAILED_TEXT
    /\ ar_success r = false
    /\ ar_error r = Some "Cannot convert object to primitive value".
Proof. eexists _, _. split; [reflexivity |]. repeat split. Qed.

(** Scenario E seen by the user: the reply names "insufficient_funds". *)
Lemma approval_rejected_names_reason_witness :
  exists r w',
    handler (fixturePlatform insufficient_funds true) (fixtureRuntime (inr []))
      (userMessage "Yes") w0 = (inr r, w')
    /\ replies w'
       = [reply "Payment processing failed: insufficient_funds"
            (userMessage "Yes")]
    /\ ar_error r = Some "insufficient_funds".
Proof.
  destruct (approval_rejected_names_reason
              (fixturePlatform insufficient_funds true)
              (fixtureRuntime (inr [])) (userMessage "Yes") w0 "0xkey"
              (fixtureAccount "0xkey") "0xfeed"
              (mkResponse 402 "Payment Required"
                 (inr (VObject [("invalidReason", VString "insufficient_funds")])))
              (VObject [("invalidReason", VString "insufficient_funds")]))
    as (r & w' & H1 & _ & H3); try reflexivity; try discriminate.
  exists r, w'. split; [exact H1 |].
  change (ToString _) with (@inr thrown string "insufficient_funds") in H3.
  cbv iota in H3.
  split; [exact (proj1 H3) | exact (proj2 (proj2 (proj2 H3)))].
Defined.

(** A report with a humidity and no wind speed. *)
Lemma weatherReportText_lines_witness :
  weatherReportText
    (VObject [("conditions", VString "Sunny"); ("humidity", VNumber 40)])
  = inr (reportLines
           (VObject [("conditions", VString "Sunny"); ("humidity", VNumber 40)])).
Proof.
  rewrite (weatherReportText_lines
             (VObject [("conditions", VString "Sunny"); ("humidity", VNumber 40)]));
    reflexivity.
Defined.

(** "YES" and "yes". *)
Lemma classification_ignores_case_witness :
  validate (fixtureRuntime (inr []))
    (mkMemory "m1" "room" (mkContent (Some "YES") None None))
  = validate (fixtureRuntime (inr []))
      (mkMemory "m1" "room" (mkContent (Some "yes") None None)).
Proof.
  apply (classification_ignores_case (fixturePlatform paywall true)
           (fixtureRuntime (inr [])) "m1" "room" None None "YES" "yes" w0).
  reflexivity.
Defined.

(** No key configured: [init] passes, sets the default URL and leaves
    PRIVATE_KEY unset. *)
Lemma init_success_env_witness :
  exists env',
    Plugin.init (fun _ => true) (fixtureEnv []) (fixtureEnv []) = inr env'
    /\ env' "WEATHER_API_URL" = Some DEFAULT_API_URL
    /\ env' "PRIVATE_KEY" = None.
Proof.
  eexists. split; [reflexivity |].
  destruct (init_success_env (fun _ => true) (fixtureEnv []) (fixtureEnv [])
              _ eq_refl) as (H1 & H2 & _).
  split; [exact H1 | exact H2].
Defined.
